(** * Asset issuance messages: validation, wire codec and ledger effects

    A shallow embedding of [counterpartylib/lib/messages/issuance.py]
    ([validate], the Type 20 / Type 21 encoders of [compose], and [parse]),
    together with the properties of the issuance specification that can be
    settled on it.

    Conventions of the embedding.
    - A Python [str] is represented by its UTF-8 encoding, a Rocq [string]
      (a sequence of bytes); [py_len] counts code points.
    - A Python [float] is an IEEE-754 binary64 value, [spec_float] with
      precision 53 and maximal exponent 1024.
    - A Python exception that the source does not catch ends the run:
      [Raise e]. [UnpackError] and the asset-name errors are caught by
      [parse] itself and are modelled by [option].
    - SQL statements run against a store made of the ledger tables and a
      journal of the statements executed so far. *)

From Stdlib Require Import ZArith List String Ascii Bool Lia.
From Stdlib Require Import Strings.Byte.
From Stdlib Require Import SpecFloat DecimalString.
Import ListNotations.

Open Scope string_scope.
Open Scope list_scope.
Open Scope Z_scope.

(** ** Python values *)

Module Py.

Inductive exn : Set :=
| TypeError | IndexError | OverflowError | StructError | SystemError
| AssertionError | AssetNameError.

Inductive res (A : Type) : Type :=
| Ok (a : A)
| Raise (e : exn).
Arguments Ok {A} a.
Arguments Raise {A} e.

Definition float : Set := spec_float.

Definition prec : Z := 53.
Definition emax : Z := 1024.

Definition fzero : float := S754_zero false.

(** [float(n)] for an [int]: round to nearest even, [OverflowError] when the
    result does not fit a binary64. *)
Definition float_of_int (z : Z) : res float :=
  match binary_normalize prec emax z 0 false with
  | S754_infinity _ => Raise OverflowError
  | f => Ok f
  end.

Inductive pyval : Set :=
| PNone
| PBool (b : bool)
| PInt (z : Z)
| PFloat (f : float)
| PStr (s : string).

(** [bool(v)]. A NaN is true, both zeros are false. *)
Definition truthy (v : pyval) : bool :=
  match v with
  | PNone => false
  | PBool b => b
  | PInt z => negb (z =? 0)
  | PFloat f => negb (SFeqb f fzero)
  | PStr s => negb (s =? "")%string
  end.

(** [isinstance(v, int)]: [bool] is a subclass of [int]. *)
Definition isinstance_int (v : pyval) : bool :=
  match v with
  | PBool _ | PInt _ => true
  | _ => false
  end.

Definition isinstance_float (v : pyval) : bool :=
  match v with
  | PFloat _ => true
  | _ => false
  end.

(** Numbers, as the comparison operators see them. *)
Inductive num : Set :=
| NInt (z : Z)
| NFloat (f : float).

Definition as_num (v : pyval) : option num :=
  match v with
  | PBool b => Some (NInt (if b then 1 else 0))
  | PInt z => Some (NInt z)
  | PFloat f => Some (NFloat f)
  | PNone | PStr _ => None
  end.

(** Exact comparison of an integer with a binary64, as Python does it;
    [None] when the float is a NaN. *)
Definition Z_SF_compare (z : Z) (f : float) : option comparison :=
  match f with
  | S754_nan => None
  | S754_zero _ => Some (z ?= 0)
  | S754_infinity s => Some (if s then Gt else Lt)
  | S754_finite s m e =>
      let v := cond_Zopp s (Zpos m) in
      Some (match e with
            | Zneg p => (z * 2 ^ Zpos p ?= v)
            | _ => (z ?= v * 2 ^ e)
            end)
  end.

Definition num_compare (x y : num) : option comparison :=
  match x, y with
  | NInt a, NInt b => Some (a ?= b)
  | NFloat a, NFloat b => SFcompare a b
  | NInt a, NFloat b => Z_SF_compare a b
  | NFloat a, NInt b => option_map CompOpp (Z_SF_compare b a)
  end.

Definition num_ltb (x y : num) : bool :=
  match num_compare x y with Some Lt => true | _ => false end.

Definition num_eqb (x y : num) : bool :=
  match num_compare x y with Some Eq => true | _ => false end.

(** [a < b]; [a > b] is [py_lt b a]. Numbers compare by value, strings by
    code points (which is the order of their UTF-8 bytes); anything else is
    a [TypeError]. *)
Definition py_lt (a b : pyval) : res bool :=
  match a, b with
  | PStr x, PStr y =>
      Ok (match String.compare x y with Lt => true | _ => false end)
  | _, _ =>
      match as_num a, as_num b with
      | Some x, Some y => Ok (num_ltb x y)
      | _, _ => Raise TypeError
      end
  end.

(** [v != n] for an integer [n]: values of other kinds are simply
    different. *)
Definition py_ne_int (v : pyval) (n : Z) : bool :=
  match as_num v with
  | Some x => negb (num_eqb x (NInt n))
  | None => true
  end.

(** [min(v, n)]: the second argument only when it is strictly smaller. *)
Definition py_min_int (v : pyval) (n : Z) : res pyval :=
  match as_num v with
  | Some x => Ok (if num_ltb (NInt n) x then PInt n else v)
  | None => Raise TypeError
  end.

(** The integer behind a value that passed [isinstance(v, int)]. *)
Definition int_of (v : pyval) : res Z :=
  match v with
  | PBool b => Ok (if b then 1 else 0)
  | PInt z => Ok z
  | _ => Raise TypeError
  end.

(** *** Strings *)

Definition is_continuation (a : ascii) : bool :=
  let n := Z.of_nat (nat_of_ascii a) in (128 <=? n) && (n <=? 191).

(** [len(s)]: the number of code points, that is of bytes that do not
    continue a multi-byte sequence. *)
Fixpoint py_len (s : string) : Z :=
  match s with
  | EmptyString => 0
  | String a s' => (if is_continuation a then 0 else 1) + py_len s'
  end.

(** [', '.join]-style concatenation with a separator. *)
Fixpoint join (sep : string) (l : list string) : string :=
  match l with
  | [] => ""
  | [x] => x
  | x :: l' => (x ++ sep ++ join sep l')%string
  end.

(** [pat in s] on strings: naive search for [pat] at every position. *)
Fixpoint contains (pat s : string) : bool :=
  String.prefix pat s ||
  match s with
  | EmptyString => false
  | String _ s' => contains pat s'
  end.

(** [x in l] on a list of strings. *)
Definition mem (x : string) (l : list string) : bool :=
  existsb (String.eqb x) l.

(** [s.lower() == 'lock']. Besides the ASCII capitals, the only code point
    whose lower case is one of l, o, c, k is U+212A KELVIN SIGN. *)
Definition lower_is (c : ascii) (a : ascii) : bool :=
  Ascii.eqb a c || Ascii.eqb a (ascii_of_nat (nat_of_ascii c - 32)%nat).

Definition lower_is_lock (s : string) : bool :=
  match s with
  | String l (String o (String c rest)) =>
      lower_is "l"%char l && lower_is "o"%char o && lower_is "c"%char c &&
      match rest with
      | String k EmptyString => lower_is "k"%char k
      | String k1 (String k2 (String k3 EmptyString)) =>
          Ascii.eqb k1 (ascii_of_nat 226) && Ascii.eqb k2 (ascii_of_nat 132)
          && Ascii.eqb k3 (ascii_of_nat 170)
      | _ => false
      end
  | _ => false
  end.

(** [str(n)] for an [int]. *)
Definition str_of_int (z : Z) : string :=
  NilZero.string_of_int (Z.to_int z).

End Py.

(** ** Byte strings and the [struct] formats of the wire codec *)

Module Struct.
Import Py.

Definition byte_val (b : byte) : Z := Z.of_N (Byte.to_N b).

Definition byte_of_Z (z : Z) : byte :=
  match Byte.of_N (Z.to_N (z mod 256)) with
  | Some b => b
  | None => x00
  end.

(** Big-endian unsigned integers: the [Q], [I] and [B] formats under [>]. *)
Fixpoint be_decode_from (acc : Z) (bs : list byte) : Z :=
  match bs with
  | [] => acc
  | b :: bs' => be_decode_from (acc * 256 + byte_val b) bs'
  end.

Definition be_decode (bs : list byte) : Z := be_decode_from 0 bs.

Fixpoint be_encode (n : nat) (z : Z) : list byte :=
  match n with
  | O => []
  | S n' => byte_of_Z (z / 256 ^ Z.of_nat n') :: be_encode n' z
  end.

(** [struct.pack] of an unsigned integer of [n] bytes: [struct.error] when
    the value is out of range. *)
Definition pack_uint (n : nat) (z : Z) : res (list byte) :=
  if (0 <=? z) && (z <? 256 ^ Z.of_nat n)
  then Ok (be_encode n z)
  else Raise StructError.

(** The [?] format. *)
Definition pack_bool (b : bool) : list byte := [if b then x01 else x00].

Definition unpack_bool (bs : list byte) : bool :=
  negb (be_decode bs =? 0).

Definition zeros (n : nat) : list byte := repeat x00 n.

(** [count s]: exactly [count] bytes, cut or padded with zeros. *)
Definition pack_s (count : nat) (data : list byte) : list byte :=
  firstn count data ++ zeros (count - List.length data).

(** [count p], a Pascal string: a length byte, then at most [count - 1]
    bytes (and never more than 255), padded with zeros. *)
Definition pack_p (count : nat) (data : list byte) : list byte :=
  match count with
  | O => []
  | S room =>
      let n := Nat.min (Nat.min (List.length data) room) 255 in
      byte_of_Z (Z.of_nat n) :: firstn n data ++ zeros (room - n)
  end.

(** Unpacking [count p] from [count] bytes. With a count of zero CPython
    asks for a byte string of negative size and raises [SystemError]. *)
Definition unpack_p (count : nat) (bs : list byte) : res (list byte) :=
  match count, bs with
  | S room, b :: rest =>
      let n := Z.to_nat (byte_val b) in
      Ok (firstn (if (count <=? n)%nat then room else n) rest)
  | _, _ => Raise SystemError
  end.

(** [message[a:b]] *)
Definition slice (a b : nat) (bs : list byte) : list byte :=
  firstn (b - a) (skipn a bs).

Definition len (bs : list byte) : Z := Z.of_nat (List.length bs).

(** *** UTF-8 *)

Definition in_range (lo hi : Z) (b : byte) : bool :=
  (lo <=? byte_val b) && (byte_val b <=? hi).

Definition cont (b : byte) : bool := in_range 128 191 b.

(** Well-formed UTF-8, as the strict decoder accepts it: shortest forms
    only, no surrogates, nothing above U+10FFFF. *)
Fixpoint utf8_valid (bs : list byte) : bool :=
  match bs with
  | [] => true
  | b1 :: r1 =>
      if in_range 0 127 b1 then utf8_valid r1
      else
        match r1 with
        | [] => false
        | b2 :: r2 =>
            if in_range 194 223 b1 then cont b2 && utf8_valid r2
            else
              match r2 with
              | [] => false
              | b3 :: r3 =>
                  if in_range 224 239 b1 then
                    (if byte_val b1 =? 224 then in_range 160 191 b2
                     else if byte_val b1 =? 237 then in_range 128 159 b2
                     else cont b2)
                    && cont b3 && utf8_valid r3
                  else
                    match r3 with
                    | [] => false
                    | b4 :: r4 =>
                        in_range 240 244 b1 &&
                        (if byte_val b1 =? 240 then in_range 144 191 b2
                         else if byte_val b1 =? 244 then in_range 128 143 b2
                         else cont b2)
                        && cont b3 && cont b4 && utf8_valid r4
                    end
              end
        end
  end.

(** [s.encode('utf-8')]: the representation itself. *)
Definition encode_utf8 (s : string) : list byte := list_byte_of_string s.

End Struct.

(** ** The ledger store *)

Module Ledger.
Import Py.

(** A row of [issuances]. The payload columns are empty ([None]) on a row
    written for a message that could not be unpacked. *)
Record issuance_row : Set := mk_issuance {
  i_tx_index : Z;
  i_tx_hash : string;
  i_msg_index : Z;
  i_block_index : Z;
  i_asset : option string;
  i_quantity : option Z;
  i_divisible : option bool;
  i_source : string;
  i_issuer : string;
  i_transfer : bool;
  i_callable : option bool;
  i_call_date : pyval;
  i_call_price : pyval;
  i_description : option string;
  i_fee_paid : Z;
  i_locked : bool;
  i_status : string;
  i_asset_longname : option string;
  i_listed : option bool;
  i_reassignable : option bool;
  i_vendable : option bool;
  i_fungible : option bool
}.

Record asset_row : Set := mk_asset {
  a_asset_id : string;
  a_asset_name : string;
  a_block_index : Z;
  a_asset_longname : option string;
  a_asset_group : option string
}.

Record balance_row : Set := mk_balance {
  b_address : string;
  b_asset : string;
  b_quantity : Z
}.

(** The tables this module reads and writes, and the tables of the
    collaborators (dispensers, asset groups, debits, credits, ...) as
    untyped rows under their table name. *)
Record DB : Set := mk_db {
  issuances : list issuance_row;
  assets : list asset_row;
  balances : list balance_row;
  others : list (string * list (list pyval))
}.

Inductive table : Set := T_issuances | T_assets | T_balances.

Inductive stmt : Set :=
| SELECT (t : table)
| INSERT (t : table).

(** The store a cursor works on: the tables and the statements executed. *)
Record Store : Set := mk_store {
  db : DB;
  journal : list stmt
}.

(** The transaction a message arrived in. *)
Record transaction : Set := mk_tx {
  tx_index : Z;
  tx_hash : string;
  tx_block_index : Z;
  tx_source : string;
  tx_destination : option string
}.

(** Computations on the store that may raise. *)
Definition M (A : Type) : Type := Store -> res (A * Store).

Definition ret {A} (a : A) : M A := fun s => Ok (a, s).

Definition bind {A B} (m : M A) (k : A -> M B) : M B :=
  fun s => match m s with
           | Ok (a, s') => k a s'
           | Raise e => Raise e
           end.

Definition lift {A} (r : res A) : M A :=
  fun s => match r with
           | Ok a => Ok (a, s)
           | Raise e => Raise e
           end.

Definition get_db : M DB := fun s => Ok (db s, s).

Definition modify_db (f : DB -> DB) : M unit :=
  fun s => Ok (tt, mk_store (f (db s)) (journal s)).

Definition record (q : stmt) (s : Store) : Store :=
  mk_store (db s) (journal s ++ [q]).

(** [ORDER BY tx_index ASC]; rows of equal index stay in table order. *)
Fixpoint insert_by_tx_index (r : issuance_row) (l : list issuance_row)
  : list issuance_row :=
  match l with
  | [] => [r]
  | x :: l' =>
      if i_tx_index r <=? i_tx_index x then r :: l
      else x :: insert_by_tx_index r l'
  end.

Definition order_by_tx_index (l : list issuance_row) : list issuance_row :=
  fold_right insert_by_tx_index [] l.

Definition opt_is (o : option string) (x : string) : bool :=
  match o with
  | Some y => String.eqb y x
  | None => false
  end.

(** [column = ?] with a binding that may be [None]: SQL's [NULL] equals
    nothing. *)
Definition cell_is (o binding : option string) : bool :=
  match binding with
  | Some x => opt_is o x
  | None => false
  end.

(** [SELECT * FROM issuances WHERE (status = ? AND asset = ?)
     ORDER BY tx_index ASC] *)
Definition issuances_where (status : string) (asset : option string) (d : DB)
  : list issuance_row :=
  order_by_tx_index
    (filter (fun r => String.eqb (i_status r) status
                      && cell_is (i_asset r) asset)
            (issuances d)).

Definition select_issuances (status : string) (asset : option string)
  : M (list issuance_row) :=
  fun s => Ok (issuances_where status asset (db s),
               record (SELECT T_issuances) s).

(** [SELECT * FROM assets WHERE (asset_longname = ?)] *)
Definition assets_where (longname : string) (d : DB) : list asset_row :=
  filter (fun r => opt_is (a_asset_longname r) longname) (assets d).

Definition select_assets (longname : string) : M (list asset_row) :=
  fun s => Ok (assets_where longname (db s), record (SELECT T_assets) s).

(** [SELECT * FROM balances WHERE (address = ? AND asset = ?)] *)
Definition balances_where (address asset : string) (d : DB)
  : list balance_row :=
  filter (fun r => String.eqb (b_address r) address
                   && String.eqb (b_asset r) asset)
         (balances d).

Definition select_balances (address asset : string)
  : M (list balance_row) :=
  fun s => Ok (balances_where address asset (db s),
               record (SELECT T_balances) s).

(** [insert into assets values(...)] *)
Definition insert_asset (r : asset_row) : M unit :=
  fun s =>
    let d := db s in
    Ok (tt, record (INSERT T_assets)
              (mk_store (mk_db (issuances d) (assets d ++ [r]) (balances d)
                               (others d))
                        (journal s))).

(** [insert into issuances values(...)] *)
Definition insert_issuance (r : issuance_row) : M unit :=
  fun s =>
    let d := db s in
    Ok (tt, record (INSERT T_issuances)
              (mk_store (mk_db (issuances d ++ [r]) (assets d) (balances d)
                               (others d))
                        (journal s))).

End Ledger.

Declare Scope issuance_scope.
Notation "x <- c ;; k" := (Ledger.bind c (fun x => k))
  (at level 61, c at next level, right associativity) : issuance_scope.
Notation "c ;;; k" := (Ledger.bind c (fun _ => k))
  (at level 61, right associativity) : issuance_scope.
Open Scope issuance_scope.

(** ** Configuration and collaborators *)

Module Config.

(** Modelled from the spec: [config.UNIT], [config.MAX_INT] of the absent
    [config] module: UNIT = 10^8, MAX_INT = 2^63 - 1. *)
Definition UNIT : Z := 100000000.
Definition MAX_INT : Z := 2 ^ 63 - 1.

End Config.

(** What the module takes from its surroundings: the network mode and the
    symbolic names of [config], the helpers of [util], the [dispenser] and
    [assetgroup] modules, and the float routines of the run time. *)
Record Env : Type := mk_env {
  TESTNET : bool;
  REGTEST : bool;
  BTC : string;
  XCP : string;
  (** [util.CURRENT_BLOCK_INDEX] *)
  CURRENT_BLOCK_INDEX : Z;
  (** [util.enabled(name, block_index)] at an explicit height *)
  enabled_at : string -> Z -> bool;
  (** [util.generate_asset_name]; [None] for [AssetIDError] *)
  generate_asset_name : Z -> Z -> option string;
  generate_asset_id : string -> Z -> Z;
  compact_subasset_longname : string -> list byte;
  expand_subasset_longname : list byte -> string;
  (** [util.validate_subasset_longname]; [false] for [AssetNameError] *)
  validate_subasset_longname : string -> option string -> bool;
  (** [util.parse_subasset_from_asset_name]; [None] for [AssetNameError] *)
  parse_subasset_from_asset_name : string -> option (string * option string);
  util_debit : Ledger.DB -> string -> string -> Z -> string -> string
               -> Ledger.DB;
  util_credit : Ledger.DB -> string -> string -> Z -> string -> string
                -> Ledger.DB;
  dispenser_is_opened : Ledger.DB -> string -> bool;
  assetgroup_validate : Ledger.DB -> string -> string -> list string;
  assetgroup_create : Ledger.DB -> Z -> string -> Z -> option string
                      -> string -> string -> Ledger.DB;
  (** the name [util.generate_random_asset()] draws *)
  generate_random_asset : string;
  (** [message_type.pack(id)], the prefix the caller of [parse] takes off *)
  message_type_pack : Z -> list byte;
  (** [bytes.decode('utf-8', 'replace')] on ill-formed input *)
  utf8_decode_replace : list byte -> string;
  (** the bits of the binary32 nearest to a float ([f] format); raises
      [OverflowError] when it is too large *)
  f32_bits : Py.float -> Py.res Z;
  f32_of_bits : Z -> Py.float;
  (** [round(x, 6)] *)
  round6 : Py.float -> Py.float
}.

(** ** [validate] *)

Module Issuance.
Import Py Struct Ledger Config.

Definition rbind {A B} (r : res A) (k : A -> res B) : res B :=
  match r with
  | Ok a => k a
  | Raise e => Raise e
  end.

Notation "x <~ c ;; k" := (rbind c (fun x => k))
  (at level 61, c at next level, right associativity) : issuance_scope.

Definition LENGTH_1 : Z := 8 + 8 + 1.
Definition LENGTH_2 : Z := 8 + 8 + 1 + 1 + 4 + 4.
Definition SUBASSET_FORMAT_LENGTH : Z := 8 + 8 + 1 + 1.
Definition ID : Z := 20.
Definition SUBASSET_ID : Z := 21.

(** What [validate] returns: the resolved fields, the problems and the fee.
    [reissuance] is [None] on the three early returns. *)
Record validated : Set := mk_validated {
  v_call_date : pyval;
  v_call_price : pyval;
  v_problems : list string;
  v_fee : Z;
  v_description : string;
  v_divisible : bool;
  v_listed : bool;
  v_reassignable : bool;
  v_vendable : bool;
  v_fungible : bool;
  v_reissuance : option bool;
  v_reissued_asset_longname : option string
}.

Definition default {A} (o : option A) (d : A) : A :=
  match o with
  | Some a => a
  | None => d
  end.

(** [bool(cell)] for a boolean column that may be empty. *)
Definition cell_bool (o : option bool) : bool := default o false.

(** [destination] as a condition: neither [None] nor empty. *)
Definition nonempty (o : option string) : bool :=
  match o with
  | Some s => negb (s =? "")%string
  | None => false
  end.

Definition last_row (l : list issuance_row) : option issuance_row :=
  match rev l with
  | [] => None
  | r :: _ => Some r
  end.

(** [sum([issuance['quantity'] for issuance in issuances])]: an empty cell
    is a [TypeError]. *)
Fixpoint sum_quantities (l : list issuance_row) : res Z :=
  match l with
  | [] => Ok 0
  | r :: l' =>
      match i_quantity r with
      | Some q => t <~ sum_quantities l' ;; Ok (q + t)
      | None => Raise TypeError
      end
  end.

(** The fees of the schedule: [int(0.25 * config.UNIT)],
    [int(0.0025 * config.UNIT)], [int(0.5 * config.UNIT)]. *)
Definition fee_subasset : Z := UNIT / 4.
Definition fee_nonfungible : Z := UNIT / 400.
Definition fee_half : Z := UNIT / 2.

Section WithEnv.
Context (E : Env).

(** [util.enabled(name)] reads the height from [util.CURRENT_BLOCK_INDEX],
    [util.enabled(name, block_index=b)] from its argument. *)
Definition enabled (name : string) (block_index : option Z) : bool :=
  enabled_at E name (default block_index (CURRENT_BLOCK_INDEX E)).

Definition testnet_or_regtest : bool := TESTNET E || REGTEST E.

(** Lines 159-166: the fungibility gate. *)
Definition fungibility_problems (fungible divisible : bool) (quantity : Z)
  : list string :=
  if enabled "non_fungible_assets" None then
    if negb fungible then
      if divisible then
        ["Cannot create the asset with non-fungible and divisible"]
      else if negb (quantity =? 1) then
        ["non-fungible asset can issue only 1 asset"]
      else []
    else []
  else if negb fungible then ["non-fungible assets not enabled"]
  else [].

(** Lines 168-170: the sign checks. *)
Definition sign_problems (quantity : Z) (call_price call_date : pyval)
  : res (list string) :=
  neg_price <~ py_lt call_price (PInt 0) ;;
  neg_date <~ py_lt call_date (PInt 0) ;;
  Ok ((if quantity <? 0 then ["negative quantity"] else [])
      ++ (if neg_price then ["negative call price"] else [])
      ++ (if neg_date then ["negative call date"] else [])).

(** Lines 173-181: callable, or not. *)
Definition callable_block (callable_ : bool) (block_index : Z)
  (call_date call_price : pyval) : pyval * pyval * list string :=
  if negb callable_ then
    if (block_index >=? 312500) || TESTNET E || REGTEST E then
      (PInt 0, PFloat fzero, [])
    else if block_index >=? 310000 then
      (call_date, call_price,
       (if truthy call_date then ["call date for non‐callable asset"] else [])
       ++ (if truthy call_price then ["call price for non‐callable asset"] else []))
    else (call_date, call_price, [])
  else (call_date, call_price, []).

(** Lines 195-203: is the asset locked? *)
Definition issuance_locked (issuances : list issuance_row)
  (last_issuance : issuance_row) : bool :=
  if enabled "issuance_lock_fix" None then existsb i_locked issuances
  else i_locked last_issuance.

(** Lines 213-218: the vendable flag. *)
Definition vendable_problems (d : DB) (asset : string)
  (last_issuance : issuance_row) (vendable : bool) : list string :=
  if negb (Bool.eqb (cell_bool (i_vendable last_issuance)) vendable) then
    if match i_vendable last_issuance with
       | Some false => true
       | _ => false
       end
       || enabled "enable_vendable_fix" None
    then ["Cannot change vendable flag"]
    else if dispenser_is_opened E d asset then
      ["Cannot change vendable flag because the asset is dispending"]
    else []
  else [].

(** Lines 192-226: the checks of a re-issuance against the last valid
    issuance. *)
Definition reissuance_problems (d : DB) (issuances : list issuance_row)
  (last_issuance : issuance_row) (source asset : string) (quantity : Z)
  (divisible listed reassignable vendable callable_ : bool)
  (call_date call_price : pyval) (block_index : Z) : res (list string) :=
  let locked := issuance_locked issuances last_issuance in
  date_before <~ py_lt call_date (i_call_date last_issuance) ;;
  price_below <~ py_lt call_price (i_call_price last_issuance) ;;
  Ok ((if negb (i_issuer last_issuance =? source)%string
       then ["issued by another address"] else [])
      ++ (if negb (Bool.eqb (cell_bool (i_divisible last_issuance)) divisible)
          then ["cannot change divisibility"] else [])
      ++ (if negb (Bool.eqb (cell_bool (i_listed last_issuance)) listed)
          then ["cannot change listing flag"] else [])
      ++ (if negb (Bool.eqb (cell_bool (i_reassignable last_issuance))
                            reassignable)
          then ["cannot change reassignable flag"] else [])
      ++ vendable_problems d asset last_issuance vendable
      ++ (if negb (Bool.eqb (cell_bool (i_callable last_issuance)) callable_)
          then ["cannot change callability"] else [])
      ++ (if date_before
             && (py_ne_int call_date 0
                 || ((block_index <? 312500)
                     && (negb (TESTNET E) || negb (REGTEST E))))
          then ["cannot advance call date"] else [])
      ++ (if price_below then ["cannot reduce call price"] else [])
      ++ (if locked && negb (quantity =? 0)
          then ["locked asset and non‐zero quantity"] else [])).

(** Lines 228-232: the checks of a first issuance. *)
Definition first_issuance_problems (description : string) (fungible : bool)
  (destination : option string) : list string :=
  (if lower_is_lock description && fungible
   then ["cannot lock a non‐existent asset"] else [])
  ++ (if nonempty destination
      then ["cannot transfer a non‐existent asset"] else []).

(** Lines 235-251: parent ownership for a subasset, group validation for a
    non-fungible one. *)
Definition parent_problems (source : string) (fungible : bool)
  (subasset_parent subasset_longname : option string) : M (list string) :=
  match subasset_longname with
  | Some longname =>
      if fungible then
        parent_issuances <- select_issuances "valid" subasset_parent ;;
        ret (match last_row parent_issuances with
             | Some last_parent_issuance =>
                 if negb (i_issuer last_parent_issuance =? source)%string
                 then ["parent asset owned by another address"]
                 else []
             | None => ["parent asset not found"]
             end)
      else
        d <- get_db ;;
        ret (assetgroup_validate E d longname source)
  | None => ret []
  end.

(** [asset[0] != 'A']: an [IndexError] on the empty name. *)
Definition first_is_not_A (asset : string) : res bool :=
  match asset with
  | EmptyString => Raise IndexError
  | String c _ => Ok (negb (Ascii.eqb c "A"%char))
  end.

(** Lines 253-267: a new subasset is not a duplicate and sits on a numeric
    asset. *)
Definition new_subasset_problems (asset : string) (fungible reissuance : bool)
  (subasset_longname : option string) : M (list string) :=
  match subasset_longname with
  | Some longname =>
      if negb reissuance then
        dup <- (if fungible then
                  found <- select_assets longname ;;
                  ret (if 0 <? Z.of_nat (List.length found)
                       then ["subasset already exists"] else [])
                else ret []) ;;
        not_numeric <- lift (first_is_not_A asset) ;;
        ret (dup ++ (if not_numeric
                     then ["parent asset must be a numeric asset"] else []))
      else ret []
  | None => ret []
  end.

(** Lines 278-298: the fee schedule. *)
Definition fee_schedule (asset : string) (fungible : bool)
  (subasset_longname : option string) (block_index : Z) : Z :=
  if enabled "numeric_asset_names" None then
    let fee :=
      match subasset_longname with
      | Some _ =>
          if enabled "subassets" None && fungible then fee_subasset
          else if enabled "non_fungible_assets" None && negb fungible
               then fee_nonfungible
          else fee_nonfungible
      | None =>
          if py_len asset >=? 13 then 0 else fee_half
      end in
    if enabled "fee_revision_2021_1q" None then fee * 100 else fee
  else if (block_index >=? 291700) || TESTNET E || REGTEST E then fee_half
  else if (block_index >=? 286000) || TESTNET E || REGTEST E then 5 * UNIT
  else if (block_index >? 281236) || TESTNET E || REGTEST E then 5
  else 0.

(** Lines 271-300: the fee, and whether the source can pay it. *)
Definition fee_block (source asset : string) (quantity : Z)
  (fungible reissuance : bool) (subasset_longname : option string)
  (block_index : Z) : M (Z * list string) :=
  if negb (quantity =? 0)
     || ((block_index >=? 315000) || TESTNET E || REGTEST E) then
    if negb reissuance
       || ((block_index <? 310000) && negb (TESTNET E) && negb (REGTEST E))
    then
      found <- select_balances source (XCP E) ;;
      let fee := fee_schedule asset fungible subasset_longname block_index in
      ret (fee,
           if negb (fee =? 0)
              && match found with
                 | [] => true
                 | b :: _ => b_quantity b <? fee
                 end
           then ["insufficient funds"] else [])
    else ret (0, [])
  else ret (0, []).

(** Lines 302-310: the description length before block 317500, and the
    flags that need their feature. *)
Definition late_problems (description : string) (listed reassignable : bool)
  (block_index : Z) : list string :=
  (if negb ((block_index >=? 317500) || TESTNET E || REGTEST E)
      && (py_len description >? 42)
   then ["description too long"] else [])
  ++ (if negb listed && negb (enabled "delisted_assets" (Some block_index))
      then ["invalid: delisted assets not supported yet."] else [])
  ++ (if negb reassignable
         && negb (enabled "non_reassignable_assets" (Some block_index))
      then ["invalid: non-reassignable assets not supported yet."] else []).

(** Lines 313-324: the overflow guards. *)
Definition overflow_problems (issuances : list issuance_row)
  (destination : option string) (quantity fee block_index : Z)
  : res (list string) :=
  total <~ sum_quantities issuances ;;
  Ok ((if total + quantity >? MAX_INT
       then ["total quantity overflow"] else [])
      ++ (if nonempty destination && negb (quantity =? 0)
          then ["cannot issue and transfer simultaneously"] else [])
      ++ (if enabled "integer_overflow_fix" (Some block_index)
             && ((fee >? MAX_INT) || (quantity >? MAX_INT))
          then ["integer overflow"] else [])).

(** Lines 159-326: [validate] once the three type checks have passed;
    [quantity] is the integer behind the checked value. *)
Definition validate_checked (problems : list string)
  (source : string) (destination : option string) (asset : string)
  (quantity : Z) (divisible listed reassignable vendable fungible : bool)
  (callable_ : bool) (call_date call_price : pyval) (description : string)
  (subasset_parent subasset_longname : option string) (block_index : Z)
  : M validated :=
  let problems := problems ++ fungibility_problems fungible divisible quantity in
  signs <- lift (sign_problems quantity call_price call_date) ;;
  let problems := problems ++ signs in
  let '(call_date, call_price, callability) :=
    callable_block callable_ block_index call_date call_price in
  let problems := problems ++ callability in
  issuances <- select_issuances "valid" (Some asset) ;;
  d <- get_db ;;
  found <- lift
    (match last_row issuances with
     | Some last_issuance =>
         ps <~ reissuance_problems d issuances last_issuance source asset
                 quantity divisible listed reassignable vendable callable_
                 call_date call_price block_index ;;
         Ok (true, i_asset_longname last_issuance, ps)
     | None =>
         Ok (false, None,
             first_issuance_problems description fungible destination)
     end) ;;
  let '(reissuance, reissued_asset_longname, ps) := found in
  let problems := problems ++ ps in
  parent <- parent_problems source fungible subasset_parent subasset_longname ;;
  let problems := problems ++ parent in
  fresh <- new_subasset_problems asset fungible reissuance subasset_longname ;;
  let problems := problems ++ fresh in
  paid <- fee_block source asset quantity fungible reissuance
            subasset_longname block_index ;;
  let '(fee, funds) := paid in
  let problems := problems ++ funds in
  let problems :=
    problems ++ late_problems description listed reassignable block_index in
  call_date <- lift (py_min_int call_date MAX_INT) ;;
  overflow <- lift (overflow_problems issuances destination quantity fee
                      block_index) ;;
  let problems := problems ++ overflow in
  ret (mk_validated call_date call_price problems fee description divisible
         listed reassignable vendable fungible (Some reissuance)
         reissued_asset_longname).

(** Lines 146-147: an [int] call price becomes a float. *)
Definition widen (call_price : pyval) : res pyval :=
  if isinstance_int call_price then
    z <~ int_of call_price ;;
    f <~ float_of_int z ;;
    Ok (PFloat f)
  else Ok call_price.

(** Lines 130-326. The flags are [None], [True] or [False]. *)
Definition validate (source : string) (destination : option string)
  (asset : string) (quantity : pyval)
  (divisible listed reassignable vendable fungible : option bool)
  (callable_ : bool) (call_date call_price : pyval)
  (description : option string)
  (subasset_parent subasset_longname : option string) (block_index : Z)
  : M validated :=
  let problems := [] in
  let fee := 0 in
  let problems :=
    if (asset =? BTC E)%string || (asset =? XCP E)%string
    then problems ++ [("cannot issue " ++ BTC E ++ " or " ++ XCP E)%string]
    else problems in
  let call_date := match call_date with PNone => PInt 0 | _ => call_date end in
  let call_price :=
    match call_price with PNone => PFloat fzero | _ => call_price end in
  let description := default description "" in
  let divisible := default divisible true in
  let listed := default listed true in
  let reassignable := default reassignable true in
  let vendable := default vendable true in
  let fungible := default fungible true in
  call_price <- lift (widen call_price) ;;
  let early (problems : list string) :=
    ret (mk_validated call_date call_price problems fee description divisible
           listed reassignable vendable fungible None None) in
  if negb (isinstance_int quantity) then
    early (problems ++ ["quantity must be in satoshis"])
  else if truthy call_date && negb (isinstance_int call_date) then
    early (problems ++ ["call_date must be epoch integer"])
  else if truthy call_price && negb (isinstance_float call_price) then
    early (problems ++ ["call_price must be a float"])
  else
    quantity <- lift (int_of quantity) ;;
    validate_checked problems source destination asset quantity divisible
      listed reassignable vendable fungible callable_ call_date call_price
      description subasset_parent subasset_longname block_index.

(** ** The wire codec *)

(** Lines 389-393 and 404-408: the flags byte. *)
Definition flags_byte (divisible listed reassignable vendable fungible : bool)
  : Z :=
  Z.lor (Z.lor (Z.lor (Z.lor (if divisible then 1 else 0)
                             (if listed then 0 else 2))
                      (if reassignable then 0 else 4))
               (if vendable then 0 else 8))
        (if fungible then 0 else 16).

(** [call_price or 0.0]: a zero of either sign becomes [0.0]. *)
Definition price_or_zero (call_price : float) : float :=
  if truthy (PFloat call_price) then call_price else fzero.

(** Lines 384-394: the Type 20 message of [compose], after the message-type
    prefix. [call_date or 0] is [call_date] itself on an integer. *)
Definition encode_type20 (asset_id quantity : Z)
  (divisible listed reassignable vendable fungible callable_ : bool)
  (call_date : Z) (call_price : float) (encoded_description : list byte)
  : res (list byte) :=
  let n := List.length encoded_description in
  a <~ pack_uint 8 asset_id ;;
  q <~ pack_uint 8 quantity ;;
  f <~ pack_uint 1 (flags_byte divisible listed reassignable vendable
                      fungible) ;;
  d <~ pack_uint 4 call_date ;;
  bits <~ f32_bits E (price_or_zero call_price) ;;
  Ok (a ++ q ++ f ++ pack_bool callable_ ++ d ++ be_encode 4 bits
      ++ (if (n <=? 42)%nat then pack_p (n + 1) encoded_description
          else pack_s n encoded_description)).

(** Lines 399-409: the Type 21 message of [compose]. *)
Definition encode_type21 (asset_id quantity : Z)
  (divisible listed reassignable vendable fungible : bool)
  (subasset_longname : string) (encoded_description : list byte)
  : res (list byte) :=
  let compacted_subasset_longname :=
    compact_subasset_longname E subasset_longname in
  let compacted_subasset_length := List.length compacted_subasset_longname in
  a <~ pack_uint 8 asset_id ;;
  q <~ pack_uint 8 quantity ;;
  f <~ pack_uint 1 (flags_byte divisible listed reassignable vendable
                      fungible) ;;
  c <~ pack_uint 1 (Z.of_nat compacted_subasset_length) ;;
  Ok (a ++ q ++ f ++ c
      ++ pack_s compacted_subasset_length compacted_subasset_longname
      ++ pack_s (List.length encoded_description) encoded_description).

(** The payload of a message, as [parse] unpacks it. *)
Record unpacked : Set := mk_unpacked {
  u_asset_id : Z;
  u_quantity : Z;
  u_divisible : bool;
  u_listed : bool;
  u_reassignable : bool;
  u_vendable : bool;
  u_fungible : bool;
  u_callable : bool;
  u_call_date : Z;
  u_call_price : float;
  u_description : string;
  u_subasset_longname : option string
}.

(** Lines 430-434, 453-457, 467-471: the flags of the flags byte. *)
Definition flag_divisible (flags : Z) : bool := negb (Z.land flags 1 =? 0).
Definition flag_listed (flags : Z) : bool := Z.land flags 2 =? 0.
Definition flag_reassignable (flags : Z) : bool := Z.land flags 4 =? 0.
Definition flag_vendable (flags : Z) : bool := Z.land flags 8 =? 0.
Definition flag_fungible (flags : Z) : bool := Z.land flags 16 =? 0.

(** Lines 443-446 and 459-462: the description as text. *)
Definition decode_description (bs : list byte) : string :=
  if utf8_valid bs then string_of_list_byte bs
  else if enabled "utf-8_codec_fixes" None then utf8_decode_replace E bs
  else "".

(** The two variants of the description tail of a Type 20 message. *)
Inductive tail_format : Set :=
| Pascal (count : nat)
| Raw (count : nat).

(** Lines 448-451: the variant is chosen from the length of the message. *)
Definition curr_format (message : list byte) : tail_format :=
  if len message - LENGTH_2 <=? 42
  then Pascal (Z.to_nat (len message - LENGTH_2))
  else Raw (Z.to_nat (len message - LENGTH_2)).

Definition unpack_tail (f : tail_format) (bs : list byte) : res (list byte) :=
  match f with
  | Pascal count => unpack_p count bs
  | Raw _ => Ok bs
  end.

(** Lines 447-462: a Type 20 message of at least [LENGTH_2] bytes. *)
Definition unpack_type20 (message : list byte) : res unpacked :=
  let flags := be_decode (slice 16 17 message) in
  description <~ unpack_tail (curr_format message) (skipn 26 message) ;;
  Ok (mk_unpacked
        (be_decode (slice 0 8 message))
        (be_decode (slice 8 16 message))
        (flag_divisible flags) (flag_listed flags) (flag_reassignable flags)
        (flag_vendable flags) (flag_fungible flags)
        (unpack_bool (slice 17 18 message))
        (be_decode (slice 18 22 message))
        (round6 E (f32_of_bits E (be_decode (slice 22 26 message))))
        (decode_description description)
        None).

(** Lines 464-472: the legacy message; its third field is a boolean, which
    the flag tests read as 0 or 1. *)
Definition unpack_type20_short (message : list byte) : unpacked :=
  let flags := if unpack_bool (slice 16 17 message) then 1 else 0 in
  mk_unpacked
    (be_decode (slice 0 8 message))
    (be_decode (slice 8 16 message))
    (flag_divisible flags) (flag_listed flags) (flag_reassignable flags)
    (flag_vendable flags) (flag_fungible flags)
    false 0 fzero "" None.

(** Lines 423-446: a Type 21 message. [struct.unpack] raises [struct.error],
    which [parse] does not catch, on fewer than 18 bytes. *)
Definition unpack_type21 (message : list byte) : res (option unpacked) :=
  if len message <? SUBASSET_FORMAT_LENGTH then Raise StructError
  else
    let flags := be_decode (slice 16 17 message) in
    let compacted_subasset_length := be_decode (slice 17 18 message) in
    let description_length :=
      len message - SUBASSET_FORMAT_LENGTH - compacted_subasset_length in
    if description_length <? 0 then Ok None
    else
      let compacted_subasset_longname :=
        slice 18 (18 + Z.to_nat compacted_subasset_length) message in
      let description :=
        skipn (18 + Z.to_nat compacted_subasset_length) message in
      Ok (Some (mk_unpacked
                  (be_decode (slice 0 8 message))
                  (be_decode (slice 8 16 message))
                  (flag_divisible flags) (flag_listed flags)
                  (flag_reassignable flags) (flag_vendable flags)
                  (flag_fungible flags)
                  false 0 fzero
                  (decode_description description)
                  (Some (expand_subasset_longname E
                           compacted_subasset_longname)))).

(** Lines 421-472: unpacking; [None] stands for [UnpackError]. *)
Definition unpack (block_index : Z) (message : list byte)
  (message_type_id : Z) : res (option unpacked) :=
  if message_type_id =? SUBASSET_ID then
    if negb (enabled "subassets" (Some block_index)) then Ok None
    else unpack_type21 message
  else if ((block_index >? 283271) || TESTNET E || REGTEST E)
          && (len message >=? LENGTH_2) then
    u <~ unpack_type20 message ;;
    Ok (Some u)
  else if negb (len message =? LENGTH_1) then Ok None
  else Ok (Some (unpack_type20_short message)).

(** ** [compose] *)

(** What [compose] gives its caller: the source, the destination outputs
    and the data, or the problems of [ComposeError]. *)
Inductive composed : Set :=
| Composed (source : string) (destination_outputs : list (string * pyval))
    (data : list byte)
| ComposeError (problems : list string).

(** [call_date or 0] as an argument of the [I] format: integers only. *)
Definition int_or_zero (v : pyval) : res Z :=
  if truthy v then
    if isinstance_int v then int_of v else Raise StructError
  else Ok 0.

(** [call_price or 0.0] as an argument of the [f] format. *)
Definition float_or_zero (v : pyval) : res float :=
  if truthy v then
    match v with
    | PFloat f => Ok f
    | PNone | PStr _ => Raise StructError
    | _ => z <~ int_of v ;; float_of_int z
    end
  else Ok fzero.

(** Lines 349-373: the parent and the long name of a subasset or of a
    non-fungible asset, and the asset the message will name. *)
Definition compose_names (asset : string) (fungible : option bool)
  : M (string * option string * option string) :=
  let is_false := match fungible with Some false => true | _ => false end in
  if enabled "subassets" None && negb is_false then
    match parse_subasset_from_asset_name E asset with
    | Some (subasset_parent, Some subasset_longname) =>
        found <- select_assets subasset_longname ;;
        ret (match found with
             | existing :: _ => a_asset_name existing
             | [] => generate_random_asset E
             end,
             Some subasset_parent, Some subasset_longname)
    | Some (subasset_parent, None) => ret (asset, Some subasset_parent, None)
    | None => lift (Raise AssetNameError)
    end
  else if enabled "non_fungible_assets" None && is_false then
    ret (generate_random_asset E, Some (generate_random_asset E), Some asset)
  else ret (asset, None, None).

(** Lines 329-415. *)
Definition compose (source : string) (transfer_destination : option string)
  (asset : string) (quantity : pyval)
  (divisible listed reassignable vendable fungible : option bool)
  (description : option string) : M composed :=
  issuances <- select_issuances "valid" (Some asset) ;;
  let '(callable_, call_date, call_price) :=
    match last_row issuances with
    | Some last_issuance =>
        (cell_bool (i_callable last_issuance), i_call_date last_issuance,
         i_call_price last_issuance)
    | None => (false, PInt 0, PFloat fzero)
    end in
  names <- compose_names asset fungible ;;
  let '(asset, subasset_parent, subasset_longname) := names in
  v <- validate source transfer_destination asset quantity divisible listed
         reassignable vendable fungible callable_ call_date call_price
         description subasset_parent subasset_longname
         (CURRENT_BLOCK_INDEX E) ;;
  match v_problems v with
  | _ :: _ => ret (ComposeError (v_problems v))
  | [] =>
      let asset_id := generate_asset_id E asset (CURRENT_BLOCK_INDEX E) in
      let encoded_description := encode_utf8 (v_description v) in
      data <- lift
        (q <~ int_of quantity ;;
         match subasset_longname, cell_bool (v_reissuance v) with
         | Some longname, false =>
             packed <~ encode_type21 asset_id q (v_divisible v) (v_listed v)
                         (v_reassignable v) (v_vendable v) (v_fungible v)
                         longname encoded_description ;;
             Ok (message_type_pack E SUBASSET_ID ++ packed)
         | _, _ =>
             d <~ int_or_zero (v_call_date v) ;;
             p <~ float_or_zero (v_call_price v) ;;
             packed <~ encode_type20 asset_id q (v_divisible v) (v_listed v)
                         (v_reassignable v) (v_vendable v) (v_fungible v)
                         callable_ d p encoded_description ;;
             Ok (message_type_pack E ID ++ packed)
         end) ;;
      ret (Composed source
             (match transfer_destination with
              | Some destination =>
                  if nonempty transfer_destination
                  then [(destination, PNone)] else []
              | None => []
              end)
             data)
  end.

(** ** [parse] *)

(** The local variables of [parse] that reach the [bindings]. *)
Record locals : Set := mk_locals {
  l_status : string;
  l_asset_id : Z;
  l_asset : option string;
  l_quantity : option Z;
  l_divisible : option bool;
  l_listed : option bool;
  l_reassignable : option bool;
  l_vendable : option bool;
  l_fungible : option bool;
  l_callable : option bool;
  l_call_date : pyval;
  l_call_price : pyval;
  l_description : option string;
  l_subasset_parent : option string;
  l_subasset_longname : option string
}.

(** Lines 473-481: the asset name, or what is left after [UnpackError]. *)
Definition after_unpack (block_index : Z) (u : option unpacked) : locals :=
  match u with
  | Some u =>
      let asset := generate_asset_name E (u_asset_id u) block_index in
      mk_locals
        (match asset with
         | Some _ => "valid"
         | None => "invalid: bad asset name"
         end)
        (u_asset_id u) asset (Some (u_quantity u))
        (Some (u_divisible u)) (Some (u_listed u)) (Some (u_reassignable u))
        (Some (u_vendable u)) (Some (u_fungible u)) (Some (u_callable u))
        (PInt (u_call_date u)) (PFloat (u_call_price u))
        (Some (u_description u)) None (u_subasset_longname u)
  | None =>
      mk_locals "invalid: could not unpack" 0 None None None None None None
        None None PNone PNone None None None
  end.

Definition with_names (l : locals) (status : string) (asset : option string)
  (subasset_parent subasset_longname : option string) : locals :=
  mk_locals status (l_asset_id l) asset (l_quantity l) (l_divisible l)
    (l_listed l) (l_reassignable l) (l_vendable l) (l_fungible l)
    (l_callable l) (l_call_date l) (l_call_price l) (l_description l)
    subasset_parent subasset_longname.

(** Lines 484-500: the long name of a subasset message. *)
Definition check_subasset (l : locals) : locals :=
  match l_subasset_longname l with
  | Some longname =>
      if (l_status l =? "valid")%string then
        if cell_bool (l_fungible l) then
          if validate_subasset_longname E longname None then
            match parse_subasset_from_asset_name E longname with
            | Some (parent, child) =>
                with_names l (l_status l) (l_asset l) (Some parent) child
            | None =>
                with_names l "invalid: bad subasset name" None None
                  (Some longname)
            end
          else
            with_names l "invalid: bad subasset name" None None
              (Some longname)
        else if validate_subasset_longname E longname (Some longname) then
          with_names l (l_status l) (l_asset l) (l_asset l) (Some longname)
        else
          with_names l "invalid: bad assetgroup name" None (l_asset l)
            (Some longname)
      else l
  | None => l
  end.

(** Lines 502-509: the run of [validate], for a message that is still
    valid. Returns the locals, the fee, [reissuance] and the long name of
    the reissued asset. *)
Definition run_validate (tx : transaction) (l : locals)
  : M (locals * Z * option bool * option string) :=
  if (l_status l =? "valid")%string then
    v <- validate (tx_source tx) (tx_destination tx)
           (default (l_asset l) "")
           (match l_quantity l with Some q => PInt q | None => PNone end)
           (l_divisible l) (l_listed l) (l_reassignable l) (l_vendable l)
           (l_fungible l) (cell_bool (l_callable l)) (l_call_date l)
           (l_call_price l) (l_description l) (l_subasset_parent l)
           (l_subasset_longname l) (tx_block_index tx) ;;
    let problems := v_problems v in
    let status :=
      match problems with
      | [] => l_status l
      | _ => ("invalid: " ++ join "; " problems)%string
      end in
    let quantity :=
      if negb (enabled "integer_overflow_fix" (Some (tx_block_index tx)))
         && mem "total quantity overflow" problems
      then Some 0 else l_quantity l in
    ret (mk_locals status (l_asset_id l) (l_asset l) quantity
           (Some (v_divisible v)) (Some (v_listed v))
           (Some (v_reassignable v)) (Some (v_vendable v))
           (Some (v_fungible v)) (l_callable l) (v_call_date v)
           (v_call_price v) (Some (v_description v)) (l_subasset_parent l)
           (l_subasset_longname l),
         v_fee v, v_reissuance v, v_reissued_asset_longname v)
  else ret (l, 0, None, None).

(** [description and description.lower() == 'lock'] *)
Definition says_lock (description : option string) : bool :=
  match description with
  | Some s => negb (s =? "")%string && lower_is_lock s
  | None => false
  end.

(** Lines 523-551: the asset row of a first issuance, and the lock.
    Returns [lock] and the description to store. *)
Definition register_and_lock (tx : transaction) (l : locals)
  (reissuance : option bool) : M (bool * option string) :=
  if (l_status l =? "valid")%string then
    if negb (cell_bool reissuance) then
      insert_asset
        (mk_asset (str_of_int (l_asset_id l)) (default (l_asset l) "")
           (tx_block_index tx)
           (if cell_bool (l_fungible l) then l_subasset_longname l else None)
           (if cell_bool (l_fungible l) then None else l_subasset_longname l))
      ;;;
      if says_lock (l_description l) then lift (Raise AssertionError)
      else ret (negb (cell_bool (l_fungible l)), l_description l)
    else if says_lock (l_description l) then
      found <- select_issuances "valid" (l_asset l) ;;
      match last_row found with
      | Some last_issuance => ret (true, i_description last_issuance)
      | None => lift (Raise IndexError)
      end
    else ret (false, l_description l)
  else ret (false, l_description l).

(** Lines 417-604. Returns the [bindings] of the issuance row, which the
    source only logs. *)
Definition parse (tx : transaction) (message : list byte)
  (message_type_id : Z) : M issuance_row :=
  u <- lift (unpack (tx_block_index tx) message message_type_id) ;;
  let l := check_subasset (after_unpack (tx_block_index tx) u) in
  validated <- run_validate tx l ;;
  let '(l, fee, reissuance, reissued_asset_longname) := validated in
  let status := l_status l in
  let '(issuer, transfer, quantity) :=
    if nonempty (tx_destination tx)
    then (default (tx_destination tx) "", true, Some 0)
    else (tx_source tx, false, l_quantity l) in
  (if (status =? "valid")%string then
     modify_db (fun d => util_debit E d (tx_source tx) (XCP E) fee
                           "issuance fee" (tx_hash tx))
   else ret tt) ;;;
  locked <- register_and_lock tx l reissuance ;;
  let '(lock, description) := locked in
  let asset_longname :=
    if (status =? "valid")%string && cell_bool reissuance
    then reissued_asset_longname else l_subasset_longname l in
  let bindings :=
    mk_issuance (tx_index tx) (tx_hash tx) 0 (tx_block_index tx) (l_asset l)
      quantity (l_divisible l) (tx_source tx) issuer transfer (l_callable l)
      (l_call_date l) (l_call_price l) description fee lock status
      asset_longname (l_listed l) (l_reassignable l) (l_vendable l)
      (l_fungible l) in
  (if negb (contains "integer overflow" status) then insert_issuance bindings
   else ret tt) ;;;
  (if negb (cell_bool (l_fungible l)) then
     modify_db (fun d => assetgroup_create E d (tx_index tx) (tx_hash tx)
                           (tx_block_index tx) asset_longname issuer status)
   else ret tt) ;;;
  (if (status =? "valid")%string
      && negb (default quantity 0 =? 0) then
     modify_db (fun d => util_credit E d (tx_source tx)
                           (default (l_asset l) "") (default quantity 0)
                           "issuance" (tx_hash tx))
   else ret tt) ;;;
  ret bindings.

End WithEnv.

End Issuance.

(** ** Concrete surroundings

    A mainnet instance of the collaborators, with the feature gates given
    as the list of the names that are enabled, and the ledgers of the
    scenarios the properties below are run on. *)

Module Fixture.
Import Py Struct Ledger Config Issuance.

Definition holds (address asset : string) (b : balance_row) : bool :=
  String.eqb (b_address b) address && String.eqb (b_asset b) asset.

Definition debit (d : DB) (address asset : string) (amount : Z)
  (action event : string) : DB :=
  mk_db (issuances d) (assets d)
    (map (fun b => if holds address asset b
                   then mk_balance address asset (b_quantity b - amount)
                   else b)
         (balances d))
    (others d).

Definition credit (d : DB) (address asset : string) (amount : Z)
  (action event : string) : DB :=
  mk_db (issuances d) (assets d)
    (if existsb (holds address asset) (balances d) then
       map (fun b => if holds address asset b
                     then mk_balance address asset (b_quantity b + amount)
                     else b)
           (balances d)
     else balances d ++ [mk_balance address asset amount])
    (others d).

Definition create_group (d : DB) (tx_index : Z) (tx_hash : string)
  (block_index : Z) (longname : option string) (issuer status : string)
  : DB :=
  mk_db (issuances d) (assets d) (balances d)
    (others d
     ++ [("assetgroups",
          [[PInt tx_index; PStr tx_hash; PInt block_index;
            match longname with Some s => PStr s | None => PNone end;
            PStr issuer; PStr status]])]).

(** Numeric names only: [A] followed by the identifier. *)
Definition numeric_name (asset_id block_index : Z) : option string :=
  if asset_id <? 26 ^ 12 + 1 then None
  else Some ("A" ++ str_of_int asset_id)%string.

(** A run time whose prices are all zero: the binary32 codec is exact on
    [0.0], which is all the scenarios use. *)
Definition env (gates : list string) (height : Z) : Env :=
  mk_env false false "BTC" "XCP" height
    (fun name _ => mem name gates)
    numeric_name
    (fun _ _ => 0)
    list_byte_of_string
    string_of_list_byte
    (fun _ _ => true)
    (fun name => Some (name, None))
    debit credit
    (fun _ _ => false)
    (fun _ _ _ => [])
    create_group
    "A10000000000000000001"
    (fun id => [byte_of_Z id])
    (fun _ => "")
    (fun _ => Ok 0)
    (fun _ => fzero)
    (fun f => f).

Definition empty_db : DB := mk_db [] [] [] [].

Definition fresh (d : DB) : Store := mk_store d [].

(** A valid issuance of [asset] by [issuer]. *)
Definition issued (tx_index : Z) (asset issuer : string) (quantity : Z)
  (locked : bool) : issuance_row :=
  mk_issuance tx_index "hash" 0 300000 (Some asset) (Some quantity)
    (Some true) issuer issuer false (Some false) (PInt 0) (PFloat fzero)
    (Some "") 0 locked "valid" None (Some true) (Some true) (Some true)
    (Some true).

Definition alice : string := "alice".

Definition funded : DB :=
  mk_db [] [] [mk_balance alice "XCP" (1000 * UNIT)] [].

(** The ledger of the overflow scenario: the asset stands at
    [MAX_INT - 10]. *)
Definition numeric_asset : string := "A95428956661682177".

Definition nearly_full : DB :=
  mk_db [issued 1 numeric_asset alice (MAX_INT - 10) false] []
    [mk_balance alice "XCP" (1000 * UNIT)] [].

Definition tx_at (block_index : Z) (destination : option string)
  : transaction :=
  mk_tx 7 "txhash" block_index alice destination.

(** The Type 20 message of an issuance of [quantity] units with an empty
    description, as [compose] writes it. *)
Definition message_for (E : Env) (asset_id quantity : Z) : list byte :=
  match encode_type20 E asset_id quantity true true true true true false 0
          fzero [] with
  | Ok m => m
  | Raise _ => []
  end.

(** The Type 20 message of one indivisible unit with the description
    [lock], fungible or not. *)
Definition lock_message (E : Env) (asset_id : Z) (fungible : bool)
  : list byte :=
  match encode_type20 E asset_id 1 false true true true fungible false 0
          fzero (list_byte_of_string "lock") with
  | Ok m => m
  | Raise _ => []
  end.

(** Forty-two characters of one byte each. *)
Definition forty_two : string :=
  "yyyyyyyyyyyyyyyyyyyyyyyyyyyyyyyyyyyyyyyyyy".

(** Forty-three characters of one byte each. *)
Definition forty_three : string :=
  "xxxxxxxxxxxxxxxxxxxxxxxxxxxxxxxxxxxxxxxxxxx".

(** A ledger on which the numeric asset was locked by its second valid
    issuance and touched once more since. *)
Definition locked_then_touched : DB :=
  mk_db [issued 1 numeric_asset alice 500 false;
         issued 2 numeric_asset alice 0 true;
         issued 3 numeric_asset alice 0 false] []
    [mk_balance alice "XCP" (1000 * UNIT)] [].

(** Fifteen three-byte characters: 45 bytes, 15 code points. *)
Definition fifteen_wide : string :=
  string_of_list_byte
    (List.concat (repeat [xe3; x81; x82] 15)).

End Fixture.

(** ** Notions of the specification *)

Module Spec.
Import Py Struct Ledger Config Issuance.

Definition is_pascal (f : tail_format) : bool :=
  match f with
  | Pascal _ => true
  | Raw _ => false
  end.

Definition is_select (q : stmt) : Prop :=
  match q with
  | SELECT _ => True
  | INSERT _ => False
  end.

(** A computation that only reads: the tables are left as they were and
    the journal grows by [SELECT]s. *)
Definition reads {A} (m : M A) : Prop :=
  forall s a s',
    m s = Ok (a, s') ->
    db s' = db s /\
    exists l, journal s' = journal s ++ l /\ Forall is_select l.

(** The defaults of [call_date] and [call_price]. *)
Definition resolved_date (call_date : pyval) : pyval :=
  match call_date with PNone => PInt 0 | _ => call_date end.

Definition resolved_price (call_price : pyval) : pyval :=
  match call_price with PNone => PFloat fzero | _ => call_price end.

(** The three type checks, on the resolved call date and the widened call
    price: the message of the first one that fails. *)
Definition type_problem (quantity call_date call_price : pyval)
  : option string :=
  if negb (isinstance_int quantity) then
    Some "quantity must be in satoshis"
  else if truthy call_date && negb (isinstance_int call_date) then
    Some "call_date must be epoch integer"
  else if truthy call_price && negb (isinstance_float call_price) then
    Some "call_price must be a float"
  else None.

(** The reserved-name problem, which precedes the type checks. *)
Definition reserved_problem (E : Env) (asset : string) : list string :=
  if (asset =? BTC E)%string || (asset =? XCP E)%string
  then [("cannot issue " ++ BTC E ++ " or " ++ XCP E)%string]
  else [].

(** The ledger cells [validate] does arithmetic on are filled in on every
    valid row. *)
Definition filled (r : issuance_row) : Prop :=
  i_quantity r <> None /\ as_num (i_call_date r) <> None
  /\ as_num (i_call_price r) <> None.

Definition well_filled (d : DB) : Prop :=
  forall r, In r (issuances d) -> i_status r = "valid" -> filled r.

(** The problems each part of [validate] can report. *)
Definition fungibility_alphabet : list string :=
  ["Cannot create the asset with non-fungible and divisible";
   "non-fungible asset can issue only 1 asset";
   "non-fungible assets not enabled"].

Definition sign_alphabet : list string :=
  ["negative quantity"; "negative call price"; "negative call date"].

Definition callable_alphabet : list string :=
  ["call date for non‐callable asset"; "call price for non‐callable asset"].

Definition reissuance_alphabet : list string :=
  ["issued by another address"; "cannot change divisibility";
   "cannot change listing flag"; "cannot change reassignable flag";
   "Cannot change vendable flag";
   "Cannot change vendable flag because the asset is dispending";
   "cannot change callability"; "cannot advance call date";
   "cannot reduce call price"; "locked asset and non‐zero quantity"].

Definition first_issuance_alphabet : list string :=
  ["cannot lock a non‐existent asset";
   "cannot transfer a non‐existent asset"].

Definition parent_alphabet : list string :=
  ["parent asset owned by another address"; "parent asset not found"].

Definition new_subasset_alphabet : list string :=
  ["subasset already exists"; "parent asset must be a numeric asset"].

Definition late_alphabet : list string :=
  ["description too long"; "invalid: delisted assets not supported yet.";
   "invalid: non-reassignable assets not supported yet."].

Definition overflow_alphabet : list string :=
  ["total quantity overflow"; "cannot issue and transfer simultaneously";
   "integer overflow"].

(** What the [assetgroup] collaborator reports for this candidate, if it
    is consulted at all. *)
Definition group_problems (E : Env) (d : DB) (source : string)
  (fungible : bool) (subasset_longname : option string) : list string :=
  match subasset_longname with
  | Some longname =>
      if fungible then [] else assetgroup_validate E d longname source
  | None => []
  end.

(** The store after a conditional call of a collaborator that rewrites
    the tables, and after the conditional insertion of the issuance row. *)
Definition when_db (c : bool) (f : DB -> DB) (s : Store) : Store :=
  if c then mk_store (f (db s)) (journal s) else s.

Definition with_issuance (r : issuance_row) (s : Store) : Store :=
  record (INSERT T_issuances)
    (mk_store (mk_db (issuances (db s) ++ [r]) (assets (db s))
                 (balances (db s)) (others (db s)))
              (journal s)).

(** The [assetgroup] collaborator keeps to its own tables. *)
Definition group_keeps_ledger (E : Env) : Prop :=
  forall d tx_index tx_hash block_index longname issuer status,
    let d' := assetgroup_create E d tx_index tx_hash block_index longname
                issuer status in
    issuances d' = issuances d /\ assets d' = assets d
    /\ balances d' = balances d.

(** The fee table of section 4.2 on mainnet, first matching row. *)
Definition fee_rows (E : Env) (asset : string) (fungible : bool)
  (subasset_longname : option string) (block_index : Z)
  : list (bool * Z) :=
  let numeric := enabled E "numeric_asset_names" None in
  let sub := match subasset_longname with Some _ => true | None => false end in
  [ (numeric && sub && fungible && enabled E "subassets" None, UNIT / 4);
    (numeric && sub && negb fungible && enabled E "non_fungible_assets" None,
     UNIT / 400);
    (numeric && sub, UNIT / 400);
    (numeric && (py_len asset >=? 13), 0);
    (numeric, UNIT / 2);
    (block_index >=? 291700, UNIT / 2);
    (block_index >=? 286000, 5 * UNIT);
    (block_index >? 281236, 5) ].

Fixpoint first_row (rows : list (bool * Z)) : Z :=
  match rows with
  | [] => 0
  | (true, fee) :: _ => fee
  | (false, _) :: rows' => first_row rows'
  end.

(** The fee as the specification words it: the revision of 2021 multiplies
    every row. *)
Definition fee_as_specified (E : Env) (asset : string) (fungible : bool)
  (subasset_longname : option string) (block_index : Z) : Z :=
  let fee := first_row (fee_rows E asset fungible subasset_longname
                          block_index) in
  if enabled E "fee_revision_2021_1q" None then 100 * fee else fee.

(** The fee with the revision of 2021 confined to the rows under
    [numeric_asset_names]. *)
Definition fee_as_amended (E : Env) (asset : string) (fungible : bool)
  (subasset_longname : option string) (block_index : Z) : Z :=
  let fee := first_row (fee_rows E asset fungible subasset_longname
                          block_index) in
  if enabled E "fee_revision_2021_1q" None
     && enabled E "numeric_asset_names" None
  then 100 * fee else fee.

End Spec.

(** ** The other queries of [issuance.py] *)

Module Queries.
Import Py Struct Ledger Config Issuance.

Section WithEnv.
Context (E : Env).

(** [util.resolve_subasset_longname(db, asset)], of the absent [util]
    module. *)
Variable resolve_subasset_longname : DB -> string -> string.

(** [cell == False] on a boolean column. *)
Definition cell_is_false (o : option bool) : bool :=
  match o with
  | Some false => true
  | _ => false
  end.

(** Lines 606-628. The answer is [True], [False] or the [vendable] cell of
    the last valid issuance, which may be empty. [ORDER BY tx_index DESC
    LIMIT 1] is the last row of the ascending order. *)
Definition is_vendable (asset : string) : M (option bool) :=
  if (asset =? XCP E)%string then ret (Some true)
  else
    d <- get_db ;;
    let asset := resolve_subasset_longname d asset in
    found <- select_issuances "valid" (Some asset) ;;
    match last_row found with
    | None => ret (Some false)
    | Some last_issuance =>
        if negb (enabled E "dispensers" None) then ret (Some false)
        else if negb (enabled E "enable_vendable_fix" None)
                && (cell_is_false (i_reassignable last_issuance)
                    || cell_is_false (i_listed last_issuance))
        then ret (Some false)
        else ret (i_vendable last_issuance)
    end.

End WithEnv.

(** [SELECT asset FROM issuances WHERE tx_hash = ?] *)
Definition issuances_with_hash (tx_hash : string) (d : DB)
  : list issuance_row :=
  filter (fun r => String.eqb (i_tx_hash r) tx_hash) (issuances d).

(** Lines 630-634: the asset of the first issuance with that hash, [None]
    when there is none (or when its asset cell is empty). *)
Definition find_issuance_by_tx_hash (tx_hash : string) : M (option string) :=
  fun s =>
    Ok (match issuances_with_hash tx_hash (db s) with
        | r :: _ => i_asset r
        | [] => None
        end,
        record (SELECT T_issuances) s).

End Queries.

(** ** [send.py] *)

Module Send.
Import Py Struct.

Definition ID : Z := 0.



(** What [send] gives: the transaction, or one of the two exceptions it
    lets through. *)
Inductive outcome (T : Type) : Type :=
| Transaction (t : T)
| BalanceError
| PackError.
Arguments Transaction {T} t.
Arguments BalanceError {T}.
Arguments PackError {T}.

Section WithUtil.

(** The balances as [util] keeps them, and the transactions [bitcoin]
    builds. *)
Variables (L T : Type).

(** [util.balance], [util.debit] (which answers with a validity),
    [util.credit], [util.is_divisible], [util.get_asset_name]. *)
Variable util_balance : string -> Z -> option Z.
Variable util_debit : L -> string -> Z -> Z -> L * string.
Variable util_credit : L -> option string -> Z -> Z -> L.
Variable util_is_divisible : Z -> bool.
Variable util_get_asset_name : Z -> string.

(** [config.PREFIX], [struct.pack(config.TXTYPE_FORMAT, id)],
    [config.DUST_SIZE], [config.MIN_FEE], [bitcoin.transaction]. *)
Variable PREFIX : list byte.
Variable pack_txtype : Z -> list byte.
Variables (DUST_SIZE MIN_FEE : Z).
Variable bitcoin_transaction : string -> string -> Z -> Z -> list byte -> T.






End WithUtil.

End Send.

(** ** Further notions *)

Module Notions.
Import Py Struct Ledger Config Issuance.

(** The units of an asset in valid issuances. *)
Definition supply (d : DB) (asset : string) : res Z :=
  sum_quantities (issuances_where "valid" (Some asset) d).

(** The collaborators that rewrite the tables leave [issuances] alone. *)
Definition keeps_issuances (E : Env) : Prop :=
  (forall d address asset amount action event,
      issuances (util_debit E d address asset amount action event)
      = issuances d)
  /\ (forall d address asset amount action event,
         issuances (util_credit E d address asset amount action event)
         = issuances d)
  /\ (forall d tx_index tx_hash block_index longname issuer status,
         issuances (assetgroup_create E d tx_index tx_hash block_index
                      longname issuer status)
         = issuances d).

(** The collaborators that rewrite the tables leave [assets] alone. *)
Definition keeps_assets (E : Env) : Prop :=
  (forall d address asset amount action event,
      assets (util_debit E d address asset amount action event)
      = assets d)
  /\ (forall d address asset amount action event,
         assets (util_credit E d address asset amount action event)
         = assets d)
  /\ (forall d tx_index tx_hash block_index longname issuer status,
         assets (assetgroup_create E d tx_index tx_hash block_index
                   longname issuer status)
         = assets d).

(** The row of [assets] a first issuance is registered with. *)
Definition registration (tx : transaction) (asset_id : Z) (asset : string)
  (fungible : bool) (subasset_longname : option string) : asset_row :=
  mk_asset (str_of_int asset_id) asset (tx_block_index tx)
    (if fungible then subasset_longname else None)
    (if fungible then None else subasset_longname).

(** The statuses [parse] can give before [validate] is run. *)
Definition early_statuses : list string :=
  ["invalid: could not unpack"; "invalid: bad asset name";
   "invalid: bad subasset name"; "invalid: bad assetgroup name"].

Definition count_stmt (q : stmt) (l : list stmt) : nat :=
  List.length
    (filter (fun x => match x, q with
                      | SELECT a, SELECT b | INSERT a, INSERT b =>
                          match a, b with
                          | T_issuances, T_issuances | T_assets, T_assets
                          | T_balances, T_balances => true
                          | _, _ => false
                          end
                      | _, _ => false
                      end) l).

End Notions.

(** * Properties *)

Import Py Struct Ledger Config Issuance Spec.
Import Queries Notions.

(** ** The description tail of a Type 20 message *)

Lemma curr_format_pascal (message : list byte) :
  is_pascal (curr_format message) = (len message - LENGTH_2 <=? 42).
Proof.
  unfold curr_format.
  destruct (len message - LENGTH_2 <=? 42); reflexivity.
Qed.

(** C4, as stated, fails: on a message of 66 bytes the length-prefixed
    variant is chosen although [len(message) - 22] is 44. *)
Lemma tail_variant_not_from_22 :
  is_pascal (curr_format (repeat x00 66)) = true
  /\ ~ (len (repeat x00 66) - 22 <= 42).
Proof.
  split.
  - vm_compute. reflexivity.
  - vm_compute. intros H. apply H. reflexivity.
Qed.

(** C4, amended: the variant of the description tail is computed from
    [len(message) - LENGTH_2] with [LENGTH_2 = 26]; the length-prefixed
    variant is used if and only if that value is at most 42. *)
Theorem tail_variant_from_length_2 :
  LENGTH_2 = 26
  /\ forall message : list byte,
       is_pascal (curr_format message) = true
       <-> len message - LENGTH_2 <= 42.
Proof.
  split; [reflexivity|].
  intros message. rewrite curr_format_pascal. apply Z.leb_le.
Qed.

(** ** The flags byte *)




(** ** [validate] only reads *)

Section Reading.
Context (E : Env).

Lemma reads_ret {A} (a : A) : reads (ret a).
Proof.
  intros s a' s' H. inversion H; subst. split; [reflexivity|].
  exists []. rewrite app_nil_r. split; [reflexivity | constructor].
Qed.

Lemma reads_lift {A} (r : res A) : reads (lift r).
Proof.
  intros s a s' H. unfold lift in H. destruct r; [|discriminate].
  inversion H; subst. split; [reflexivity|].
  exists []. rewrite app_nil_r. split; [reflexivity | constructor].
Qed.

Lemma reads_get_db : reads get_db.
Proof.
  intros s a s' H. inversion H; subst. split; [reflexivity|].
  exists []. rewrite app_nil_r. split; [reflexivity | constructor].
Qed.

Lemma reads_bind {A B} (m : M A) (k : A -> M B) :
  reads m -> (forall a, reads (k a)) -> reads (bind m k).
Proof.
  intros Hm Hk s b s' H. unfold bind in H.
  destruct (m s) as [[a s1]|] eqn:Hms; [|discriminate].
  destruct (Hm _ _ _ Hms) as [Hd1 [l1 [Hj1 Hl1]]].
  destruct (Hk a _ _ _ H) as [Hd2 [l2 [Hj2 Hl2]]].
  split; [congruence|].
  exists (l1 ++ l2). split.
  - rewrite Hj2, Hj1, app_assoc. reflexivity.
  - apply Forall_app. split; assumption.
Qed.

Lemma reads_record {A} (t : table) (f : DB -> A) :
  reads (fun s => Ok (f (db s), record (SELECT t) s)).
Proof.
  intros s a s' H. inversion H; subst. split; [reflexivity|].
  exists [SELECT t]. split; [reflexivity|].
  constructor; [exact I | constructor].
Qed.

Lemma reads_select_issuances (status : string) (asset : option string) :
  reads (select_issuances status asset).
Proof. apply (reads_record T_issuances). Qed.

Lemma reads_select_assets (longname : string) :
  reads (select_assets longname).
Proof. apply (reads_record T_assets). Qed.

Lemma reads_select_balances (address asset : string) :
  reads (select_balances address asset).
Proof. apply (reads_record T_balances). Qed.

Ltac reading :=
  repeat first
    [ apply reads_ret
    | apply reads_lift
    | apply reads_get_db
    | apply reads_select_issuances
    | apply reads_select_assets
    | apply reads_select_balances
    | apply reads_bind; [| intros ?]
    | match goal with
      | |- reads (if ?c then _ else _) => destruct c
      | |- reads (match ?x with _ => _ end) => destruct x
      | |- reads (let '(_, _) := ?x in _) => destruct x
      end ].

Lemma reads_parent_problems source fungible subasset_parent
  subasset_longname :
  reads (parent_problems E source fungible subasset_parent
           subasset_longname).
Proof. unfold parent_problems. reading. Qed.

Lemma reads_new_subasset_problems asset fungible reissuance
  subasset_longname :
  reads (new_subasset_problems asset fungible reissuance subasset_longname).
Proof. unfold new_subasset_problems. reading. Qed.

Lemma reads_fee_block source asset quantity fungible reissuance
  subasset_longname block_index :
  reads (fee_block E source asset quantity fungible reissuance
           subasset_longname block_index).
Proof. unfold fee_block. reading. Qed.

Lemma reads_validate_checked problems source destination asset quantity
  divisible listed reassignable vendable fungible callable_ call_date
  call_price description subasset_parent subasset_longname block_index :
  reads (validate_checked E problems source destination asset quantity
           divisible listed reassignable vendable fungible callable_
           call_date call_price description subasset_parent
           subasset_longname block_index).
Proof.
  unfold validate_checked.
  apply reads_bind; [apply reads_lift | intros signs].
  destruct (callable_block E callable_ block_index call_date call_price)
    as [[cd cp] callability].
  apply reads_bind; [apply reads_select_issuances | intros issuances].
  apply reads_bind; [apply reads_get_db | intros d].
  apply reads_bind; [apply reads_lift | intros [[reissuance longname] ps]].
  apply reads_bind; [apply reads_parent_problems | intros parent].
  apply reads_bind; [apply reads_new_subasset_problems | intros fresh].
  apply reads_bind; [apply reads_fee_block | intros [fee funds]].
  apply reads_bind; [apply reads_lift | intros cd'].
  apply reads_bind; [apply reads_lift | intros overflow].
  apply reads_ret.
Qed.

Lemma reads_validate source destination asset quantity divisible listed
  reassignable vendable fungible callable_ call_date call_price description
  subasset_parent subasset_longname block_index :
  reads (validate E source destination asset quantity divisible listed
           reassignable vendable fungible callable_ call_date call_price
           description subasset_parent subasset_longname block_index).
Proof.
  unfold validate.
  apply reads_bind; [apply reads_lift | intros cp].
  destruct (negb (isinstance_int quantity)); [apply reads_ret|].
  match goal with |- reads (if ?c then _ else _) => destruct c end;
    [apply reads_ret|].
  match goal with |- reads (if ?c then _ else _) => destruct c end;
    [apply reads_ret|].
  apply reads_bind; [apply reads_lift | intros q].
  apply reads_validate_checked.
Qed.

End Reading.

(** C10: whatever its input, and whatever problems it reports, a run of
    [validate] that returns leaves the tables of the ledger as they were;
    the statements it executed are [SELECT]s on [issuances], [assets] and
    [balances]. *)
Theorem validate_never_mutates (E : Env) (source : string)
  (destination : option string) (asset : string) (quantity : pyval)
  (divisible listed reassignable vendable fungible : option bool)
  (callable_ : bool) (call_date call_price : pyval)
  (description : option string)
  (subasset_parent subasset_longname : option string) (block_index : Z)
  (s s' : Store) (v : validated)
  (Hrun : validate E source destination asset quantity divisible listed
            reassignable vendable fungible callable_ call_date call_price
            description subasset_parent subasset_longname block_index s
          = Ok (v, s')) :
  db s' = db s
  /\ exists executed,
       journal s' = journal s ++ executed /\ Forall is_select executed.
Proof.
  exact (reads_validate E _ _ _ _ _ _ _ _ _ _ _ _ _ _ _ _ _ _ _ Hrun).
Qed.

(** A run with problems: a re-issuance by a stranger, under a parent that
    has no valid issuance. *)
Lemma validate_never_mutates_witness :
  exists v s',
    validate (Fixture.env ["numeric_asset_names"; "subassets"] 320000)
      "bob" None Fixture.numeric_asset (PInt 5) None None None None None
      false PNone PNone None (Some "PARENT") (Some "PARENT.child") 320000
      (Fixture.fresh Fixture.nearly_full) = Ok (v, s')
    /\ v_problems v <> []
    /\ db s' = Fixture.nearly_full
    /\ journal s' = [SELECT T_issuances; SELECT T_issuances].
Proof.
  eexists. eexists.
  assert (Hrun :
    validate (Fixture.env ["numeric_asset_names"; "subassets"] 320000)
      "bob" None Fixture.numeric_asset (PInt 5) None None None None None
      false PNone PNone None (Some "PARENT") (Some "PARENT.child") 320000
      (Fixture.fresh Fixture.nearly_full) = Ok _) by (vm_compute; reflexivity).
  split; [exact Hrun|].
  split; [discriminate|].
  split.
  - exact (proj1 (validate_never_mutates _ _ _ _ _ _ _ _ _ _ _ _ _ _ _ _ _
                    _ _ _ Hrun)).
  - reflexivity.
Defined.

(** ** The type checks *)

(** C9, as stated, fails: with the reserved asset name [XCP] and a quantity
    that is a float, [validate] returns two problems. *)
Lemma type_failure_two_problems :
  exists v s',
    validate (Fixture.env [] 300000) Fixture.alice None "XCP"
      (PFloat fzero) None None None None None false PNone PNone None None
      None 300000 (Fixture.fresh Fixture.funded) = Ok (v, s')
    /\ isinstance_int (PFloat fzero) = false
    /\ v_problems v
       = ["cannot issue BTC or XCP"; "quantity must be in satoshis"]
    /\ List.length (v_problems v) <> 1%nat.
Proof.
  eexists. eexists.
  split; [vm_compute; reflexivity|].
  split; [reflexivity|].
  split; [reflexivity|].
  simpl. discriminate.
Qed.

(** C9, amended: when the widening of the call price does not overflow and
    one of the three type checks fails, [validate] returns at once, without
    a statement executed: its problems are the reserved-name problem, if
    the asset is the native coin or the native asset, followed by the
    problem of the first failing check and nothing else. The list has
    exactly one element when the asset name is not reserved. *)
Theorem type_failure_short_circuits (E : Env) (source : string)
  (destination : option string) (asset : string) (quantity : pyval)
  (divisible listed reassignable vendable fungible : option bool)
  (callable_ : bool) (call_date call_price : pyval)
  (description : option string)
  (subasset_parent subasset_longname : option string) (block_index : Z)
  (s : Store) (widened : pyval) (problem : string)
  (Hwiden : widen (resolved_price call_price) = Ok widened)
  (Hfail : type_problem quantity (resolved_date call_date) widened
           = Some problem) :
  exists v,
    validate E source destination asset quantity divisible listed
      reassignable vendable fungible callable_ call_date call_price
      description subasset_parent subasset_longname block_index s
    = Ok (v, s)
    /\ v_problems v = reserved_problem E asset ++ [problem]
    /\ v_fee v = 0
    /\ v_reissuance v = None
    /\ (reserved_problem E asset = [] ->
        List.length (v_problems v) = 1%nat).
Proof.
  unfold validate, bind, lift.
  fold (resolved_price call_price). fold (resolved_date call_date).
  rewrite Hwiden.
  unfold type_problem in Hfail. unfold reserved_problem.
  destruct (negb (isinstance_int quantity)).
  - inversion Hfail; subst. eexists. split; [reflexivity|]. simpl.
    destruct ((asset =? BTC E)%string || (asset =? XCP E)%string);
      repeat split; try reflexivity; intros; try discriminate; reflexivity.
  - destruct (truthy (resolved_date call_date)
              && negb (isinstance_int (resolved_date call_date))).
    + inversion Hfail; subst. eexists. split; [reflexivity|]. simpl.
      destruct ((asset =? BTC E)%string || (asset =? XCP E)%string);
        repeat split; try reflexivity; intros; try discriminate; reflexivity.
    + destruct (truthy widened && negb (isinstance_float widened));
        [|discriminate].
      inversion Hfail; subst. eexists. split; [reflexivity|]. simpl.
      destruct ((asset =? BTC E)%string || (asset =? XCP E)%string);
        repeat split; try reflexivity; intros; try discriminate; reflexivity.
Qed.

Lemma type_failure_short_circuits_witness :
  exists v,
    validate (Fixture.env [] 300000) Fixture.alice None "ASSET"
      (PInt 10) None None None None None false (PStr "tomorrow") (PInt 3)
      None None None 300000 (Fixture.fresh Fixture.funded)
    = Ok (v, Fixture.fresh Fixture.funded)
    /\ v_problems v = ["call_date must be epoch integer"].
Proof.
  destruct (type_failure_short_circuits (Fixture.env [] 300000)
              Fixture.alice None "ASSET" (PInt 10) None None None None None
              false (PStr "tomorrow") (PInt 3) None None None 300000
              (Fixture.fresh Fixture.funded)
              (PFloat (S754_finite false 6755399441055744 (-51)))
              "call_date must be epoch integer"
              eq_refl eq_refl)
    as [v [Hrun [Hproblems _]]].
  exists v. split; [exact Hrun | exact Hproblems].
Defined.

(** ** Queries *)

Lemma in_insert_by_tx_index (r x : issuance_row) (l : list issuance_row) :
  In x (insert_by_tx_index r l) <-> x = r \/ In x l.
Proof.
  induction l as [|y l IH]; simpl.
  - intuition.
  - destruct (i_tx_index r <=? i_tx_index y); simpl.
    + intuition.
    + rewrite IH. intuition.
Qed.

Lemma in_order_by_tx_index (x : issuance_row) (l : list issuance_row) :
  In x (order_by_tx_index l) <-> In x l.
Proof.
  induction l as [|y l IH]; simpl.
  - reflexivity.
  - rewrite in_insert_by_tx_index, IH. intuition.
Qed.

Lemma in_issuances_where (r : issuance_row) (status : string)
  (asset : option string) (d : DB) :
  In r (issuances_where status asset d)
  <-> In r (issuances d) /\ i_status r = status
      /\ exists a, asset = Some a /\ i_asset r = Some a.
Proof.
  unfold issuances_where.
  rewrite in_order_by_tx_index, filter_In, andb_true_iff, String.eqb_eq.
  unfold cell_is, opt_is.
  destruct asset as [a|].
  - destruct (i_asset r) as [b|].
    + rewrite String.eqb_eq. split.
      * intros [Hin [Hs Hb]]. subst b. eauto.
      * intros [Hin [Hs [a' [Ha Hb]]]]. inversion Ha; inversion Hb; subst.
        auto.
    + split.
      * intros [_ [_ Hf]]. discriminate.
      * intros [_ [_ [a' [_ Hb]]]]. discriminate.
  - split.
    + intros [_ [_ Hf]]. discriminate.
    + intros [_ [_ [a' [Ha _]]]]. discriminate.
Qed.

Lemma last_row_in (l : list issuance_row) (r : issuance_row) :
  last_row l = Some r -> In r l.
Proof.
  unfold last_row. intros H.
  destruct (rev l) as [|x l'] eqn:Hrev; [discriminate|].
  inversion H; subst. apply in_rev. rewrite Hrev. left. reflexivity.
Qed.

Lemma last_row_none (l : list issuance_row) :
  last_row l = None -> l = [].
Proof.
  unfold last_row. intros H.
  destruct (rev l) as [|x l'] eqn:Hrev; [|discriminate].
  rewrite <- (rev_involutive l), Hrev. reflexivity.
Qed.

Lemma last_row_some (l : list issuance_row) :
  l <> [] -> exists r, last_row l = Some r.
Proof.
  intros Hl. destruct (last_row l) as [r|] eqn:H; [eauto|].
  elim Hl. apply last_row_none. exact H.
Qed.

Lemma sum_quantities_filled (l : list issuance_row) :
  (forall r, In r l -> i_quantity r <> None) ->
  exists total, sum_quantities l = Ok total.
Proof.
  induction l as [|x l IH]; simpl; intros H.
  - eauto.
  - destruct (i_quantity x) as [q|] eqn:Hq.
    + destruct IH as [t Ht]; [intros r Hr; apply H; auto|].
      rewrite Ht. simpl. eauto.
    + elim (H x); auto.
Qed.

Lemma py_lt_int_num (z : Z) (v : pyval) :
  as_num v <> None -> exists b, py_lt (PInt z) v = Ok b.
Proof.
  destruct v; simpl; intros H; try (elim H; reflexivity); eauto.
Qed.

Lemma py_lt_float_num (f : float) (v : pyval) :
  as_num v <> None -> exists b, py_lt (PFloat f) v = Ok b.
Proof.
  destruct v; simpl; intros H; try (elim H; reflexivity); eauto.
Qed.

Lemma valid_rows_filled (d : DB) (asset : option string) (r : issuance_row) :
  well_filled d -> In r (issuances_where "valid" asset d) -> filled r.
Proof.
  intros Hd Hr. apply in_issuances_where in Hr.
  destruct Hr as [Hin [Hs _]]. apply Hd; assumption.
Qed.

(** ** The parts of [validate] *)

Lemma mem_In (x : string) (l : list string) : mem x l = true <-> In x l.
Proof.
  unfold mem. rewrite existsb_exists. split.
  - intros [y [Hy Heq]]. apply String.eqb_eq in Heq. subst. exact Hy.
  - intros H. exists x. split; [exact H | apply String.eqb_refl].
Qed.

Lemma not_in_by_mem (x : string) (l : list string) :
  mem x l = false -> ~ In x l.
Proof.
  intros H Hin. apply mem_In in Hin. congruence.
Qed.

Ltac origin H :=
  repeat match type of H with
         | In _ (_ ++ _) => apply in_app_or in H; destruct H as [H|H]
         | In _ (if ?c then _ else _) => destruct c
         | In _ (match ?x with _ => _ end) => destruct x
         | In _ [] => destruct H
         | In _ (_ :: _) => destruct H as [H|H]
         end.

Ltac listed := subst; simpl; tauto.

Section Parts.
Context (E : Env).

Lemma fungibility_in_alphabet fungible divisible quantity p :
  In p (fungibility_problems E fungible divisible quantity) ->
  In p fungibility_alphabet.
Proof.
  unfold fungibility_problems. intros H. origin H; listed.
Qed.

Lemma sign_in_alphabet quantity call_price call_date signs p :
  sign_problems quantity call_price call_date = Ok signs ->
  In p signs -> In p sign_alphabet.
Proof.
  unfold sign_problems, rbind. intros Hs H.
  destruct (py_lt call_price (PInt 0)); [|discriminate].
  destruct (py_lt call_date (PInt 0)); [|discriminate].
  inversion Hs; subst. origin H; listed.
Qed.

Lemma callable_in_alphabet callable_ block_index call_date call_price p :
  In p (snd (callable_block E callable_ block_index call_date call_price)) ->
  In p callable_alphabet.
Proof.
  unfold callable_block. intros H.
  destruct (negb callable_); [|destruct H].
  destruct ((block_index >=? 312500) || TESTNET E || REGTEST E);
    [destruct H|].
  destruct (block_index >=? 310000); [|destruct H].
  simpl in H. origin H; listed.
Qed.

Lemma vendable_in_alphabet d asset last_issuance vendable p :
  In p (vendable_problems E d asset last_issuance vendable) ->
  In p reissuance_alphabet.
Proof.
  unfold vendable_problems. intros H.
  destruct (negb (Bool.eqb (cell_bool (i_vendable last_issuance)) vendable));
    [|destruct H].
  match type of H with In _ (if ?c then _ else _) => destruct c end.
  - origin H; listed.
  - origin H; listed.
Qed.

Lemma reissuance_in_alphabet d issuances last_issuance source asset quantity
  divisible listed reassignable vendable callable_ call_date call_price
  block_index ps p :
  reissuance_problems E d issuances last_issuance source asset quantity
    divisible listed reassignable vendable callable_ call_date call_price
    block_index = Ok ps ->
  In p ps -> In p reissuance_alphabet.
Proof.
  unfold reissuance_problems, rbind. intros Hs H.
  destruct (py_lt call_date (i_call_date last_issuance)); [|discriminate].
  destruct (py_lt call_price (i_call_price last_issuance)); [|discriminate].
  inversion Hs; subst; clear Hs.
  repeat (apply in_app_or in H; destruct H as [H|H]);
    try (apply vendable_in_alphabet in H; exact H);
    origin H; listed.
Qed.

Lemma first_issuance_in_alphabet description fungible destination p :
  In p (first_issuance_problems description fungible destination) ->
  In p first_issuance_alphabet.
Proof.
  unfold first_issuance_problems. intros H. origin H; listed.
Qed.

Lemma parent_in_alphabet source fungible subasset_parent subasset_longname
  s parent s' p :
  parent_problems E source fungible subasset_parent subasset_longname s
  = Ok (parent, s') ->
  In p parent ->
  In p parent_alphabet
  \/ In p (group_problems E (db s) source fungible subasset_longname).
Proof.
  unfold parent_problems, group_problems, bind, ret, select_issuances,
    get_db.
  intros Hs H.
  destruct subasset_longname as [longname|].
  - destruct fungible.
    + inversion Hs; subst; clear Hs. left. origin H; listed.
    + inversion Hs; subst; clear Hs. right. exact H.
  - inversion Hs; subst. destruct H.
Qed.

Lemma new_subasset_in_alphabet asset fungible reissuance subasset_longname
  s fresh s' p :
  new_subasset_problems asset fungible reissuance subasset_longname s
  = Ok (fresh, s') ->
  In p fresh -> In p new_subasset_alphabet.
Proof.
  unfold new_subasset_problems, bind, ret, lift, select_assets.
  intros Hs H.
  destruct subasset_longname as [longname|];
    [|inversion Hs; subst; destruct H].
  destruct (negb reissuance); [|inversion Hs; subst; destruct H].
  destruct fungible; destruct (first_is_not_A asset); try discriminate;
    inversion Hs; subst; clear Hs; origin H; listed.
Qed.

Lemma late_in_alphabet description listed reassignable block_index p :
  In p (late_problems E description listed reassignable block_index) ->
  In p late_alphabet.
Proof.
  unfold late_problems. intros H. origin H; listed.
Qed.

Lemma overflow_in_alphabet issuances destination quantity fee block_index
  overflow p :
  overflow_problems E issuances destination quantity fee block_index
  = Ok overflow ->
  In p overflow -> In p overflow_alphabet.
Proof.
  unfold overflow_problems, rbind. intros Hs H.
  destruct (sum_quantities issuances); [|discriminate].
  inversion Hs; subst; clear Hs. origin H; listed.
Qed.

(** The fee: the schedule behind the two gates, nothing otherwise. *)
Lemma fee_block_inv source asset quantity fungible reissuance
  subasset_longname block_index s fee funds s' :
  fee_block E source asset quantity fungible reissuance subasset_longname
    block_index s = Ok ((fee, funds), s') ->
  fee = (if negb (quantity =? 0)
            || ((block_index >=? 315000) || TESTNET E || REGTEST E)
         then
           if negb reissuance
              || ((block_index <? 310000) && negb (TESTNET E)
                  && negb (REGTEST E))
           then fee_schedule E asset fungible subasset_longname block_index
           else 0
         else 0)
  /\ (forall p, In p funds -> p = "insufficient funds").
Proof.
  unfold fee_block, bind, ret, select_balances. intros Hs.
  destruct (negb (quantity =? 0)
            || ((block_index >=? 315000) || TESTNET E || REGTEST E)).
  - destruct (negb reissuance
              || ((block_index <? 310000) && negb (TESTNET E)
                  && negb (REGTEST E))).
    + inversion Hs; subst; clear Hs. split; [reflexivity|].
      intros p H. origin H; congruence.
    + inversion Hs; subst. split; [reflexivity|]. intros p [].
  - inversion Hs; subst. split; [reflexivity|]. intros p [].
Qed.

End Parts.

(** ** A run of [validate] on typed input *)

Section Runs.
Context (E : Env).

(** On an integer quantity, an integer (or absent) call date and a float
    (or absent) call price, the three type checks pass. *)
Lemma validate_typed source destination asset q divisible listed
  reassignable vendable fungible callable_ call_date call_price description
  subasset_parent subasset_longname block_index cd cp s :
  resolved_date call_date = PInt cd ->
  resolved_price call_price = PFloat cp ->
  validate E source destination asset (PInt q) divisible listed reassignable
    vendable fungible callable_ call_date call_price description
    subasset_parent subasset_longname block_index s
  = validate_checked E (reserved_problem E asset) source destination asset q
      (default divisible true) (default listed true)
      (default reassignable true) (default vendable true)
      (default fungible true) callable_ (PInt cd) (PFloat cp)
      (default description "") subasset_parent subasset_longname
      block_index s.
Proof.
  intros Hd Hp. unfold validate.
  fold (resolved_price call_price). fold (resolved_date call_date).
  rewrite Hd, Hp. unfold reserved_problem.
  unfold bind at 1. unfold lift at 1. unfold widen. simpl isinstance_int.
  cbv iota. simpl isinstance_float. simpl negb.
  rewrite !andb_false_r.
  unfold bind at 1. unfold lift at 1. simpl int_of. cbv iota.
  destruct ((asset =? BTC E)%string || (asset =? XCP E)%string);
    reflexivity.
Qed.

(** What a run of the checked part returned: the problems, block by
    block, and the other results. *)
Lemma validate_checked_inv problems source destination asset q divisible
  listed reassignable vendable fungible callable_ cd cp description
  subasset_parent subasset_longname block_index s v s' :
  validate_checked E problems source destination asset q divisible listed
    reassignable vendable fungible callable_ cd cp description
    subasset_parent subasset_longname block_index s = Ok (v, s') ->
  let issuances := issuances_where "valid" (Some asset) (db s) in
  let cb := callable_block E callable_ block_index cd cp in
  exists signs reissuance ps parent fresh funds overflow s1 s2 s3 s4,
    sign_problems q cp cd = Ok signs
    /\ match last_row issuances with
       | Some last_issuance =>
           reissuance = true
           /\ v_reissued_asset_longname v = i_asset_longname last_issuance
           /\ reissuance_problems E (db s) issuances last_issuance source
                asset q divisible listed reassignable vendable callable_
                (fst (fst cb)) (snd (fst cb)) block_index = Ok ps
       | None =>
           reissuance = false
           /\ v_reissued_asset_longname v = None
           /\ ps = first_issuance_problems description fungible destination
       end
    /\ db s1 = db s
    /\ parent_problems E source fungible subasset_parent subasset_longname s1
       = Ok (parent, s2)
    /\ new_subasset_problems asset fungible reissuance subasset_longname s2
       = Ok (fresh, s3)
    /\ fee_block E source asset q fungible reissuance subasset_longname
         block_index s3 = Ok ((v_fee v, funds), s4)
    /\ overflow_problems E issuances destination q (v_fee v) block_index
       = Ok overflow
    /\ v_problems v
       = problems ++ fungibility_problems E fungible divisible q ++ signs
         ++ snd cb ++ ps ++ parent ++ fresh ++ funds
         ++ late_problems E description listed reassignable block_index
         ++ overflow
    /\ v_reissuance v = Some reissuance
    /\ py_min_int (fst (fst cb)) MAX_INT = Ok (v_call_date v)
    /\ v_call_price v = snd (fst cb)
    /\ v_description v = description
    /\ v_divisible v = divisible /\ v_listed v = listed
    /\ v_reassignable v = reassignable /\ v_vendable v = vendable
    /\ v_fungible v = fungible.
Proof.
  intros Hrun issuances cb. subst issuances cb.
  unfold validate_checked in Hrun. unfold bind at 1 in Hrun.
  unfold lift at 1 in Hrun.
  destruct (sign_problems q cp cd) as [signs|] eqn:Hsigns; [|discriminate].
  destruct (callable_block E callable_ block_index cd cp)
    as [[cd' cp'] callability] eqn:Hcb.
  unfold bind at 1 in Hrun. unfold select_issuances at 1 in Hrun.
  unfold bind at 1 in Hrun. unfold get_db at 1 in Hrun.
  unfold bind at 1 in Hrun. unfold lift at 1 in Hrun.
  simpl db in Hrun.
  set (issuances := issuances_where "valid" (Some asset) (db s)) in *.
  set (s1 := record (SELECT T_issuances) s) in *.
  assert (Hfound : exists reissuance longname ps,
             match last_row issuances with
             | Some last_issuance =>
                 rbind (reissuance_problems E (db s) issuances last_issuance
                          source asset q divisible listed reassignable
                          vendable callable_ cd' cp' block_index)
                   (fun ps => Ok (true, i_asset_longname last_issuance, ps))
             | None =>
                 Ok (false, None,
                     first_issuance_problems description fungible
                       destination)
             end = Ok (reissuance, longname, ps)).
  { destruct (match last_row issuances with
              | Some last_issuance => _
              | None => _
              end) as [[[r l] ps]|]; [eauto | discriminate]. }
  destruct Hfound as [reissuance [longname [ps Hfound]]].
  rewrite Hfound in Hrun.
  unfold bind at 1 in Hrun.
  destruct (parent_problems E source fungible subasset_parent
              subasset_longname s1) as [[parent s2]|] eqn:Hparent;
    [|discriminate].
  unfold bind at 1 in Hrun.
  destruct (new_subasset_problems asset fungible reissuance
              subasset_longname s2) as [[fresh s3]|] eqn:Hfresh;
    [|discriminate].
  unfold bind at 1 in Hrun.
  destruct (fee_block E source asset q fungible reissuance subasset_longname
              block_index s3) as [[[fee funds] s4]|] eqn:Hfee;
    [|discriminate].
  unfold bind at 1 in Hrun. unfold lift at 1 in Hrun.
  destruct (py_min_int cd' MAX_INT) as [cdmin|] eqn:Hmin; [|discriminate].
  unfold bind at 1 in Hrun. unfold lift at 1 in Hrun.
  destruct (overflow_problems E issuances destination q fee block_index)
    as [overflow|] eqn:Hover; [|discriminate].
  unfold ret in Hrun. inversion Hrun; subst v s'; clear Hrun.
  exists signs, reissuance, ps, parent, fresh, funds, overflow, s1, s2, s3,
    s4.
  simpl.
  split; [reflexivity|].
  split.
  { destruct (last_row issuances) as [last_issuance|].
    - unfold rbind in Hfound.
      destruct (reissuance_problems E (db s) issuances last_issuance source
                  asset q divisible listed reassignable vendable callable_
                  cd' cp' block_index) as [ps'|]; [|discriminate].
      inversion Hfound; subst. auto.
    - inversion Hfound; subst. auto. }
  split; [reflexivity|].
  split; [exact Hparent|].
  split; [exact Hfresh|].
  split; [exact Hfee|].
  split; [exact Hover|].
  split; [repeat rewrite <- app_assoc; reflexivity|].
  repeat split; try reflexivity. exact Hmin.
Qed.

(** On a ledger whose valid rows are filled in, the checked part returns,
    unless it has to look at the first character of an empty asset name. *)
Lemma validate_checked_returns problems source destination asset q
  divisible listed reassignable vendable fungible callable_ cd cp
  description subasset_parent subasset_longname block_index s :
  well_filled (db s) ->
  (subasset_longname = None \/ asset <> "") ->
  exists v s',
    validate_checked E problems source destination asset q divisible listed
      reassignable vendable fungible callable_ (PInt cd) (PFloat cp)
      description subasset_parent subasset_longname block_index s
    = Ok (v, s').
Proof.
  intros Hwf Hname.
  unfold validate_checked.
  unfold bind at 1. unfold lift at 1.
  unfold sign_problems at 1. simpl py_lt. unfold rbind at 1 2.
  assert (Hcb : exists cd' cp' callability,
             callable_block E callable_ block_index (PInt cd) (PFloat cp)
             = (PInt cd', PFloat cp', callability)).
  { unfold callable_block.
    destruct (negb callable_); [|eauto].
    destruct ((block_index >=? 312500) || TESTNET E || REGTEST E); [eauto|].
    destruct (block_index >=? 310000); eauto. }
  destruct Hcb as [cd' [cp' [callability Hcb]]]. rewrite Hcb.
  unfold bind at 1. unfold select_issuances at 1.
  unfold bind at 1. unfold get_db at 1.
  unfold bind at 1. unfold lift at 1. simpl db.
  set (issuances := issuances_where "valid" (Some asset) (db s)).
  set (s1 := record (SELECT T_issuances) s).
  assert (Hfilled : forall r, In r issuances -> filled r).
  { intros r Hr. eapply valid_rows_filled; eassumption. }
  assert (Hfound : exists reissuance longname ps,
             match last_row issuances with
             | Some last_issuance =>
                 rbind (reissuance_problems E (db s) issuances last_issuance
                          source asset q divisible listed reassignable
                          vendable callable_ (PInt cd') (PFloat cp')
                          block_index)
                   (fun ps => Ok (true, i_asset_longname last_issuance, ps))
             | None =>
                 Ok (false, None,
                     first_issuance_problems description fungible
                       destination)
             end = Ok (reissuance, longname, ps)).
  { destruct (last_row issuances) as [last_issuance|] eqn:Hlast; [|eauto].
    destruct (Hfilled _ (last_row_in _ _ Hlast)) as [_ [Hdate Hprice]].
    unfold reissuance_problems.
    destruct (py_lt_int_num cd' _ Hdate) as [b1 Hb1].
    destruct (py_lt_float_num cp' _ Hprice) as [b2 Hb2].
    rewrite Hb1, Hb2. simpl. eauto. }
  destruct Hfound as [reissuance [longname [ps Hfound]]].
  rewrite Hfound.
  unfold bind at 1.
  assert (Hparent : exists parent s2,
             parent_problems E source fungible subasset_parent
               subasset_longname s1 = Ok (parent, s2)).
  { unfold parent_problems, bind, ret, select_issuances, get_db.
    destruct subasset_longname; [destruct fungible|]; eauto. }
  destruct Hparent as [parent [s2 Hparent]]. rewrite Hparent.
  unfold bind at 1.
  assert (Hfresh : exists fresh s3,
             new_subasset_problems asset fungible reissuance
               subasset_longname s2 = Ok (fresh, s3)).
  { unfold new_subasset_problems, bind, ret, lift, select_assets.
    destruct subasset_longname as [longname'|]; [|eauto].
    destruct (negb reissuance); [|eauto].
    destruct Hname as [Hn|Hn]; [discriminate|].
    destruct asset as [|c rest]; [elim Hn; reflexivity|].
    simpl. destruct fungible; eauto. }
  destruct Hfresh as [fresh [s3 Hfresh]]. rewrite Hfresh.
  unfold bind at 1.
  assert (Hfee : exists fee funds s4,
             fee_block E source asset q fungible reissuance
               subasset_longname block_index s3 = Ok ((fee, funds), s4)).
  { unfold fee_block, bind, ret, select_balances.
    destruct (negb (q =? 0)
              || ((block_index >=? 315000) || TESTNET E || REGTEST E));
      [|eauto].
    destruct (negb reissuance
              || ((block_index <? 310000) && negb (TESTNET E)
                  && negb (REGTEST E))); eauto. }
  destruct Hfee as [fee [funds [s4 Hfee]]]. rewrite Hfee.
  unfold bind at 1. unfold lift at 1. simpl py_min_int.
  unfold bind at 1. unfold lift at 1.
  destruct (sum_quantities_filled issuances) as [total Htotal].
  { intros r Hr. apply (Hfilled r Hr). }
  unfold overflow_problems. rewrite Htotal. simpl rbind.
  unfold ret. eexists. eexists. reflexivity.
Qed.

End Runs.

(** ** The fee *)

Lemma fee_schedule_amended (E : Env) (asset : string) (fungible : bool)
  (subasset_longname : option string) (block_index : Z) :
  TESTNET E = false -> REGTEST E = false ->
  fee_schedule E asset fungible subasset_longname block_index
  = fee_as_amended E asset fungible subasset_longname block_index.
Proof.
  intros Ht Hr. unfold fee_schedule, fee_as_amended, fee_rows.
  rewrite Ht, Hr.
  destruct (enabled E "numeric_asset_names" None);
    destruct (enabled E "fee_revision_2021_1q" None);
    destruct subasset_longname; destruct fungible;
    destruct (enabled E "subassets" None);
    destruct (enabled E "non_fungible_assets" None);
    destruct (py_len asset >=? 13);
    destruct (block_index >=? 291700);
    destruct (block_index >=? 286000);
    destruct (block_index >? 281236);
    reflexivity.
Qed.

(** C2, as stated, fails: with [fee_revision_2021_1q] enabled and
    [numeric_asset_names] not, a first issuance at block 300000 pays
    0.5 x UNIT, not a hundred times as much. *)
Lemma fee_revision_not_in_every_branch :
  exists v s',
    validate (Fixture.env ["fee_revision_2021_1q"] 300000) Fixture.alice
      None "ASSET" (PInt 1) None None None None None false PNone PNone None
      None None 300000 (Fixture.fresh Fixture.funded) = Ok (v, s')
    /\ v_reissuance v = Some false
    /\ v_fee v = UNIT / 2
    /\ fee_as_specified (Fixture.env ["fee_revision_2021_1q"] 300000)
         "ASSET" true None 300000 = 100 * (UNIT / 2)
    /\ v_fee v
       <> fee_as_specified (Fixture.env ["fee_revision_2021_1q"] 300000)
            "ASSET" true None 300000.
Proof.
  eexists. eexists.
  split; [vm_compute; reflexivity|].
  split; [reflexivity|].
  split; [reflexivity|].
  split; [reflexivity|].
  vm_compute. discriminate.
Qed.

(** C2, amended: on mainnet, for a candidate with an integer quantity that
    passes the fee gates (quantity > 0 or block_index >= 315000, and not a
    re-issuance unless block_index < 310000), [validate] returns the fee of
    the schedule of section 4.2, multiplied by 100 under
    [fee_revision_2021_1q] in the rows under [numeric_asset_names] only;
    the rows chosen by block height are not multiplied. *)
Theorem fee_follows_schedule (E : Env) (source : string)
  (destination : option string) (asset : string) (q : Z)
  (divisible listed reassignable vendable fungible : option bool)
  (callable_ : bool) (call_date call_price : pyval)
  (description : option string)
  (subasset_parent subasset_longname : option string) (block_index : Z)
  (s : Store) (cd : Z) (cp : float)
  (Htestnet : TESTNET E = false) (Hregtest : REGTEST E = false)
  (Hdate : resolved_date call_date = PInt cd)
  (Hprice : resolved_price call_price = PFloat cp)
  (Hfilled : well_filled (db s))
  (Hname : subasset_longname = None \/ asset <> "")
  (Hgate : q > 0 \/ block_index >= 315000) :
  exists v s' reissuance,
    validate E source destination asset (PInt q) divisible listed
      reassignable vendable fungible callable_ call_date call_price
      description subasset_parent subasset_longname block_index s
    = Ok (v, s')
    /\ v_reissuance v = Some reissuance
    /\ (reissuance = false \/ block_index < 310000 ->
        v_fee v
        = fee_as_amended E asset (default fungible true) subasset_longname
            block_index).
Proof.
  rewrite (validate_typed E _ _ _ _ _ _ _ _ _ _ _ _ _ _ _ _ cd cp s Hdate
             Hprice).
  destruct (validate_checked_returns E (reserved_problem E asset) source
              destination asset q (default divisible true)
              (default listed true) (default reassignable true)
              (default vendable true) (default fungible true) callable_ cd
              cp (default description "") subasset_parent subasset_longname
              block_index s Hfilled Hname) as [v [s' Hrun]].
  destruct (validate_checked_inv E _ _ _ _ _ _ _ _ _ _ _ _ _ _ _ _ _ _ _ _
              Hrun)
    as (signs & reissuance & ps & parent & fresh & funds & overflow & s1
        & s2 & s3 & s4 & _ & _ & _ & _ & _ & Hfee & _ & _ & Hre & _).
  exists v, s', reissuance.
  split; [exact Hrun|]. split; [exact Hre|].
  intros Hfirst.
  destruct (fee_block_inv E _ _ _ _ _ _ _ _ _ _ _ Hfee) as [Hv _].
  rewrite Hv, Htestnet, Hregtest.
  replace (negb (q =? 0) || ((block_index >=? 315000) || false || false))
    with true.
  - replace (negb reissuance
             || ((block_index <? 310000) && negb false && negb false))
      with true.
    + apply fee_schedule_amended; assumption.
    + symmetry. destruct Hfirst as [Hf|Hf].
      * subst reissuance. reflexivity.
      * apply orb_true_iff. right. rewrite !andb_true_r.
        apply Z.ltb_lt. exact Hf.
  - symmetry. destruct Hgate as [Hq|Hb].
    + apply orb_true_iff. left. apply negb_true_iff. apply Z.eqb_neq. lia.
    + apply orb_true_iff. right. rewrite !orb_false_r.
      apply Z.geb_le. lia.
Qed.

(** A first sub-asset under both gates and the revision of 2021:
    100 x 0.25 x UNIT. *)
Lemma fee_follows_schedule_witness :
  exists v s',
    validate
      (Fixture.env ["numeric_asset_names"; "subassets";
                    "fee_revision_2021_1q"] 320000)
      Fixture.alice None Fixture.numeric_asset (PInt 100) None None None
      None None false PNone PNone None (Some "PARENT") (Some "PARENT.child")
      320000 (Fixture.fresh Fixture.funded) = Ok (v, s')
    /\ v_fee v = 100 * (UNIT / 4).
Proof.
  destruct (fee_follows_schedule
              (Fixture.env ["numeric_asset_names"; "subassets";
                            "fee_revision_2021_1q"] 320000)
              Fixture.alice None Fixture.numeric_asset 100 None None None
              None None false PNone PNone None (Some "PARENT")
              (Some "PARENT.child") 320000 (Fixture.fresh Fixture.funded)
              0 fzero eq_refl eq_refl eq_refl eq_refl)
    as [v [s' [reissuance [Hrun [Hre Hfee]]]]].
  - intros r Hr. destruct Hr.
  - right. discriminate.
  - left. lia.
  - exists v, s'. split; [exact Hrun|].
    assert (Hcomputed :
      validate
        (Fixture.env ["numeric_asset_names"; "subassets";
                      "fee_revision_2021_1q"] 320000)
        Fixture.alice None Fixture.numeric_asset (PInt 100) None None None
        None None false PNone PNone None (Some "PARENT")
        (Some "PARENT.child") 320000 (Fixture.fresh Fixture.funded)
      = Ok (mk_validated (PInt 0) (PFloat fzero)
              ["parent asset not found"] 2500000000 "" true true true true
              true (Some false) None,
            mk_store Fixture.funded
              [SELECT T_issuances; SELECT T_issuances; SELECT T_assets;
               SELECT T_balances]))
      by (vm_compute; reflexivity).
    rewrite Hcomputed in Hrun. inversion Hrun; subst.
    simpl in Hre. inversion Hre; subst.
    rewrite Hfee; [reflexivity | left; reflexivity].
Defined.

(** ** The length of the description *)

Lemma reserved_is_cannot_issue (E : Env) (asset p : string) :
  In p (reserved_problem E asset) ->
  exists rest, p = ("cannot issue " ++ rest)%string.
Proof.
  unfold reserved_problem. intros H.
  destruct ((asset =? BTC E)%string || (asset =? XCP E)%string);
    [|destruct H].
  destruct H as [H|[]]. subst p. eexists. reflexivity.
Qed.

(** Where a problem of a returned run comes from. *)
Lemma problem_origin (E : Env) problems source destination asset q divisible
  listed reassignable vendable fungible callable_ cd cp description
  subasset_parent subasset_longname block_index s v s' p :
  validate_checked E problems source destination asset q divisible listed
    reassignable vendable fungible callable_ cd cp description
    subasset_parent subasset_longname block_index s = Ok (v, s') ->
  In p (v_problems v) ->
  In p problems
  \/ In p (fungibility_alphabet ++ sign_alphabet ++ callable_alphabet
           ++ first_issuance_alphabet ++ parent_alphabet
           ++ new_subasset_alphabet ++ ["insufficient funds"])
  \/ In p (group_problems E (db s) source fungible subasset_longname)
  \/ (exists ps last_issuance,
        last_row (issuances_where "valid" (Some asset) (db s))
        = Some last_issuance
        /\ reissuance_problems E (db s)
             (issuances_where "valid" (Some asset) (db s)) last_issuance
             source asset q divisible listed reassignable vendable
             callable_
             (fst (fst (callable_block E callable_ block_index cd cp)))
             (snd (fst (callable_block E callable_ block_index cd cp)))
             block_index = Ok ps
        /\ In p ps)
  \/ In p (late_problems E description listed reassignable block_index)
  \/ (exists overflow,
        overflow_problems E (issuances_where "valid" (Some asset) (db s))
          destination q (v_fee v) block_index = Ok overflow
        /\ In p overflow).
Proof.
  intros Hrun Hin.
  destruct (validate_checked_inv E _ _ _ _ _ _ _ _ _ _ _ _ _ _ _ _ _ _ _ _
              Hrun)
    as (signs & reissuance & ps & parent & fresh & funds & overflow & s1
        & s2 & s3 & s4 & Hsigns & Hlast & Hdb1 & Hparent & Hfresh & Hfee
        & Hover & Hproblems & _).
  rewrite Hproblems in Hin.
  remember (late_problems E description listed reassignable block_index)
    as late eqn:Hlate.
  repeat (apply in_app_or in Hin; destruct Hin as [Hin|Hin]).
  - left. exact Hin.
  - right. left. apply in_or_app. left.
    eapply fungibility_in_alphabet. exact Hin.
  - right. left. apply in_or_app. right. apply in_or_app. left.
    eapply sign_in_alphabet; eassumption.
  - right. left. do 2 (apply in_or_app; right). apply in_or_app. left.
    eapply callable_in_alphabet. exact Hin.
  - destruct (last_row (issuances_where "valid" (Some asset) (db s)))
      as [last_issuance|] eqn:Hl.
    + destruct Hlast as [_ [_ Hps]].
      right. right. right. left. exists ps, last_issuance. auto.
    + destruct Hlast as [_ [_ Hps]]. subst ps.
      right. left. do 3 (apply in_or_app; right). apply in_or_app. left.
      eapply first_issuance_in_alphabet. exact Hin.
  - destruct (parent_in_alphabet E _ _ _ _ _ _ _ p Hparent Hin) as [Ha|Hg].
    + right. left. do 4 (apply in_or_app; right). apply in_or_app. left.
      exact Ha.
    + right. right. left. rewrite <- Hdb1. exact Hg.
  - right. left. do 5 (apply in_or_app; right). apply in_or_app. left.
    eapply new_subasset_in_alphabet; eassumption.
  - right. left. do 6 (apply in_or_app; right).
    destruct (fee_block_inv E _ _ _ _ _ _ _ _ _ _ _ Hfee) as [_ Hfunds].
    left. symmetry. apply Hfunds. exact Hin.
  - right. right. right. right. left. exact Hin.
  - right. right. right. right. right. exists overflow. auto.
Qed.

(** C8, as stated, fails: a description of fifteen three-byte characters
    is 45 bytes long and is not reported before block 317500. *)
Lemma wide_description_not_too_long :
  exists v s',
    validate (Fixture.env [] 300000) Fixture.alice None "ASSET" (PInt 1)
      None None None None None false PNone PNone (Some Fixture.fifteen_wide)
      None None 300000 (Fixture.fresh Fixture.funded) = Ok (v, s')
    /\ Z.of_nat (String.length Fixture.fifteen_wide) = 45
    /\ 45 > 42
    /\ ~ In "description too long" (v_problems v).
Proof.
  eexists. eexists.
  split; [vm_compute; reflexivity|].
  split; [reflexivity|].
  split; [lia|].
  simpl. tauto.
Qed.

(** C8, amended: on mainnet before block 317500, for a candidate that
    passes the type checks, [validate] reports [description too long]
    exactly when the description has more than 42 characters (code points,
    whatever the number of bytes of their encoding). The [assetgroup]
    collaborator is supposed not to report a problem of that name itself. *)
Theorem description_too_long_iff (E : Env) (source : string)
  (destination : option string) (asset : string) (q : Z)
  (divisible listed reassignable vendable fungible : option bool)
  (callable_ : bool) (call_date call_price : pyval)
  (description : option string)
  (subasset_parent subasset_longname : option string) (block_index : Z)
  (s : Store) (cd : Z) (cp : float)
  (Htestnet : TESTNET E = false) (Hregtest : REGTEST E = false)
  (Hblock : block_index < 317500)
  (Hdate : resolved_date call_date = PInt cd)
  (Hprice : resolved_price call_price = PFloat cp)
  (Hfilled : well_filled (db s))
  (Hname : subasset_longname = None \/ asset <> "")
  (Hgroup : ~ In "description too long"
              (group_problems E (db s) source (default fungible true)
                 subasset_longname)) :
  exists v s',
    validate E source destination asset (PInt q) divisible listed
      reassignable vendable fungible callable_ call_date call_price
      description subasset_parent subasset_longname block_index s
    = Ok (v, s')
    /\ (In "description too long" (v_problems v)
        <-> py_len (default description "") > 42).
Proof.
  rewrite (validate_typed E _ _ _ _ _ _ _ _ _ _ _ _ _ _ _ _ cd cp s Hdate
             Hprice).
  destruct (validate_checked_returns E (reserved_problem E asset) source
              destination asset q (default divisible true)
              (default listed true) (default reassignable true)
              (default vendable true) (default fungible true) callable_ cd
              cp (default description "") subasset_parent subasset_longname
              block_index s Hfilled Hname) as [v [s' Hrun]].
  exists v, s'. split; [exact Hrun|].
  assert (Hlate : forall l r,
             In "description too long"
               (late_problems E (default description "") l r block_index)
             <-> py_len (default description "") > 42).
  { intros l r. unfold late_problems. rewrite Htestnet, Hregtest.
    rewrite Z.geb_leb, Z.gtb_ltb.
    replace (317500 <=? block_index) with false
      by (symmetry; apply Z.leb_gt; lia).
    simpl orb. simpl negb. simpl andb.
    destruct (42 <? py_len (default description "")) eqn:Hlen.
    - apply Z.ltb_lt in Hlen. split; [lia|].
      intros _. left. reflexivity.
    - apply Z.ltb_ge in Hlen. split; [|lia].
      intros H. origin H; discriminate. }
  split.
  - intros Hin.
    destruct (problem_origin E _ _ _ _ _ _ _ _ _ _ _ _ _ _ _ _ _ _ _ _ _
                Hrun Hin)
      as [H|[H|[H|[H|[H|H]]]]].
    + apply reserved_is_cannot_issue in H. destruct H as [rest H].
      discriminate.
    + exfalso. revert H. apply not_in_by_mem. reflexivity.
    + elim Hgroup. exact H.
    + destruct H as (ps & last_issuance & _ & Hps & H).
      apply (reissuance_in_alphabet E _ _ _ _ _ _ _ _ _ _ _ _ _ _ _ _ Hps)
        in H.
      exfalso. revert H. apply not_in_by_mem. reflexivity.
    + apply Hlate in H. exact H.
    + destruct H as (overflow & Hover & H).
      apply (overflow_in_alphabet E _ _ _ _ _ _ _ Hover) in H.
      exfalso. revert H. apply not_in_by_mem. reflexivity.
  - intros Hlen.
    destruct (validate_checked_inv E _ _ _ _ _ _ _ _ _ _ _ _ _ _ _ _ _ _ _
                _ Hrun)
      as (signs & reissuance & ps & parent & fresh & funds & overflow & s1
          & s2 & s3 & s4 & _ & _ & _ & _ & _ & _ & _ & Hproblems & _).
    rewrite Hproblems.
    do 8 (apply in_or_app; right). apply in_or_app. left.
    apply Hlate. exact Hlen.
Qed.

Lemma description_too_long_iff_witness :
  exists v s',
    validate (Fixture.env [] 300000) Fixture.alice None "ASSET" (PInt 1)
      None None None None None false PNone PNone (Some Fixture.forty_three)
      None None 300000 (Fixture.fresh Fixture.funded) = Ok (v, s')
    /\ In "description too long" (v_problems v).
Proof.
  destruct (description_too_long_iff (Fixture.env [] 300000) Fixture.alice
              None "ASSET" 1 None None None None None false PNone PNone
              (Some Fixture.forty_three) None None 300000
              (Fixture.fresh Fixture.funded) 0 fzero eq_refl eq_refl)
    as [v [s' [Hrun Hiff]]].
  - lia.
  - reflexivity.
  - reflexivity.
  - intros r Hr. destruct Hr.
  - left. reflexivity.
  - simpl. tauto.
  - exists v, s'. split; [exact Hrun|].
    apply Hiff. vm_compute. reflexivity.
Defined.

(** ** Locked assets *)

Section Locks.
Context (E : Env).

(** A run on a candidate with a non-zero quantity reports the lock when
    the asset counts as locked. *)
Lemma locked_problem_reported problems source destination asset q divisible
  listed reassignable vendable fungible callable_ cd cp description
  subasset_parent subasset_longname block_index s v s' last_issuance :
  validate_checked E problems source destination asset q divisible listed
    reassignable vendable fungible callable_ cd cp description
    subasset_parent subasset_longname block_index s = Ok (v, s') ->
  last_row (issuances_where "valid" (Some asset) (db s))
  = Some last_issuance ->
  issuance_locked E (issuances_where "valid" (Some asset) (db s))
    last_issuance = true ->
  q <> 0 ->
  In "locked asset and non‐zero quantity" (v_problems v).
Proof.
  intros Hrun Hlast Hlocked Hq.
  destruct (validate_checked_inv E _ _ _ _ _ _ _ _ _ _ _ _ _ _ _ _ _ _ _ _
              Hrun)
    as (signs & reissuance & ps & parent & fresh & funds & overflow & s1
        & s2 & s3 & s4 & _ & Hl & _ & _ & _ & _ & _ & Hproblems & _).
  rewrite Hlast in Hl. destruct Hl as [_ [_ Hps]].
  rewrite Hproblems.
  do 4 (apply in_or_app; right). apply in_or_app. left.
  unfold reissuance_problems, rbind in Hps.
  destruct (py_lt _ (i_call_date last_issuance)); [|discriminate].
  destruct (py_lt _ (i_call_price last_issuance)); [|discriminate].
  inversion Hps; subst ps; clear Hps.
  do 8 (apply in_or_app; right).
  rewrite Hlocked.
  replace (q =? 0) with false by (symmetry; apply Z.eqb_neq; exact Hq).
  left. reflexivity.
Qed.

(** Without a lock that counts, the lock is not reported. *)
Lemma locked_problem_origin problems source destination asset q divisible
  listed reassignable vendable fungible callable_ cd cp description
  subasset_parent subasset_longname block_index s v s' :
  validate_checked E problems source destination asset q divisible listed
    reassignable vendable fungible callable_ cd cp description
    subasset_parent subasset_longname block_index s = Ok (v, s') ->
  In "locked asset and non‐zero quantity" (v_problems v) ->
  In "locked asset and non‐zero quantity" problems
  \/ In "locked asset and non‐zero quantity"
       (group_problems E (db s) source fungible subasset_longname)
  \/ exists last_issuance,
       last_row (issuances_where "valid" (Some asset) (db s))
       = Some last_issuance
       /\ issuance_locked E (issuances_where "valid" (Some asset) (db s))
            last_issuance = true
       /\ q <> 0.
Proof.
  intros Hrun Hin.
  destruct (problem_origin E _ _ _ _ _ _ _ _ _ _ _ _ _ _ _ _ _ _ _ _ _
              Hrun Hin)
    as [H|[H|[H|[H|[H|H]]]]].
  - left. exact H.
  - exfalso. revert H. apply not_in_by_mem. reflexivity.
  - right. left. exact H.
  - right. right.
    destruct H as (ps & last_issuance & Hlast & Hps & H).
    exists last_issuance. split; [exact Hlast|].
    unfold reissuance_problems, rbind in Hps.
    destruct (py_lt _ (i_call_date last_issuance)); [|discriminate].
    destruct (py_lt _ (i_call_price last_issuance)); [|discriminate].
    inversion Hps; subst ps; clear Hps.
    repeat (apply in_app_or in H; destruct H as [H|H]);
      try (unfold vendable_problems in H; origin H; discriminate).
    destruct (issuance_locked E _ last_issuance);
      [|simpl in H; destruct H].
    destruct (q =? 0) eqn:Hq; [simpl in H; destruct H|].
    split; [reflexivity|]. apply Z.eqb_neq. exact Hq.
  - exfalso. apply (late_in_alphabet E) in H. revert H.
    apply not_in_by_mem. reflexivity.
  - exfalso. destruct H as (overflow & Hover & H).
    apply (overflow_in_alphabet E _ _ _ _ _ _ _ Hover) in H.
    revert H. apply not_in_by_mem. reflexivity.
Qed.

(** A locked valid issuance of the asset makes the asset count as locked
    under [issuance_lock_fix]. *)
Lemma locked_under_fix asset (d : DB) (locked_row : issuance_row) :
  enabled E "issuance_lock_fix" None = true ->
  In locked_row (issuances d) ->
  i_status locked_row = "valid" ->
  i_asset locked_row = Some asset ->
  i_locked locked_row = true ->
  exists last_issuance,
    last_row (issuances_where "valid" (Some asset) d) = Some last_issuance
    /\ issuance_locked E (issuances_where "valid" (Some asset) d)
         last_issuance = true.
Proof.
  intros Hfix Hin Hstatus Hasset Hlocked.
  assert (Hrow : In locked_row (issuances_where "valid" (Some asset) d)).
  { apply in_issuances_where. split; [exact Hin|]. split; [exact Hstatus|].
    exists asset. auto. }
  destruct (last_row_some (issuances_where "valid" (Some asset) d))
    as [last_issuance Hlast].
  { intros Hnil. rewrite Hnil in Hrow. destruct Hrow. }
  exists last_issuance. split; [exact Hlast|].
  unfold issuance_locked. rewrite Hfix.
  apply existsb_exists. exists locked_row. auto.
Qed.

End Locks.

(** ** A run of [parse] *)

Section Parsing.
Context (E : Env).

Lemma bind_when {A} (c : bool) (f : DB -> DB) (k : unit -> M A) (s : Store) :
  bind (if c then modify_db f else ret tt) k s = k tt (when_db c f s).
Proof.
  unfold bind, when_db. destruct c; reflexivity.
Qed.

Lemma run_validate_inv tx l s l' fee reissuance longname s1 :
  run_validate E tx l s = Ok ((l', fee, reissuance, longname), s1) ->
  (l_status l <> "valid" /\ l' = l /\ fee = 0 /\ reissuance = None
   /\ s1 = s)
  \/ (l_status l = "valid"
      /\ exists v,
           validate E (tx_source tx) (tx_destination tx)
             (default (l_asset l) "")
             (match l_quantity l with Some q => PInt q | None => PNone end)
             (l_divisible l) (l_listed l) (l_reassignable l) (l_vendable l)
             (l_fungible l) (cell_bool (l_callable l)) (l_call_date l)
             (l_call_price l) (l_description l) (l_subasset_parent l)
             (l_subasset_longname l) (tx_block_index tx) s = Ok (v, s1)
           /\ l_status l'
              = match v_problems v with
                | [] => "valid"
                | _ => ("invalid: " ++ join "; " (v_problems v))%string
                end
           /\ l_asset l' = l_asset l
           /\ l_quantity l'
              = (if negb (enabled E "integer_overflow_fix"
                            (Some (tx_block_index tx)))
                    && mem "total quantity overflow" (v_problems v)
                 then Some 0 else l_quantity l)
           /\ l_fungible l' = Some (v_fungible v)
           /\ l_description l' = Some (v_description v)
           /\ l_subasset_longname l' = l_subasset_longname l
           /\ fee = v_fee v
           /\ reissuance = v_reissuance v
           /\ longname = v_reissued_asset_longname v).
Proof.
  unfold run_validate. intros Hrun.
  destruct (l_status l =? "valid")%string eqn:Hstatus.
  - right. apply String.eqb_eq in Hstatus. split; [exact Hstatus|].
    unfold bind in Hrun.
    destruct (validate E _ _ _ _ _ _ _ _ _ _ _ _ _ _ _ _ s)
      as [[v s1']|] eqn:Hv; [|discriminate].
    unfold ret in Hrun. inversion Hrun; subst; clear Hrun.
    exists v. simpl. rewrite Hstatus.
    repeat split; reflexivity.
  - left. apply String.eqb_neq in Hstatus.
    unfold ret in Hrun. inversion Hrun; subst. auto.
Qed.

Lemma run_validate_reads tx l : reads (run_validate E tx l).
Proof.
  unfold run_validate.
  destruct (l_status l =? "valid")%string; [|apply reads_ret].
  apply reads_bind; [apply reads_validate | intros v; apply reads_ret].
Qed.

(** What a run of [parse] did, step by step. *)
Lemma parse_inv tx message message_type_id s row s' :
  parse E tx message message_type_id s = Ok (row, s') ->
  exists u l fee reissuance longname s1 lock description s2,
    unpack E (tx_block_index tx) message message_type_id = Ok u
    /\ run_validate E tx
         (check_subasset E (after_unpack E (tx_block_index tx) u)) s
       = Ok ((l, fee, reissuance, longname), s1)
    /\ register_and_lock tx l reissuance
         (when_db (l_status l =? "valid")%string
            (fun d => util_debit E d (tx_source tx) (XCP E) fee
                        "issuance fee" (tx_hash tx)) s1)
       = Ok ((lock, description), s2)
    /\ i_status row = l_status l
    /\ i_asset row = l_asset l
    /\ i_quantity row
       = (if nonempty (tx_destination tx) then Some 0 else l_quantity l)
    /\ i_fungible row = l_fungible l
    /\ i_fee_paid row = fee
    /\ i_locked row = lock
    /\ s' = when_db ((i_status row =? "valid")%string
                     && negb (default (i_quantity row) 0 =? 0))
              (fun d => util_credit E d (tx_source tx)
                          (default (l_asset l) "")
                          (default (i_quantity row) 0) "issuance"
                          (tx_hash tx))
              (when_db (negb (cell_bool (l_fungible l)))
                 (fun d => assetgroup_create E d (tx_index tx) (tx_hash tx)
                             (tx_block_index tx) (i_asset_longname row)
                             (i_issuer row) (i_status row))
                 (if negb (contains "integer overflow" (i_status row))
                  then with_issuance row s2 else s2)).
Proof.
  unfold parse. intros Hrun.
  unfold bind at 1 in Hrun. unfold lift at 1 in Hrun.
  destruct (unpack E (tx_block_index tx) message message_type_id)
    as [u|] eqn:Hu; [|discriminate].
  unfold bind at 1 in Hrun.
  destruct (run_validate E tx
              (check_subasset E (after_unpack E (tx_block_index tx) u)) s)
    as [[[[[l fee] reissuance] longname] s1]|] eqn:Hv; [|discriminate].
  destruct (nonempty (tx_destination tx)) eqn:Hdest;
    rewrite bind_when in Hrun; unfold bind at 1 in Hrun;
    destruct (register_and_lock tx l reissuance _)
      as [[[lock description] s2]|] eqn:Hlock; try discriminate;
    exists u, l, fee, reissuance, longname, s1, lock, description, s2;
    (split; [reflexivity|]); (split; [exact Hv|]);
    (split; [exact Hlock|]);
    match type of Hrun with
    | context [contains "integer overflow" ?st] =>
        destruct (contains "integer overflow" st) eqn:Hover
    end;
    simpl negb in Hrun; cbv iota in Hrun;
    unfold bind at 1 in Hrun;
    try unfold insert_issuance at 1 in Hrun;
    try unfold ret at 1 in Hrun;
    rewrite bind_when in Hrun; rewrite bind_when in Hrun;
    unfold ret in Hrun; inversion Hrun; subst row s'; clear Hrun;
    simpl; rewrite ?Hover; simpl; repeat split; reflexivity.
Qed.

(** A message that ends up invalid wrote nothing before the issuance
    row. *)
Lemma parse_invalid_inv tx message message_type_id s row s' :
  parse E tx message message_type_id s = Ok (row, s') ->
  i_status row <> "valid" ->
  exists s1,
    db s1 = db s
    /\ (exists l, journal s1 = journal s ++ l /\ Forall is_select l)
    /\ s' = when_db (negb (cell_bool (i_fungible row)))
              (fun d => assetgroup_create E d (tx_index tx) (tx_hash tx)
                          (tx_block_index tx) (i_asset_longname row)
                          (i_issuer row) (i_status row))
              (if negb (contains "integer overflow" (i_status row))
               then with_issuance row s1 else s1).
Proof.
  intros Hrun Hinvalid.
  destruct (parse_inv _ _ _ _ _ _ Hrun)
    as (u & l & fee & reissuance & longname & s1 & lock & description & s2
        & _ & Hv & Hlock & Hstatus & _ & _ & Hfungible & _ & _ & Hs').
  assert (Hneq : (l_status l =? "valid")%string = false).
  { apply String.eqb_neq. rewrite <- Hstatus. exact Hinvalid. }
  rewrite Hneq in Hlock. unfold when_db at 1 in Hlock.
  unfold register_and_lock in Hlock. rewrite Hneq in Hlock.
  unfold ret in Hlock. inversion Hlock; subst lock description s2.
  exists s1.
  destruct (run_validate_reads tx _ _ _ _ Hv) as [Hdb Hjournal].
  split; [exact Hdb|]. split; [exact Hjournal|].
  rewrite Hs'. rewrite Hstatus at 1. rewrite Hneq. simpl andb.
  unfold when_db at 1. rewrite Hfungible. reflexivity.
Qed.

End Parsing.

(** ** Invalid messages *)

(** The three tables after a run of [parse] that ended with another
    status than [valid]. *)
Lemma parse_invalid_tables (E : Env) (tx : transaction)
  (message : list byte) (message_type_id : Z) (s s' : Store)
  (row : issuance_row) :
  group_keeps_ledger E ->
  parse E tx message message_type_id s = Ok (row, s') ->
  i_status row <> "valid" ->
  issuances (db s')
  = (if contains "integer overflow" (i_status row)
     then issuances (db s) else issuances (db s) ++ [row])
  /\ assets (db s') = assets (db s)
  /\ balances (db s') = balances (db s).
Proof.
  intros Hgroup Hrun Hnot.
  destruct (parse_invalid_inv E _ _ _ _ _ _ Hrun Hnot)
    as (s1 & Hdb & _ & Hs').
  rewrite Hs'. unfold when_db, with_issuance, record.
  destruct (contains "integer overflow" (i_status row));
    destruct (negb (cell_bool (i_fungible row)));
    simpl; rewrite ?Hdb; try (repeat split; reflexivity);
    match goal with
    | |- context [assetgroup_create E ?d _ _ _ _ _ _] =>
        destruct (Hgroup d (tx_index tx) (tx_hash tx) (tx_block_index tx)
                    (i_asset_longname row) (i_issuer row) (i_status row))
          as [Hi [Ha Hb]]
    end;
    repeat split; assumption.
Qed.



(** ** Lock absorption *)

Section Absorption.
Context (E : Env).

(** The locals of a message that is still valid when [validate] is run:
    everything was unpacked. *)
Lemma valid_locals block_index u :
  l_status (check_subasset E (after_unpack E block_index u)) = "valid" ->
  exists asset q cd cp,
    l_asset (check_subasset E (after_unpack E block_index u)) = Some asset
    /\ l_quantity (check_subasset E (after_unpack E block_index u)) = Some q
    /\ l_call_date (check_subasset E (after_unpack E block_index u))
       = PInt cd
    /\ l_call_price (check_subasset E (after_unpack E block_index u))
       = PFloat cp
    /\ exists u0, u = Some u0 /\ q = u_quantity u0.
Proof.
  destruct u as [u0|]; [|discriminate].
  unfold after_unpack, check_subasset. simpl.
  destruct (generate_asset_name E (u_asset_id u0) block_index) as [a|];
    destruct (u_subasset_longname u0) as [longname|]; simpl;
    try discriminate.
  - destruct (u_fungible u0); simpl.
    + destruct (validate_subasset_longname E longname None);
        [|discriminate].
      destruct (parse_subasset_from_asset_name E longname) as [[p c]|];
        simpl; [|discriminate].
      intros _. exists a, (u_quantity u0), (u_call_date u0),
                  (u_call_price u0). eauto 10.
    + destruct (validate_subasset_longname E longname (Some longname));
        simpl; [|discriminate].
      intros _. exists a, (u_quantity u0), (u_call_date u0),
                  (u_call_price u0). eauto 10.
  - intros _. exists a, (u_quantity u0), (u_call_date u0),
                (u_call_price u0). eauto 10.
Qed.

(** A valid row written by [parse] for an asset that counts as locked has
    quantity 0. *)
Lemma parse_valid_on_locked tx message message_type_id s row s' asset
  last_issuance :
  parse E tx message message_type_id s = Ok (row, s') ->
  i_status row = "valid" ->
  i_asset row = Some asset ->
  last_row (issuances_where "valid" (Some asset) (db s))
  = Some last_issuance ->
  issuance_locked E (issuances_where "valid" (Some asset) (db s))
    last_issuance = true ->
  i_quantity row = Some 0.
Proof.
  intros Hrun Hstatus Hasset Hlast Hlocked.
  destruct (parse_inv E _ _ _ _ _ _ Hrun)
    as (u & l & fee & reissuance & longname & s1 & lock & description & s2
        & _ & Hv & _ & Hst & Has & Hq & _).
  rewrite Hstatus in Hst. rewrite Hasset in Has.
  destruct (run_validate_inv E _ _ _ _ _ _ _ _ Hv)
    as [[Hne [Heq _]]|[Hvalid [v [Hval [Hst' [Has' [Hq' _]]]]]]].
  - subst l. elim Hne. symmetry. exact Hst.
  - destruct (valid_locals _ _ Hvalid)
      as (a & q & cd & cp & Ha & Hqq & Hcd & Hcp & _).
    rewrite Ha, Hqq, Hcd, Hcp in Hval.
    rewrite Ha in Has'. rewrite <- Has in Has'. inversion Has'; subst a.
    simpl default in Hval.
    rewrite (validate_typed E _ _ _ _ _ _ _ _ _ _ (PInt cd) (PFloat cp) _
               _ _ _ cd cp s eq_refl eq_refl) in Hval.
    assert (Hzero : q = 0).
    { destruct (Z.eq_dec q 0) as [Hz|Hnz]; [exact Hz|].
      pose proof (locked_problem_reported E _ _ _ _ _ _ _ _ _ _ _ _ _ _ _ _
                    _ _ _ _ _ Hval Hlast Hlocked Hnz) as Hin.
      rewrite <- Hst in Hst'.
      destruct (v_problems v); [destruct Hin | discriminate]. }
    subst q. rewrite Hq, Hq', Hqq.
    destruct (nonempty (tx_destination tx)); [reflexivity|].
    destruct (negb (enabled E "integer_overflow_fix"
                      (Some (tx_block_index tx)))
              && mem "total quantity overflow" (v_problems v));
      reflexivity.
Qed.

End Absorption.

(** C6: under [issuance_lock_fix], once any valid issuance of an asset is
    locked, [validate] reports [locked asset and non-zero quantity] for
    every candidate of that asset with quantity > 0; without the gate the
    problem is reported exactly when the most recent valid issuance is
    locked (and the quantity is not zero); and so, under the gate, a valid
    row that [parse] writes for an asset with a locked valid issuance has
    quantity 0. Candidates are typed as [parse] passes them. *)
Theorem lock_absorption (E : Env) :
  (forall source destination asset q divisible listed reassignable vendable
          fungible callable_ call_date call_price description
          subasset_parent subasset_longname block_index s cd cp locked_row,
      enabled E "issuance_lock_fix" None = true ->
      resolved_date call_date = PInt cd ->
      resolved_price call_price = PFloat cp ->
      well_filled (db s) ->
      subasset_longname = None \/ asset <> "" ->
      In locked_row (issuances (db s)) ->
      i_status locked_row = "valid" ->
      i_asset locked_row = Some asset ->
      i_locked locked_row = true ->
      q > 0 ->
      exists v s',
        validate E source destination asset (PInt q) divisible listed
          reassignable vendable fungible callable_ call_date call_price
          description subasset_parent subasset_longname block_index s
        = Ok (v, s')
        /\ In "locked asset and non‐zero quantity" (v_problems v))
  /\ (forall source destination asset q divisible listed reassignable
             vendable fungible callable_ call_date call_price description
             subasset_parent subasset_longname block_index s cd cp v s',
         enabled E "issuance_lock_fix" None = false ->
         resolved_date call_date = PInt cd ->
         resolved_price call_price = PFloat cp ->
         ~ In "locked asset and non‐zero quantity"
             (group_problems E (db s) source (default fungible true)
                subasset_longname) ->
         validate E source destination asset (PInt q) divisible listed
           reassignable vendable fungible callable_ call_date call_price
           description subasset_parent subasset_longname block_index s
         = Ok (v, s') ->
         (In "locked asset and non‐zero quantity" (v_problems v)
          <-> (exists last_issuance,
                 last_row (issuances_where "valid" (Some asset) (db s))
                 = Some last_issuance
                 /\ i_locked last_issuance = true)
              /\ q <> 0))
  /\ (forall tx message message_type_id s row s' asset locked_row,
         enabled E "issuance_lock_fix" None = true ->
         In locked_row (issuances (db s)) ->
         i_status locked_row = "valid" ->
         i_asset locked_row = Some asset ->
         i_locked locked_row = true ->
         parse E tx message message_type_id s = Ok (row, s') ->
         i_status row = "valid" ->
         i_asset row = Some asset ->
         i_quantity row = Some 0).
Proof.
  split; [|split].
  - intros source destination asset q divisible listed reassignable vendable
      fungible callable_ call_date call_price description subasset_parent
      subasset_longname block_index s cd cp locked_row Hfix Hdate Hprice
      Hfilled Hname Hin Hstatus Hasset Hlocked Hq.
    rewrite (validate_typed E _ _ _ _ _ _ _ _ _ _ _ _ _ _ _ _ cd cp s Hdate
               Hprice).
    destruct (validate_checked_returns E (reserved_problem E asset) source
                destination asset q (default divisible true)
                (default listed true) (default reassignable true)
                (default vendable true) (default fungible true) callable_
                cd cp (default description "") subasset_parent
                subasset_longname block_index s Hfilled Hname)
      as [v [s' Hrun]].
    exists v, s'. split; [exact Hrun|].
    destruct (locked_under_fix E asset (db s) locked_row Hfix Hin Hstatus
                Hasset Hlocked) as [last_issuance [Hlast Hl]].
    eapply locked_problem_reported; try eassumption. lia.
  - intros source destination asset q divisible listed reassignable vendable
      fungible callable_ call_date call_price description subasset_parent
      subasset_longname block_index s cd cp v s' Hfix Hdate Hprice Hgroup
      Hrun.
    rewrite (validate_typed E _ _ _ _ _ _ _ _ _ _ _ _ _ _ _ _ cd cp s Hdate
               Hprice) in Hrun.
    split.
    + intros Hin.
      destruct (locked_problem_origin E _ _ _ _ _ _ _ _ _ _ _ _ _ _ _ _ _ _
                  _ _ Hrun Hin) as [H|[H|H]].
      * apply reserved_is_cannot_issue in H. destruct H as [rest H].
        discriminate.
      * elim Hgroup. exact H.
      * destruct H as [last_issuance [Hlast [Hl Hq]]].
        split; [|exact Hq]. exists last_issuance. split; [exact Hlast|].
        unfold issuance_locked in Hl. rewrite Hfix in Hl. exact Hl.
    + intros [[last_issuance [Hlast Hl]] Hq].
      eapply locked_problem_reported; try eassumption.
      unfold issuance_locked. rewrite Hfix. exact Hl.
  - intros tx message message_type_id s row s' asset locked_row Hfix Hin
      Hstatus Hasset Hlocked Hrun Hvalid Hrow.
    destruct (locked_under_fix E asset (db s) locked_row Hfix Hin Hstatus
                Hasset Hlocked) as [last_issuance [Hlast Hl]].
    eapply parse_valid_on_locked; eassumption.
Qed.

(** An asset locked by its second issuance and re-issued with quantity 0
    since: a candidate of 5 units is still refused. *)
Lemma lock_absorption_witness :
  exists v s',
    validate (Fixture.env ["issuance_lock_fix"] 320000) Fixture.alice None
      Fixture.numeric_asset (PInt 5) None None None None None false PNone
      PNone None None None 320000
      (Fixture.fresh Fixture.locked_then_touched) = Ok (v, s')
    /\ In "locked asset and non‐zero quantity" (v_problems v).
Proof.
  apply (proj1 (lock_absorption (Fixture.env ["issuance_lock_fix"] 320000))
           Fixture.alice None Fixture.numeric_asset 5 None None None None
           None false PNone PNone None None None 320000
           (Fixture.fresh Fixture.locked_then_touched) 0 fzero
           (Fixture.issued 2 Fixture.numeric_asset Fixture.alice 0 true)).
  - reflexivity.
  - reflexivity.
  - reflexivity.
  - intros r Hr _. simpl in Hr.
    destruct Hr as [Hr|[Hr|[Hr|[]]]]; subst r;
      repeat split; discriminate.
  - left. reflexivity.
  - simpl. tauto.
  - reflexivity.
  - reflexivity.
  - reflexivity.
  - lia.
Defined.

(** ** Overflow of the total quantity *)

Section Overflow.
Context (E : Env).

Lemma fee_schedule_bound asset fungible subasset_longname block_index :
  0 <= fee_schedule E asset fungible subasset_longname block_index
  <= 100 * (UNIT / 2).
Proof.
  unfold fee_schedule.
  destruct (enabled E "numeric_asset_names" None);
    destruct (enabled E "fee_revision_2021_1q" None);
    destruct subasset_longname; destruct fungible;
    destruct (enabled E "subassets" None);
    destruct (enabled E "non_fungible_assets" None);
    destruct (py_len asset >=? 13);
    destruct ((block_index >=? 291700) || TESTNET E || REGTEST E);
    destruct ((block_index >=? 286000) || TESTNET E || REGTEST E);
    destruct ((block_index >? 281236) || TESTNET E || REGTEST E);
    vm_compute; split; discriminate.
Qed.

Lemma fee_block_bound source asset quantity fungible reissuance
  subasset_longname block_index s fee funds s' :
  fee_block E source asset quantity fungible reissuance subasset_longname
    block_index s = Ok ((fee, funds), s') ->
  fee <= MAX_INT.
Proof.
  intros H. destruct (fee_block_inv E _ _ _ _ _ _ _ _ _ _ _ H) as [Hfee _].
  pose proof (fee_schedule_bound asset fungible subasset_longname
                block_index) as Hb.
  assert (Hunit : 100 * (UNIT / 2) <= MAX_INT) by (vm_compute; discriminate).
  assert (Hzero : 0 <= MAX_INT) by (vm_compute; discriminate).
  rewrite Hfee.
  destruct (negb (quantity =? 0)
            || ((block_index >=? 315000) || TESTNET E || REGTEST E));
    [|exact Hzero].
  destruct (negb reissuance
            || ((block_index <? 310000) && negb (TESTNET E)
                && negb (REGTEST E))); [lia | exact Hzero].
Qed.

(** A list of problems all of which are and are not of some kind is
    empty. *)
Lemma none_allowed (l : list string) (P Q : string -> Prop) :
  (forall p, In p l -> P p) ->
  (forall p, In p l -> Q p) ->
  (forall p, P p -> Q p -> False) ->
  l = [].
Proof.
  intros HP HQ Hno. destruct l as [|x l]; [reflexivity|].
  elim (Hno x); [apply HP | apply HQ]; left; reflexivity.
Qed.

(** A run of [parse] that left [validate] with a status other than
    [valid] returns. *)
Lemma parse_returns_invalid tx message message_type_id s u l fee reissuance
  longname s1 :
  unpack E (tx_block_index tx) message message_type_id = Ok u ->
  run_validate E tx
    (check_subasset E (after_unpack E (tx_block_index tx) u)) s
  = Ok ((l, fee, reissuance, longname), s1) ->
  l_status l <> "valid" ->
  exists row s', parse E tx message message_type_id s = Ok (row, s').
Proof.
  intros Hu Hv Hne. unfold parse.
  unfold bind at 1. unfold lift at 1. rewrite Hu.
  unfold bind at 1. rewrite Hv.
  assert (Hneq : (l_status l =? "valid")%string = false)
    by (apply String.eqb_neq; exact Hne).
  destruct (nonempty (tx_destination tx));
    rewrite bind_when; unfold bind at 1;
    unfold register_and_lock; rewrite Hneq; unfold ret at 1;
    unfold bind at 1;
    (destruct (negb (contains "integer overflow" (l_status l)));
     [unfold insert_issuance at 1 | unfold ret at 1]);
    rewrite bind_when; rewrite bind_when; unfold ret;
    eexists; eexists; reflexivity.
Qed.

Ltac not_overflow H :=
  split; intros Heq; subst; revert H; apply not_in_by_mem; reflexivity.

(** The problems of a candidate of 100 units on an asset that stands at
    [MAX_INT - 10], when nothing else is wrong with it. *)
Lemma only_total_overflow problems source destination asset divisible
  listed reassignable vendable fungible callable_ cd cp description
  subasset_parent block_index s v s' :
  validate_checked E problems source destination asset 100 divisible listed
    reassignable vendable fungible callable_ cd cp description
    subasset_parent None block_index s = Ok (v, s') ->
  sum_quantities (issuances_where "valid" (Some asset) (db s))
  = Ok (MAX_INT - 10) ->
  (forall p, In p (v_problems v) ->
             p = "total quantity overflow" \/ p = "integer overflow") ->
  (forall p, In p problems ->
             p <> "total quantity overflow" /\ p <> "integer overflow") ->
  v_problems v = ["total quantity overflow"]
  /\ nonempty destination = false.
Proof.
  intros Hrun Htotal Honly Hbefore.
  destruct (validate_checked_inv E _ _ _ _ _ _ _ _ _ _ _ _ _ _ _ _ _ _ _ _
              Hrun)
    as (signs & reissuance & ps & parent & fresh & funds & overflow & s1
        & s2 & s3 & s4 & Hsigns & Hlast & Hdb1 & Hparent & Hfresh & Hfee
        & Hover & Hproblems & _).
  pose proof (fee_block_bound _ _ _ _ _ _ _ _ _ _ _ Hfee) as Hbound.
  remember (late_problems E description listed reassignable block_index)
    as late eqn:Hlate.
  remember (problems ++ fungibility_problems E fungible divisible 100
            ++ signs ++ snd (callable_block E callable_ block_index cd cp)
            ++ ps ++ parent ++ fresh ++ funds ++ late) as head eqn:Hhead.
  assert (Hsplit : v_problems v = head ++ overflow).
  { rewrite Hproblems, Hhead. repeat rewrite <- app_assoc. reflexivity. }
  assert (Hempty : head = []).
  { apply (none_allowed _
             (fun p => p = "total quantity overflow"
                       \/ p = "integer overflow")
             (fun p => p <> "total quantity overflow"
                       /\ p <> "integer overflow")).
    - intros p Hp. apply Honly. rewrite Hsplit. apply in_or_app. left.
      exact Hp.
    - intros p Hp. rewrite Hhead in Hp.
      repeat (apply in_app_or in Hp; destruct Hp as [Hp|Hp]).
      + apply Hbefore. exact Hp.
      + apply fungibility_in_alphabet in Hp. not_overflow Hp.
      + apply (sign_in_alphabet _ _ _ _ _ Hsigns) in Hp. not_overflow Hp.
      + apply callable_in_alphabet in Hp. not_overflow Hp.
      + destruct (last_row (issuances_where "valid" (Some asset) (db s)))
          as [last_issuance|].
        * destruct Hlast as [_ [_ Hps]].
          apply (reissuance_in_alphabet E _ _ _ _ _ _ _ _ _ _ _ _ _ _ _ _
                   Hps) in Hp.
          not_overflow Hp.
        * destruct Hlast as [_ [_ Hps]]. subst ps.
          apply first_issuance_in_alphabet in Hp. not_overflow Hp.
      + destruct (parent_in_alphabet E _ _ _ _ _ _ _ p Hparent Hp)
          as [Ha|Hg]; [not_overflow Ha | destruct Hg].
      + apply (new_subasset_in_alphabet _ _ _ _ _ _ _ _ Hfresh) in Hp.
        not_overflow Hp.
      + destruct (fee_block_inv E _ _ _ _ _ _ _ _ _ _ _ Hfee) as [_ Hfunds].
        apply Hfunds in Hp. subst p. split; discriminate.
      + rewrite Hlate in Hp. apply late_in_alphabet in Hp. not_overflow Hp.
    - intros p [H1|H1] [H2 H3]; contradiction. }
  unfold overflow_problems in Hover. rewrite Htotal in Hover.
  simpl rbind in Hover. inversion Hover as [Hov]; clear Hover.
  replace (MAX_INT - 10 + 100 >? MAX_INT) with true in Hov
    by (vm_compute; reflexivity).
  replace (v_fee v >? MAX_INT) with false in Hov
    by (symmetry; rewrite Z.gtb_ltb; apply Z.ltb_ge; exact Hbound).
  replace (100 >? MAX_INT) with false in Hov by (vm_compute; reflexivity).
  simpl orb in Hov. rewrite andb_false_r in Hov.
  rewrite andb_true_r in Hov.
  destruct (nonempty destination) eqn:Hdest.
  - exfalso.
    destruct (Honly "cannot issue and transfer simultaneously")
      as [H|H]; try discriminate.
    rewrite Hsplit, <- Hov. apply in_or_app. right. simpl. right. left.
    reflexivity.
  - rewrite Hsplit, Hempty, <- Hov. split; reflexivity.
Qed.

End Overflow.

(** C1, as stated, fails: with [integer_overflow_fix] enabled at block
    320000, an asset that stands at [MAX_INT - 10] and a message of 100
    units, the status is [invalid: total quantity overflow], which does not
    contain [integer overflow], and the issuance row is inserted. *)
Lemma total_overflow_row_is_inserted :
  exists row s',
    parse (Fixture.env ["integer_overflow_fix"] 320000)
      (Fixture.tx_at 320000 None)
      (Fixture.message_for (Fixture.env ["integer_overflow_fix"] 320000)
         95428956661682177 100)
      ID (Fixture.fresh Fixture.nearly_full) = Ok (row, s')
    /\ sum_quantities
         (issuances_where "valid" (Some Fixture.numeric_asset)
            Fixture.nearly_full) = Ok (MAX_INT - 10)
    /\ i_status row = "invalid: total quantity overflow"
    /\ contains "integer overflow" (i_status row) = false
    /\ issuances (db s') = issuances Fixture.nearly_full ++ [row]
    /\ journal s' = [SELECT T_issuances; INSERT T_issuances].
Proof.
  eexists. eexists.
  split; [vm_compute; reflexivity|].
  repeat split; reflexivity.
Qed.

(** C1, amended: with [integer_overflow_fix] enabled at the block of the
    transaction, when the prior valid issuances of the asset sum to
    [MAX_INT - 10] and an otherwise-valid Type 20 message carries quantity
    100, [parse] returns with the status
    [invalid: total quantity overflow], which does not contain
    [integer overflow], and inserts the issuances row, with its quantity of
    100; assets and balances are left as they were. A message is
    otherwise valid when [validate] reports no problem but the two
    overflow problems. *)
Theorem total_overflow_is_recorded (E : Env) (tx : transaction)
  (message : list byte) (message_type_id : Z) (s : Store) (u : unpacked)
  (asset : string)
  (Hfix : enabled E "integer_overflow_fix" (Some (tx_block_index tx))
          = true)
  (Hgroup : group_keeps_ledger E)
  (Hunpack : unpack E (tx_block_index tx) message message_type_id
             = Ok (Some u))
  (Hplain : u_subasset_longname u = None)
  (Hname : generate_asset_name E (u_asset_id u) (tx_block_index tx)
           = Some asset)
  (Hquantity : u_quantity u = 100)
  (Hfilled : well_filled (db s))
  (Htotal : sum_quantities (issuances_where "valid" (Some asset) (db s))
            = Ok (MAX_INT - 10))
  (Hotherwise :
     forall v s1,
       validate E (tx_source tx) (tx_destination tx) asset (PInt 100)
         (Some (u_divisible u)) (Some (u_listed u))
         (Some (u_reassignable u)) (Some (u_vendable u))
         (Some (u_fungible u)) (u_callable u) (PInt (u_call_date u))
         (PFloat (u_call_price u)) (Some (u_description u)) None None
         (tx_block_index tx) s = Ok (v, s1) ->
       forall p, In p (v_problems v) ->
                 p = "total quantity overflow" \/ p = "integer overflow") :
  exists row s',
    parse E tx message message_type_id s = Ok (row, s')
    /\ i_status row = "invalid: total quantity overflow"
    /\ contains "integer overflow" (i_status row) = false
    /\ i_quantity row = Some 100
    /\ issuances (db s') = issuances (db s) ++ [row]
    /\ assets (db s') = assets (db s)
    /\ balances (db s') = balances (db s).
Proof.
  set (l0 := check_subasset E
               (after_unpack E (tx_block_index tx) (Some u))).
  assert (Hl0 : l0 = after_unpack E (tx_block_index tx) (Some u)).
  { unfold l0, check_subasset, after_unpack. simpl. rewrite Hplain.
    reflexivity. }
  assert (Hvalid : l_status l0 = "valid").
  { rewrite Hl0. unfold after_unpack. simpl. rewrite Hname. reflexivity. }
  assert (Hcall :
    validate E (tx_source tx) (tx_destination tx) (default (l_asset l0) "")
      (match l_quantity l0 with Some q => PInt q | None => PNone end)
      (l_divisible l0) (l_listed l0) (l_reassignable l0) (l_vendable l0)
      (l_fungible l0) (cell_bool (l_callable l0)) (l_call_date l0)
      (l_call_price l0) (l_description l0) (l_subasset_parent l0)
      (l_subasset_longname l0) (tx_block_index tx) s
    = validate E (tx_source tx) (tx_destination tx) asset (PInt 100)
        (Some (u_divisible u)) (Some (u_listed u))
        (Some (u_reassignable u)) (Some (u_vendable u))
        (Some (u_fungible u)) (u_callable u) (PInt (u_call_date u))
        (PFloat (u_call_price u)) (Some (u_description u)) None None
        (tx_block_index tx) s).
  { rewrite Hl0. unfold after_unpack. simpl. rewrite Hname, Hplain, Hquantity.
    reflexivity. }
  pose proof (validate_typed E (tx_source tx) (tx_destination tx) asset 100
                (Some (u_divisible u)) (Some (u_listed u))
                (Some (u_reassignable u)) (Some (u_vendable u))
                (Some (u_fungible u)) (u_callable u) (PInt (u_call_date u))
                (PFloat (u_call_price u)) (Some (u_description u)) None None
                (tx_block_index tx) (u_call_date u) (u_call_price u) s
                eq_refl eq_refl) as Htyped.
  destruct (validate_checked_returns E (reserved_problem E asset)
              (tx_source tx) (tx_destination tx) asset 100
              (default (Some (u_divisible u)) true)
              (default (Some (u_listed u)) true)
              (default (Some (u_reassignable u)) true)
              (default (Some (u_vendable u)) true)
              (default (Some (u_fungible u)) true) (u_callable u)
              (u_call_date u) (u_call_price u)
              (default (Some (u_description u)) "") None None
              (tx_block_index tx) s Hfilled (or_introl eq_refl))
    as [v [s1 Hchecked]].
  assert (Hval :
    validate E (tx_source tx) (tx_destination tx) asset (PInt 100)
      (Some (u_divisible u)) (Some (u_listed u)) (Some (u_reassignable u))
      (Some (u_vendable u)) (Some (u_fungible u)) (u_callable u)
      (PInt (u_call_date u)) (PFloat (u_call_price u))
      (Some (u_description u)) None None (tx_block_index tx) s
    = Ok (v, s1)).
  { rewrite Htyped. exact Hchecked. }
  destruct (only_total_overflow E _ _ _ _ _ _ _ _ _ _ _ _ _ _ _ _ _ _
              Hchecked Htotal (Hotherwise v s1 Hval))
    as [Hproblems Hdest].
  { intros p Hp. apply reserved_is_cannot_issue in Hp.
    destruct Hp as [rest Hp]. subst p. split; discriminate. }
  assert (Hrv : exists l, run_validate E tx l0 s
                          = Ok ((l, v_fee v, v_reissuance v,
                                 v_reissued_asset_longname v), s1)
                          /\ l_status l = "invalid: total quantity overflow"
                          /\ l_quantity l = Some 100).
  { unfold run_validate. rewrite Hvalid. rewrite String.eqb_refl.
    unfold bind. rewrite Hcall, Hval. unfold ret.
    eexists. split; [reflexivity|]. simpl.
    rewrite Hproblems, Hfix. simpl.
    split; [reflexivity|].
    rewrite Hl0. unfold after_unpack. simpl. rewrite Hquantity.
    reflexivity. }
  destruct Hrv as [l [Hrv [Hstatus Hq]]].
  destruct (parse_returns_invalid E tx message message_type_id s (Some u) l
              _ _ _ s1 Hunpack Hrv) as [row [s' Hparse]].
  { rewrite Hstatus. discriminate. }
  exists row, s'. split; [exact Hparse|].
  destruct (parse_inv E _ _ _ _ _ _ Hparse)
    as (u' & l' & fee & reissuance & longname & s1' & lock & description
        & s2 & Hu' & Hv' & _ & Hst & _ & Hqr & _).
  rewrite Hunpack in Hu'. inversion Hu'; subst u'.
  fold l0 in Hv'. rewrite Hrv in Hv'. inversion Hv'; subst l' fee reissuance
                                                      longname s1'.
  assert (Hrow : i_status row = "invalid: total quantity overflow")
    by (rewrite Hst; exact Hstatus).
  split; [exact Hrow|].
  assert (Hno : contains "integer overflow" (i_status row) = false)
    by (rewrite Hrow; reflexivity).
  split; [exact Hno|].
  split; [rewrite Hqr, Hdest; exact Hq|].
  destruct (parse_invalid_tables E tx message message_type_id s s' row
              Hgroup Hparse) as [Hi [Ha Hb]].
  { rewrite Hrow. discriminate. }
  rewrite Hno in Hi. auto.
Qed.

Lemma total_overflow_is_recorded_witness :
  exists row s',
    parse (Fixture.env ["integer_overflow_fix"] 320000)
      (Fixture.tx_at 320000 None)
      (Fixture.message_for (Fixture.env ["integer_overflow_fix"] 320000)
         95428956661682177 100)
      ID (Fixture.fresh Fixture.nearly_full) = Ok (row, s')
    /\ i_status row = "invalid: total quantity overflow"
    /\ issuances (db s') = issuances Fixture.nearly_full ++ [row].
Proof.
  destruct (total_overflow_is_recorded
              (Fixture.env ["integer_overflow_fix"] 320000)
              (Fixture.tx_at 320000 None)
              (Fixture.message_for
                 (Fixture.env ["integer_overflow_fix"] 320000)
                 95428956661682177 100)
              ID (Fixture.fresh Fixture.nearly_full)
              (mk_unpacked 95428956661682177 100 true true true true true
                 false 0 fzero "" None)
              Fixture.numeric_asset eq_refl)
    as [row [s' [Hparse [Hstatus [_ [_ [Hi _]]]]]]].
  - intros d i h b l iss st. simpl. auto.
  - vm_compute. reflexivity.
  - reflexivity.
  - vm_compute. reflexivity.
  - reflexivity.
  - intros r Hr _. simpl in Hr. destruct Hr as [Hr|[]]. subst r.
    repeat split; discriminate.
  - vm_compute. reflexivity.
  - intros v s1 Hv p Hp.
    assert (Hcomputed :
      v_problems v = ["total quantity overflow"]).
    { vm_compute in Hv. inversion Hv; subst. reflexivity. }
    rewrite Hcomputed in Hp. destruct Hp as [Hp|[]]. left. auto.
  - exists row, s'. auto.
Defined.

(** ** The wire codec *)

Lemma byte_val_of_Z (z : Z) : byte_val (byte_of_Z z) = z mod 256.
Proof.
  unfold byte_val, byte_of_Z.
  assert (Hr : 0 <= z mod 256 < 256) by (apply Z.mod_pos_bound; lia).
  destruct (Byte.of_N (Z.to_N (z mod 256))) as [b|] eqn:Hb.
  - apply Byte.to_of_N in Hb. rewrite Hb. lia.
  - apply Byte.of_N_None_iff in Hb. lia.
Qed.

Lemma be_encode_length (n : nat) (z : Z) : List.length (be_encode n z) = n.
Proof.
  induction n as [|n IH]; simpl; [reflexivity | rewrite IH; reflexivity].
Qed.

Lemma be_decode_from_encode (n : nat) (z acc : Z) :
  be_decode_from acc (be_encode n z)
  = acc * 256 ^ Z.of_nat n + z mod 256 ^ Z.of_nat n.
Proof.
  revert acc. induction n as [|n IH]; intros acc.
  - simpl. rewrite Z.mod_1_r. lia.
  - cbn [be_encode be_decode_from]. rewrite IH, byte_val_of_Z.
    rewrite Nat2Z.inj_succ, Z.pow_succ_r by lia.
    replace (256 * 256 ^ Z.of_nat n) with (256 ^ Z.of_nat n * 256) by lia.
    rewrite (Z.rem_mul_r z (256 ^ Z.of_nat n) 256) by lia.
    lia.
Qed.

Lemma be_decode_encode (n : nat) (z : Z) :
  0 <= z < 256 ^ Z.of_nat n -> be_decode (be_encode n z) = z.
Proof.
  intros Hz. unfold be_decode. rewrite be_decode_from_encode.
  rewrite Z.mod_small by exact Hz. lia.
Qed.

Lemma pack_uint_ok (n : nat) (z : Z) :
  0 <= z < 256 ^ Z.of_nat n -> pack_uint n z = Ok (be_encode n z).
Proof.
  intros [H0 H1]. unfold pack_uint.
  replace (0 <=? z) with true by (symmetry; apply Z.leb_le; exact H0).
  replace (z <? 256 ^ Z.of_nat n) with true
    by (symmetry; apply Z.ltb_lt; exact H1).
  reflexivity.
Qed.

Lemma slice_middle (pre x post : list byte) (a b : nat) :
  List.length pre = a -> List.length x = (b - a)%nat ->
  slice a b (pre ++ x ++ post) = x.
Proof.
  intros Ha Hb. unfold slice.
  rewrite skipn_app, <- Ha, Nat.sub_diag, skipn_all. simpl.
  rewrite Ha, firstn_app, <- Hb, Nat.sub_diag, firstn_all. simpl.
  apply app_nil_r.
Qed.

Lemma skipn_prefix (pre post : list byte) (a : nat) :
  List.length pre = a -> skipn a (pre ++ post) = post.
Proof.
  intros Ha. rewrite skipn_app, <- Ha, Nat.sub_diag, skipn_all.
  reflexivity.
Qed.

Lemma length_list_byte (s : string) :
  List.length (list_byte_of_string s) = String.length s.
Proof.
  unfold list_byte_of_string. rewrite length_map.
  induction s as [|c s IH]; simpl; [reflexivity | rewrite IH; reflexivity].
Qed.

Lemma flags_round_trip (divisible listed reassignable vendable fungible
                        : bool) :
  let flags := flags_byte divisible listed reassignable vendable fungible in
  0 <= flags < 256 ^ Z.of_nat 1
  /\ flag_divisible flags = divisible
  /\ flag_listed flags = listed
  /\ flag_reassignable flags = reassignable
  /\ flag_vendable flags = vendable
  /\ flag_fungible flags = fungible.
Proof.
  destruct divisible, listed, reassignable, vendable, fungible;
    vm_compute; intuition discriminate.
Qed.

Lemma unpack_pack_bool (b : bool) : unpack_bool (pack_bool b) = b.
Proof. destruct b; reflexivity. Qed.

(** The description tail, written by the encoder and read back by the
    decoder from a message whose fixed part has 26 bytes. *)
Lemma tail_round_trip (fixed data : list byte) :
  List.length fixed = 26%nat ->
  let n := List.length data in
  let message :=
    fixed ++ (if (n <=? 42)%nat then pack_p (n + 1) data
              else pack_s n data) in
  unpack_tail (curr_format message) (skipn 26 message)
  = Ok (if (n =? 42)%nat then x2a :: data else data).
Proof.
  intros Hfixed n message.
  assert (Hskip : skipn 26 message
                  = if (n <=? 42)%nat then pack_p (n + 1) data
                    else pack_s n data).
  { unfold message. apply skipn_prefix. exact Hfixed. }
  assert (Hlen : len message - LENGTH_2
                 = Z.of_nat (if (n <=? 42)%nat then n + 1 else n)).
  { unfold len, message, LENGTH_2. rewrite length_app, Hfixed.
    destruct (n <=? 42)%nat eqn:Hn.
    - unfold pack_p. rewrite Nat.add_1_r. cbn [List.length].
      rewrite length_app, length_firstn. unfold zeros.
      rewrite repeat_length. fold n.
      apply Nat.leb_le in Hn. lia.
    - unfold pack_s. rewrite length_app, length_firstn. unfold zeros.
      rewrite repeat_length. fold n. lia. }
  rewrite Hskip. unfold curr_format. rewrite Hlen.
  destruct (n <=? 42)%nat eqn:Hn.
  - apply Nat.leb_le in Hn.
    assert (Hpacked : pack_p (n + 1) data
                      = byte_of_Z (Z.of_nat n) :: data).
    { unfold pack_p. rewrite Nat.add_1_r. fold n.
      replace (Nat.min (Nat.min n n) 255) with n by lia.
      unfold n at 2. rewrite firstn_all, Nat.sub_diag. simpl.
      rewrite app_nil_r. reflexivity. }
    rewrite Hpacked.
    destruct (n =? 42)%nat eqn:H42.
    + apply Nat.eqb_eq in H42. rewrite H42. reflexivity.
    + apply Nat.eqb_neq in H42.
      replace (Z.of_nat (n + 1) <=? 42) with true
        by (symmetry; apply Z.leb_le; lia).
      rewrite Nat2Z.id, Nat.add_1_r. unfold unpack_tail, unpack_p.
      rewrite byte_val_of_Z, Z.mod_small by lia. rewrite Nat2Z.id.
      replace (S n <=? n)%nat with false
        by (symmetry; apply Nat.leb_gt; lia).
      unfold n. rewrite firstn_all. reflexivity.
  - apply Nat.leb_gt in Hn.
    replace (Z.of_nat n <=? 42) with false
      by (symmetry; apply Z.leb_gt; lia).
    replace (n =? 42)%nat with false by (symmetry; apply Nat.eqb_neq; lia).
    unfold unpack_tail, pack_s. fold n.
    unfold n at 1. rewrite firstn_all, Nat.sub_diag. simpl.
    rewrite app_nil_r. reflexivity.
Qed.

Lemma utf8_valid_star (bs : list byte) :
  utf8_valid (x2a :: bs) = utf8_valid bs.
Proof. reflexivity. Qed.



(** * Further properties *)

(** ** Re-issuance *)

Section Reissuing.
Context (E : Env).

(** On typed input and a filled-in ledger [validate] returns, and what it
    returns is the result of the checked part. *)
Lemma validate_typed_run source destination asset q divisible listed
  reassignable vendable fungible callable_ call_date call_price description
  subasset_parent subasset_longname block_index cd cp s :
  resolved_date call_date = PInt cd ->
  resolved_price call_price = PFloat cp ->
  well_filled (db s) ->
  subasset_longname = None \/ asset <> "" ->
  exists v s',
    validate E source destination asset (PInt q) divisible listed
      reassignable vendable fungible callable_ call_date call_price
      description subasset_parent subasset_longname block_index s
    = Ok (v, s')
    /\ validate_checked E (reserved_problem E asset) source destination
         asset q (default divisible true) (default listed true)
         (default reassignable true) (default vendable true)
         (default fungible true) callable_ (PInt cd) (PFloat cp)
         (default description "") subasset_parent subasset_longname
         block_index s = Ok (v, s').
Proof.
  intros Hdate Hprice Hfilled Hname.
  rewrite (validate_typed E _ _ _ _ _ _ _ _ _ _ _ _ _ _ _ _ cd cp s Hdate
             Hprice).
  destruct (validate_checked_returns E (reserved_problem E asset) source
              destination asset q (default divisible true)
              (default listed true) (default reassignable true)
              (default vendable true) (default fungible true) callable_ cd
              cp (default description "") subasset_parent subasset_longname
              block_index s Hfilled Hname) as [v [s' Hrun]].
  exists v, s'. auto.
Qed.

Lemma single_or_none (c : bool) (x : string) :
  (if c then [x] else []) = [] -> c = false.
Proof. destruct c; [discriminate | reflexivity]. Qed.

(** A re-issuance without problems: what it has in common with the last
    valid issuance. *)
Lemma reissuance_clean d issuances last_issuance source asset q divisible
  listed reassignable vendable callable_ cd cp block_index :
  reissuance_problems E d issuances last_issuance source asset q divisible
    listed reassignable vendable callable_ cd cp block_index = Ok [] ->
  i_issuer last_issuance = source
  /\ cell_bool (i_divisible last_issuance) = divisible
  /\ cell_bool (i_listed last_issuance) = listed
  /\ cell_bool (i_reassignable last_issuance) = reassignable
  /\ cell_bool (i_callable last_issuance) = callable_
  /\ vendable_problems E d asset last_issuance vendable = []
  /\ py_lt cp (i_call_price last_issuance) = Ok false
  /\ (issuance_locked E issuances last_issuance = true -> q = 0).
Proof.
  unfold reissuance_problems, rbind. intros H.
  destruct (py_lt cd (i_call_date last_issuance)) as [b1|]; [|discriminate].
  destruct (py_lt cp (i_call_price last_issuance)) as [b2|]; [|discriminate].
  injection H as Hnil.
  repeat match type of Hnil with
         | _ ++ _ = [] => apply app_eq_nil in Hnil;
                          let H1 := fresh "Hpart" in
                          destruct Hnil as [H1 Hnil]
         end.
  apply single_or_none in Hpart, Hpart0, Hpart1, Hpart2, Hpart4, Hpart6,
    Hnil.
  apply negb_false_iff in Hpart, Hpart0, Hpart1, Hpart2, Hpart4.
  apply String.eqb_eq in Hpart.
  apply Bool.eqb_prop in Hpart0, Hpart1, Hpart2, Hpart4.
  split; [exact Hpart|]. split; [exact Hpart0|]. split; [exact Hpart1|].
  split; [exact Hpart2|]. split; [exact Hpart4|]. split; [exact Hpart3|].
  split.
  - rewrite Hpart6. reflexivity.
  - intros Hlocked. rewrite Hlocked in Hnil. simpl in Hnil.
    apply negb_false_iff in Hnil. apply Z.eqb_eq. exact Hnil.
Qed.

End Reissuing.

(** X1: [validate] treats a candidate as a re-issuance exactly when the
    ledger holds an issuance of that asset name with status [valid];
    rows of any other status do not count. The long name it hands back is
    that of the last such issuance. *)
Theorem reissuance_iff_valid_issuance (E : Env) (source : string)
  (destination : option string) (asset : string) (q : Z)
  (divisible listed reassignable vendable fungible : option bool)
  (callable_ : bool) (call_date call_price : pyval)
  (description : option string)
  (subasset_parent subasset_longname : option string) (block_index : Z)
  (s : Store) (cd : Z) (cp : float)
  (Hdate : resolved_date call_date = PInt cd)
  (Hprice : resolved_price call_price = PFloat cp)
  (Hfilled : well_filled (db s))
  (Hname : subasset_longname = None \/ asset <> "") :
  exists v s' reissuance,
    validate E source destination asset (PInt q) divisible listed
      reassignable vendable fungible callable_ call_date call_price
      description subasset_parent subasset_longname block_index s
    = Ok (v, s')
    /\ v_reissuance v = Some reissuance
    /\ (reissuance = true
        <-> exists r, In r (issuances (db s)) /\ i_status r = "valid"
                      /\ i_asset r = Some asset)
    /\ v_reissued_asset_longname v
       = match last_row (issuances_where "valid" (Some asset) (db s)) with
         | Some last_issuance => i_asset_longname last_issuance
         | None => None
         end.
Proof.
  destruct (validate_typed_run E source destination asset q divisible listed
              reassignable vendable fungible callable_ call_date call_price
              description subasset_parent subasset_longname block_index cd
              cp s Hdate Hprice Hfilled Hname) as [v [s' [Hrun Hchecked]]].
  destruct (validate_checked_inv E _ _ _ _ _ _ _ _ _ _ _ _ _ _ _ _ _ _ _ _
              Hchecked)
    as (signs & reissuance & ps & parent & fresh & funds & overflow & s1
        & s2 & s3 & s4 & _ & Hlast & _ & _ & _ & _ & _ & _ & Hre & _).
  exists v, s', reissuance. split; [exact Hrun|]. split; [exact Hre|].
  destruct (last_row (issuances_where "valid" (Some asset) (db s)))
    as [last_issuance|] eqn:Hl.
  - destruct Hlast as [Htrue [Hlong _]]. split; [|exact Hlong].
    split; [|intros _; exact Htrue].
    intros _. exists last_issuance.
    apply last_row_in in Hl. apply in_issuances_where in Hl.
    destruct Hl as [Hin [Hst [a [Ha Hasset]]]].
    inversion Ha; subst a. auto.
  - destruct Hlast as [Hfalse [Hlong _]]. split; [|exact Hlong].
    split.
    + intros Ht. congruence.
    + intros [r [Hin [Hst Hasset]]]. exfalso.
      apply last_row_none in Hl.
      assert (Hr : In r (issuances_where "valid" (Some asset) (db s))).
      { apply in_issuances_where. split; [exact Hin|]. split; [exact Hst|].
        exists asset. auto. }
      rewrite Hl in Hr. destruct Hr.
Qed.

(** The ledger locked by its second issuance holds three valid issuances
    of the numeric asset. *)
Lemma reissuance_iff_valid_issuance_witness :
  exists v s',
    validate (Fixture.env [] 320000) Fixture.alice None
      Fixture.numeric_asset (PInt 0) None None None None None false PNone
      PNone None None None 320000
      (Fixture.fresh Fixture.locked_then_touched) = Ok (v, s')
    /\ v_reissuance v = Some true.
Proof.
  destruct (reissuance_iff_valid_issuance (Fixture.env [] 320000)
              Fixture.alice None Fixture.numeric_asset 0 None None None
              None None false PNone PNone None None None 320000
              (Fixture.fresh Fixture.locked_then_touched) 0 fzero eq_refl
              eq_refl)
    as [v [s' [reissuance [Hrun [Hre [Hiff _]]]]]].
  - intros r Hr _. simpl in Hr.
    destruct Hr as [Hr|[Hr|[Hr|[]]]]; subst r;
      repeat split; discriminate.
  - left. reflexivity.
  - exists v, s'. split; [exact Hrun|]. rewrite Hre. f_equal.
    apply Hiff.
    exists (Fixture.issued 1 Fixture.numeric_asset Fixture.alice 500 false).
    simpl. auto.
Defined.

(** X2: a re-issuance on which [validate] reports no problem comes from
    the issuer of the last valid issuance and repeats its [divisible],
    [listed], [reassignable] and [callable] flags; it repeats [vendable]
    too when the last issuance had it false or [enable_vendable_fix] is
    enabled; and its quantity is 0 when the asset counts as locked. *)
Theorem clean_reissuance_keeps_flags (E : Env) (source : string)
  (destination : option string) (asset : string) (q : Z)
  (divisible listed reassignable vendable fungible : option bool)
  (callable_ : bool) (call_date call_price : pyval)
  (description : option string)
  (subasset_parent subasset_longname : option string) (block_index : Z)
  (s : Store) (cd : Z) (cp : float) (last_issuance : issuance_row)
  (Hdate : resolved_date call_date = PInt cd)
  (Hprice : resolved_price call_price = PFloat cp)
  (Hfilled : well_filled (db s))
  (Hname : subasset_longname = None \/ asset <> "")
  (Hlast : last_row (issuances_where "valid" (Some asset) (db s))
           = Some last_issuance) :
  exists v s',
    validate E source destination asset (PInt q) divisible listed
      reassignable vendable fungible callable_ call_date call_price
      description subasset_parent subasset_longname block_index s
    = Ok (v, s')
    /\ (v_problems v = [] ->
        i_issuer last_issuance = source
        /\ cell_bool (i_divisible last_issuance) = default divisible true
        /\ cell_bool (i_listed last_issuance) = default listed true
        /\ cell_bool (i_reassignable last_issuance)
           = default reassignable true
        /\ cell_bool (i_callable last_issuance) = callable_
        /\ (cell_is_false (i_vendable last_issuance) = true
            \/ enabled E "enable_vendable_fix" None = true ->
            cell_bool (i_vendable last_issuance) = default vendable true)
        /\ (issuance_locked E (issuances_where "valid" (Some asset) (db s))
              last_issuance = true -> q = 0)).
Proof.
  destruct (validate_typed_run E source destination asset q divisible listed
              reassignable vendable fungible callable_ call_date call_price
              description subasset_parent subasset_longname block_index cd
              cp s Hdate Hprice Hfilled Hname) as [v [s' [Hrun Hchecked]]].
  exists v, s'. split; [exact Hrun|]. intros Hclean.
  destruct (validate_checked_inv E _ _ _ _ _ _ _ _ _ _ _ _ _ _ _ _ _ _ _ _
              Hchecked)
    as (signs & reissuance & ps & parent & fresh & funds & overflow & s1
        & s2 & s3 & s4 & _ & Hl & _ & _ & _ & _ & _ & Hproblems & _).
  rewrite Hlast in Hl. destruct Hl as [_ [_ Hps]].
  rewrite Hclean in Hproblems. symmetry in Hproblems.
  do 4 (apply app_eq_nil in Hproblems; destruct Hproblems as [_ Hproblems]).
  apply app_eq_nil in Hproblems. destruct Hproblems as [Hnil _].
  subst ps.
  destruct (reissuance_clean E _ _ _ _ _ _ _ _ _ _ _ _ _ _ Hps)
    as (Hi & Hd & Hli & Hr & Hc & Hv & _ & Hlock).
  split; [exact Hi|]. split; [exact Hd|]. split; [exact Hli|].
  split; [exact Hr|]. split; [exact Hc|]. split; [|exact Hlock].
  intros Hfixed. unfold vendable_problems in Hv.
  destruct (Bool.eqb (cell_bool (i_vendable last_issuance))
              (default vendable true)) eqn:Heq.
  - apply Bool.eqb_prop. exact Heq.
  - exfalso. simpl in Hv.
    assert (Hcond : match i_vendable last_issuance with
                    | Some false => true
                    | _ => false
                    end || enabled E "enable_vendable_fix" None = true).
    { destruct Hfixed as [Hf|Hf].
      - unfold cell_is_false in Hf. rewrite Hf. reflexivity.
      - rewrite Hf. apply orb_true_r. }
    rewrite Hcond in Hv. discriminate.
Qed.

Lemma clean_reissuance_keeps_flags_witness :
  exists v s',
    validate (Fixture.env ["enable_vendable_fix"] 320000) Fixture.alice
      None Fixture.numeric_asset (PInt 0) (Some true) None None None None
      false PNone PNone None None None 320000
      (Fixture.fresh Fixture.nearly_full) = Ok (v, s')
    /\ v_problems v = [].
Proof.
  destruct (clean_reissuance_keeps_flags
              (Fixture.env ["enable_vendable_fix"] 320000) Fixture.alice
              None Fixture.numeric_asset 0 (Some true) None None None None
              false PNone PNone None None None 320000
              (Fixture.fresh Fixture.nearly_full) 0 fzero
              (Fixture.issued 1 Fixture.numeric_asset Fixture.alice
                 (MAX_INT - 10) false) eq_refl eq_refl)
    as [v [s' [Hrun _]]].
  - intros r Hr _. simpl in Hr. destruct Hr as [Hr|[]]. subst r.
    repeat split; discriminate.
  - left. reflexivity.
  - reflexivity.
  - exists v, s'. split; [exact Hrun|].
    vm_compute in Hrun. inversion Hrun. reflexivity.
Defined.

(** ** The overflow guards *)

Section Guards.
Context (E : Env).

(** One of the three problems of the last block is reported exactly when
    that block reports it. *)
Lemma overflow_problem_iff problems source destination asset q divisible
  listed reassignable vendable fungible callable_ cd cp description
  subasset_parent subasset_longname block_index s v s' p :
  In p overflow_alphabet ->
  ~ In p problems ->
  ~ In p (group_problems E (db s) source fungible subasset_longname) ->
  validate_checked E problems source destination asset q divisible listed
    reassignable vendable fungible callable_ cd cp description
    subasset_parent subasset_longname block_index s = Ok (v, s') ->
  exists overflow,
    overflow_problems E (issuances_where "valid" (Some asset) (db s))
      destination q (v_fee v) block_index = Ok overflow
    /\ v_fee v <= MAX_INT
    /\ (In p (v_problems v) <-> In p overflow).
Proof.
  intros Hp Hbefore Hgroup Hrun.
  destruct (validate_checked_inv E _ _ _ _ _ _ _ _ _ _ _ _ _ _ _ _ _ _ _ _
              Hrun)
    as (signs & reissuance & ps & parent & fresh & funds & overflow & s1
        & s2 & s3 & s4 & _ & _ & _ & _ & _ & Hfee & Hover & Hproblems & _).
  exists overflow. split; [exact Hover|].
  split; [exact (fee_block_bound E _ _ _ _ _ _ _ _ _ _ _ Hfee)|].
  split.
  - intros Hin.
    destruct (problem_origin E _ _ _ _ _ _ _ _ _ _ _ _ _ _ _ _ _ _ _ _ _
                Hrun Hin) as [H|[H|[H|[H|[H|H]]]]].
    + elim Hbefore. exact H.
    + exfalso. simpl in Hp. destruct Hp as [Hp|[Hp|[Hp|[]]]]; subst p;
        revert H; apply not_in_by_mem; reflexivity.
    + elim Hgroup. exact H.
    + exfalso. destruct H as (ps' & last_issuance & _ & Hps & H).
      apply (reissuance_in_alphabet E _ _ _ _ _ _ _ _ _ _ _ _ _ _ _ _ Hps)
        in H.
      simpl in Hp. destruct Hp as [Hp|[Hp|[Hp|[]]]]; subst p;
        revert H; apply not_in_by_mem; reflexivity.
    + exfalso. apply (late_in_alphabet E) in H.
      simpl in Hp. destruct Hp as [Hp|[Hp|[Hp|[]]]]; subst p;
        revert H; apply not_in_by_mem; reflexivity.
    + destruct H as (overflow' & Hover' & H).
      rewrite Hover in Hover'. inversion Hover'; subst overflow'. exact H.
  - intros Hin. rewrite Hproblems.
    do 9 (apply in_or_app; right). exact Hin.
Qed.

Lemma not_reserved (asset p : string) :
  p = "total quantity overflow" \/ p = "integer overflow" ->
  ~ In p (reserved_problem E asset).
Proof.
  intros Hp H. apply reserved_is_cannot_issue in H. destruct H as [rest H].
  rewrite H in Hp. simpl in Hp. destruct Hp as [Hp|Hp]; discriminate.
Qed.

End Guards.

(** X3: [validate] reports [integer overflow] exactly when
    [integer_overflow_fix] is enabled at the block and the quantity itself
    exceeds [MAX_INT]: the fee never exceeds 50 x UNIT, so the test on the
    fee never fires. (The [assetgroup] collaborator is supposed not to
    report a problem of that name.) *)
Theorem integer_overflow_iff (E : Env) (source : string)
  (destination : option string) (asset : string) (q : Z)
  (divisible listed reassignable vendable fungible : option bool)
  (callable_ : bool) (call_date call_price : pyval)
  (description : option string)
  (subasset_parent subasset_longname : option string) (block_index : Z)
  (s : Store) (cd : Z) (cp : float)
  (Hdate : resolved_date call_date = PInt cd)
  (Hprice : resolved_price call_price = PFloat cp)
  (Hfilled : well_filled (db s))
  (Hname : subasset_longname = None \/ asset <> "")
  (Hgroup : ~ In "integer overflow"
              (group_problems E (db s) source (default fungible true)
                 subasset_longname)) :
  exists v s',
    validate E source destination asset (PInt q) divisible listed
      reassignable vendable fungible callable_ call_date call_price
      description subasset_parent subasset_longname block_index s
    = Ok (v, s')
    /\ 0 <= v_fee v <= 100 * (UNIT / 2)
    /\ (In "integer overflow" (v_problems v)
        <-> enabled E "integer_overflow_fix" (Some block_index) = true
            /\ q > MAX_INT).
Proof.
  destruct (validate_typed_run E source destination asset q divisible listed
              reassignable vendable fungible callable_ call_date call_price
              description subasset_parent subasset_longname block_index cd
              cp s Hdate Hprice Hfilled Hname) as [v [s' [Hrun Hchecked]]].
  exists v, s'. split; [exact Hrun|].
  assert (Hio : In "integer overflow" overflow_alphabet)
    by (simpl; tauto).
  destruct (overflow_problem_iff E _ _ _ _ _ _ _ _ _ _ _ _ _ _ _ _ _ _ _ _
              "integer overflow" Hio
              (not_reserved E asset _ (or_intror eq_refl)) Hgroup
              Hchecked) as [overflow [Hover [Hbound Hiff]]].
  assert (Hfee : 0 <= v_fee v <= 100 * (UNIT / 2)).
  { destruct (validate_checked_inv E _ _ _ _ _ _ _ _ _ _ _ _ _ _ _ _ _ _ _
                _ Hchecked)
      as (signs & reissuance & ps & parent & fresh & funds & overflow' & s1
          & s2 & s3 & s4 & _ & _ & _ & _ & _ & Hf & _).
    destruct (fee_block_inv E _ _ _ _ _ _ _ _ _ _ _ Hf) as [Hv _].
    pose proof (fee_schedule_bound E asset (default fungible true)
                  subasset_longname block_index) as Hb.
    rewrite Hv.
    destruct (negb (q =? 0)
              || ((block_index >=? 315000) || TESTNET E || REGTEST E));
      [|vm_compute; split; discriminate].
    destruct (negb reissuance
              || ((block_index <? 310000) && negb (TESTNET E)
                  && negb (REGTEST E)));
      [exact Hb | vm_compute; split; discriminate]. }
  split; [exact Hfee|].
  rewrite Hiff. unfold overflow_problems in Hover.
  destruct (sum_quantities (issuances_where "valid" (Some asset) (db s)))
    as [total|]; [|discriminate].
  simpl rbind in Hover. injection Hover as Hover. subst overflow.
  replace (v_fee v >? MAX_INT) with false
    by (symmetry; rewrite Z.gtb_ltb; apply Z.ltb_ge; exact Hbound).
  simpl orb. rewrite !Z.gtb_ltb.
  split.
  - intros Hin.
    repeat (apply in_app_or in Hin; destruct Hin as [Hin|Hin]).
    + origin Hin; discriminate.
    + origin Hin; discriminate.
    + destruct (enabled E "integer_overflow_fix" (Some block_index));
        [|destruct Hin].
      destruct (MAX_INT <? q) eqn:Hq; [|destruct Hin].
      apply Z.ltb_lt in Hq. split; [reflexivity | lia].
  - intros [Hfix Hq]. do 2 (apply in_or_app; right).
    rewrite Hfix. replace (MAX_INT <? q) with true
      by (symmetry; apply Z.ltb_lt; lia).
    left. reflexivity.
Qed.

Lemma integer_overflow_iff_witness :
  exists v s',
    validate (Fixture.env ["integer_overflow_fix"] 320000) Fixture.alice
      None "ASSET" (PInt (MAX_INT + 1)) None None None None None false
      PNone PNone None None None 320000 (Fixture.fresh Fixture.funded)
    = Ok (v, s')
    /\ In "integer overflow" (v_problems v).
Proof.
  destruct (integer_overflow_iff (Fixture.env ["integer_overflow_fix"] 320000)
              Fixture.alice None "ASSET" (MAX_INT + 1) None None None None
              None false PNone PNone None None None 320000
              (Fixture.fresh Fixture.funded) 0 fzero eq_refl eq_refl)
    as [v [s' [Hrun [_ Hiff]]]].
  - intros r Hr. destruct Hr.
  - left. reflexivity.
  - simpl. tauto.
  - exists v, s'. split; [exact Hrun|]. apply Hiff.
    split; [reflexivity | vm_compute; reflexivity].
Defined.

(** X4: [validate] reports [total quantity overflow] exactly when the
    units of the asset in valid issuances plus the quantity of the
    candidate exceed [MAX_INT]. *)
Theorem total_overflow_iff (E : Env) (source : string)
  (destination : option string) (asset : string) (q : Z)
  (divisible listed reassignable vendable fungible : option bool)
  (callable_ : bool) (call_date call_price : pyval)
  (description : option string)
  (subasset_parent subasset_longname : option string) (block_index : Z)
  (s : Store) (cd : Z) (cp : float)
  (Hdate : resolved_date call_date = PInt cd)
  (Hprice : resolved_price call_price = PFloat cp)
  (Hfilled : well_filled (db s))
  (Hname : subasset_longname = None \/ asset <> "")
  (Hgroup : ~ In "total quantity overflow"
              (group_problems E (db s) source (default fungible true)
                 subasset_longname)) :
  exists v s' total,
    validate E source destination asset (PInt q) divisible listed
      reassignable vendable fungible callable_ call_date call_price
      description subasset_parent subasset_longname block_index s
    = Ok (v, s')
    /\ supply (db s) asset = Ok total
    /\ (In "total quantity overflow" (v_problems v)
        <-> total + q > MAX_INT).
Proof.
  destruct (validate_typed_run E source destination asset q divisible listed
              reassignable vendable fungible callable_ call_date call_price
              description subasset_parent subasset_longname block_index cd
              cp s Hdate Hprice Hfilled Hname) as [v [s' [Hrun Hchecked]]].
  assert (Htq : In "total quantity overflow" overflow_alphabet)
    by (simpl; tauto).
  destruct (overflow_problem_iff E _ _ _ _ _ _ _ _ _ _ _ _ _ _ _ _ _ _ _ _
              "total quantity overflow" Htq
              (not_reserved E asset _ (or_introl eq_refl)) Hgroup Hchecked) as [overflow [Hover [_ Hiff]]].
  unfold overflow_problems in Hover. unfold supply.
  destruct (sum_quantities (issuances_where "valid" (Some asset) (db s)))
    as [total|]; [|discriminate].
  exists v, s', total. split; [exact Hrun|]. split; [reflexivity|].
  simpl rbind in Hover. injection Hover as Hover. subst overflow.
  rewrite Hiff, Z.gtb_ltb. split.
  - intros Hin.
    repeat (apply in_app_or in Hin; destruct Hin as [Hin|Hin]).
    + destruct (MAX_INT <? total + q) eqn:Ht; [|destruct Hin].
      apply Z.ltb_lt in Ht. lia.
    + origin Hin; discriminate.
    + origin Hin; discriminate.
  - intros Ht. apply in_or_app. left.
    replace (MAX_INT <? total + q) with true
      by (symmetry; apply Z.ltb_lt; lia).
    left. reflexivity.
Qed.

Lemma total_overflow_iff_witness :
  exists v s',
    validate (Fixture.env [] 320000) Fixture.alice None
      Fixture.numeric_asset (PInt 11) None None None None None false PNone
      PNone None None None 320000 (Fixture.fresh Fixture.nearly_full)
    = Ok (v, s')
    /\ In "total quantity overflow" (v_problems v).
Proof.
  destruct (total_overflow_iff (Fixture.env [] 320000) Fixture.alice None
              Fixture.numeric_asset 11 None None None None None false PNone
              PNone None None None 320000
              (Fixture.fresh Fixture.nearly_full) 0 fzero eq_refl eq_refl)
    as [v [s' [total [Hrun [Htotal Hiff]]]]].
  - intros r Hr _. simpl in Hr. destruct Hr as [Hr|[]]. subst r.
    repeat split; discriminate.
  - left. reflexivity.
  - simpl. tauto.
  - exists v, s'. split; [exact Hrun|]. apply Hiff.
    vm_compute in Htotal. inversion Htotal; subst total.
    vm_compute. reflexivity.
Defined.

(** ** The fee and the funds *)

Section Funds.
Context (E : Env).

(** The fee is not zero only behind the two gates, and the funds are found
    short on the first balance row alone. *)
Lemma fee_block_funds source asset quantity fungible reissuance
  subasset_longname block_index s fee funds s' :
  fee_block E source asset quantity fungible reissuance subasset_longname
    block_index s = Ok ((fee, funds), s') ->
  (In "insufficient funds" funds
   <-> fee <> 0
       /\ match balances_where source (XCP E) (db s) with
          | [] => True
          | b :: _ => b_quantity b < fee
          end).
Proof.
  unfold fee_block, bind, ret, select_balances. intros Hs.
  destruct (negb (quantity =? 0)
            || ((block_index >=? 315000) || TESTNET E || REGTEST E)).
  - destruct (negb reissuance
              || ((block_index <? 310000) && negb (TESTNET E)
                  && negb (REGTEST E))).
    + injection Hs as Hfee Hfunds _. rewrite <- Hfunds, Hfee.
      destruct (fee =? 0) eqn:Hz.
      * apply Z.eqb_eq in Hz. simpl. split; [tauto|].
        intros [Hne _]. elim Hne. exact Hz.
      * apply Z.eqb_neq in Hz. simpl negb. simpl andb.
        destruct (balances_where source (XCP E) (db s)) as [|b rest].
        -- split; [auto|]. intros _. left. reflexivity.
        -- destruct (b_quantity b <? fee) eqn:Hb.
           ++ apply Z.ltb_lt in Hb. split; [auto|].
              intros _. left. reflexivity.
           ++ apply Z.ltb_ge in Hb. split; [intros []|].
              intros [_ Hlt]. lia.
    + injection Hs as Hfee Hfunds _. subst fee funds.
      split; [intros []|]. intros [Hne _]. elim Hne. reflexivity.
  - injection Hs as Hfee Hfunds _. subst fee funds.
    split; [intros []|]. intros [Hne _]. elim Hne. reflexivity.
Qed.

(** The tables are the same at every step of a run of the checked part. *)
Lemma validate_checked_funds problems source destination asset q divisible
  listed reassignable vendable fungible callable_ cd cp description
  subasset_parent subasset_longname block_index s v s' :
  ~ In "insufficient funds" problems ->
  ~ In "insufficient funds"
      (group_problems E (db s) source fungible subasset_longname) ->
  validate_checked E problems source destination asset q divisible listed
    reassignable vendable fungible callable_ cd cp description
    subasset_parent subasset_longname block_index s = Ok (v, s') ->
  (In "insufficient funds" (v_problems v)
   <-> v_fee v <> 0
       /\ match balances_where source (XCP E) (db s) with
          | [] => True
          | b :: _ => b_quantity b < v_fee v
          end).
Proof.
  intros Hbefore Hgroup Hrun.
  destruct (validate_checked_inv E _ _ _ _ _ _ _ _ _ _ _ _ _ _ _ _ _ _ _ _
              Hrun)
    as (signs & reissuance & ps & parent & fresh & funds & overflow & s1
        & s2 & s3 & s4 & Hsigns & Hlast & Hdb1 & Hparent & Hfresh & Hfee
        & Hover & Hproblems & _).
  assert (Hdb3 : db s3 = db s).
  { destruct (reads_parent_problems E _ _ _ _ _ _ _ Hparent) as [H2 _].
    destruct (reads_new_subasset_problems _ _ _ _ _ _ _ Hfresh) as [H3 _].
    congruence. }
  pose proof (fee_block_funds _ _ _ _ _ _ _ _ _ _ _ Hfee) as Hiff.
  rewrite Hdb3 in Hiff. rewrite <- Hiff. rewrite Hproblems.
  remember (late_problems E description listed reassignable block_index)
    as late eqn:Hlate.
  split.
  - intros Hin.
    repeat (apply in_app_or in Hin; destruct Hin as [Hin|Hin]).
    + elim Hbefore. exact Hin.
    + apply fungibility_in_alphabet in Hin. exfalso. revert Hin.
      apply not_in_by_mem. reflexivity.
    + apply (sign_in_alphabet _ _ _ _ _ Hsigns) in Hin. exfalso.
      revert Hin. apply not_in_by_mem. reflexivity.
    + apply callable_in_alphabet in Hin. exfalso. revert Hin.
      apply not_in_by_mem. reflexivity.
    + exfalso.
      destruct (last_row (issuances_where "valid" (Some asset) (db s)))
        as [last_issuance|].
      * destruct Hlast as [_ [_ Hps]].
        apply (reissuance_in_alphabet E _ _ _ _ _ _ _ _ _ _ _ _ _ _ _ _
                 Hps) in Hin.
        revert Hin. apply not_in_by_mem. reflexivity.
      * destruct Hlast as [_ [_ Hps]]. subst ps.
        apply first_issuance_in_alphabet in Hin.
        revert Hin. apply not_in_by_mem. reflexivity.
    + exfalso.
      destruct (parent_in_alphabet E _ _ _ _ _ _ _ _ Hparent Hin)
        as [Ha|Hg].
      * revert Ha. apply not_in_by_mem. reflexivity.
      * rewrite Hdb1 in Hg. elim Hgroup. exact Hg.
    + apply (new_subasset_in_alphabet _ _ _ _ _ _ _ _ Hfresh) in Hin.
      exfalso. revert Hin. apply not_in_by_mem. reflexivity.
    + exact Hin.
    + rewrite Hlate in Hin. apply late_in_alphabet in Hin. exfalso.
      revert Hin. apply not_in_by_mem. reflexivity.
    + apply (overflow_in_alphabet E _ _ _ _ _ _ _ Hover) in Hin. exfalso.
      revert Hin. apply not_in_by_mem. reflexivity.
  - intros Hin. do 7 (apply in_or_app; right). apply in_or_app. left.
    exact Hin.
Qed.

End Funds.

(** X5: [validate] reports [insufficient funds] exactly when the fee it
    returns is not zero and the first balance row of the source in the
    native asset is missing or below the fee; only that first row is
    looked at. *)
Theorem insufficient_funds_iff (E : Env) (source : string)
  (destination : option string) (asset : string) (q : Z)
  (divisible listed reassignable vendable fungible : option bool)
  (callable_ : bool) (call_date call_price : pyval)
  (description : option string)
  (subasset_parent subasset_longname : option string) (block_index : Z)
  (s : Store) (cd : Z) (cp : float)
  (Hdate : resolved_date call_date = PInt cd)
  (Hprice : resolved_price call_price = PFloat cp)
  (Hfilled : well_filled (db s))
  (Hname : subasset_longname = None \/ asset <> "")
  (Hgroup : ~ In "insufficient funds"
              (group_problems E (db s) source (default fungible true)
                 subasset_longname)) :
  exists v s',
    validate E source destination asset (PInt q) divisible listed
      reassignable vendable fungible callable_ call_date call_price
      description subasset_parent subasset_longname block_index s
    = Ok (v, s')
    /\ (In "insufficient funds" (v_problems v)
        <-> v_fee v <> 0
            /\ match balances_where source (XCP E) (db s) with
               | [] => True
               | b :: _ => b_quantity b < v_fee v
               end).
Proof.
  destruct (validate_typed_run E source destination asset q divisible listed
              reassignable vendable fungible callable_ call_date call_price
              description subasset_parent subasset_longname block_index cd
              cp s Hdate Hprice Hfilled Hname) as [v [s' [Hrun Hchecked]]].
  exists v, s'. split; [exact Hrun|].
  eapply validate_checked_funds; [| exact Hgroup | exact Hchecked].
  intros H. apply reserved_is_cannot_issue in H. destruct H as [rest H].
  discriminate.
Qed.

(** A first issuance from an address that holds nothing. *)
Lemma insufficient_funds_iff_witness :
  exists v s',
    validate (Fixture.env [] 320000) "bob" None "ASSET" (PInt 1) None None
      None None None false PNone PNone None None None 320000
      (Fixture.fresh Fixture.funded) = Ok (v, s')
    /\ In "insufficient funds" (v_problems v).
Proof.
  destruct (insufficient_funds_iff (Fixture.env [] 320000) "bob" None
              "ASSET" 1 None None None None None false PNone PNone None
              None None 320000 (Fixture.fresh Fixture.funded) 0 fzero
              eq_refl eq_refl)
    as [v [s' [Hrun Hiff]]].
  - intros r Hr. destruct Hr.
  - left. reflexivity.
  - simpl. tauto.
  - exists v, s'. split; [exact Hrun|]. apply Hiff.
    vm_compute in Hrun. inversion Hrun; subst.
    split; [discriminate | exact I].
Defined.

(** X6: on mainnet the fee [validate] returns is zero outside the fee
    gates: for a quantity of 0 before block 315000, and for every
    re-issuance from block 310000 on. *)
Theorem fee_zero_outside_gates (E : Env) (source : string)
  (destination : option string) (asset : string) (q : Z)
  (divisible listed reassignable vendable fungible : option bool)
  (callable_ : bool) (call_date call_price : pyval)
  (description : option string)
  (subasset_parent subasset_longname : option string) (block_index : Z)
  (s : Store) (cd : Z) (cp : float)
  (Htestnet : TESTNET E = false) (Hregtest : REGTEST E = false)
  (Hdate : resolved_date call_date = PInt cd)
  (Hprice : resolved_price call_price = PFloat cp)
  (Hfilled : well_filled (db s))
  (Hname : subasset_longname = None \/ asset <> "") :
  exists v s' reissuance,
    validate E source destination asset (PInt q) divisible listed
      reassignable vendable fungible callable_ call_date call_price
      description subasset_parent subasset_longname block_index s
    = Ok (v, s')
    /\ v_reissuance v = Some reissuance
    /\ ((q = 0 /\ block_index < 315000)
        \/ (reissuance = true /\ block_index >= 310000) ->
        v_fee v = 0).
Proof.
  destruct (validate_typed_run E source destination asset q divisible listed
              reassignable vendable fungible callable_ call_date call_price
              description subasset_parent subasset_longname block_index cd
              cp s Hdate Hprice Hfilled Hname) as [v [s' [Hrun Hchecked]]].
  destruct (validate_checked_inv E _ _ _ _ _ _ _ _ _ _ _ _ _ _ _ _ _ _ _ _
              Hchecked)
    as (signs & reissuance & ps & parent & fresh & funds & overflow & s1
        & s2 & s3 & s4 & _ & _ & _ & _ & _ & Hfee & _ & _ & Hre & _).
  exists v, s', reissuance. split; [exact Hrun|]. split; [exact Hre|].
  destruct (fee_block_inv E _ _ _ _ _ _ _ _ _ _ _ Hfee) as [Hv _].
  rewrite Hv, Htestnet, Hregtest. intros [[Hq Hb]|[Hr Hb]].
  - subst q. simpl negb.
    replace (block_index >=? 315000) with false
      by (symmetry; rewrite Z.geb_leb; apply Z.leb_gt; lia).
    reflexivity.
  - subst reissuance.
    replace (block_index <? 310000) with false
      by (symmetry; apply Z.ltb_ge; lia).
    simpl.
    destruct (negb (q =? 0) || ((block_index >=? 315000) || false || false));
      reflexivity.
Qed.

Lemma fee_zero_outside_gates_witness :
  exists v s',
    validate (Fixture.env ["numeric_asset_names"] 320000) Fixture.alice None
      Fixture.numeric_asset (PInt 0) None None None None None false PNone
      PNone None None None 320000 (Fixture.fresh Fixture.nearly_full)
    = Ok (v, s')
    /\ v_fee v = 0.
Proof.
  destruct (fee_zero_outside_gates (Fixture.env ["numeric_asset_names"] 320000)
              Fixture.alice None Fixture.numeric_asset 0 None None None
              None None false PNone PNone None None None 320000
              (Fixture.fresh Fixture.nearly_full) 0 fzero eq_refl eq_refl
              eq_refl eq_refl)
    as [v [s' [reissuance [Hrun [Hre Hfee]]]]].
  - intros r Hr _. simpl in Hr. destruct Hr as [Hr|[]]. subst r.
    repeat split; discriminate.
  - left. reflexivity.
  - exists v, s'. split; [exact Hrun|]. apply Hfee. right.
    split; [|lia].
    assert (Hcomputed : v_reissuance v = Some true).
    { vm_compute in Hrun. inversion Hrun. reflexivity. }
    congruence.
Defined.

(** ** The call fields *)

(** X7: for an asset that is not callable, from block 312500 on (and at
    every height on testnet and regtest) [validate] hands back a call date
    of 0 and a call price of 0.0 whatever the candidate says; for a
    callable asset it hands back the call price unchanged and the call date
    capped at [MAX_INT]. *)
Theorem call_fields_resolved (E : Env) (source : string)
  (destination : option string) (asset : string) (q : Z)
  (divisible listed reassignable vendable fungible : option bool)
  (callable_ : bool) (call_date call_price : pyval)
  (description : option string)
  (subasset_parent subasset_longname : option string) (block_index : Z)
  (s : Store) (cd : Z) (cp : float)
  (Hdate : resolved_date call_date = PInt cd)
  (Hprice : resolved_price call_price = PFloat cp)
  (Hfilled : well_filled (db s))
  (Hname : subasset_longname = None \/ asset <> "") :
  exists v s',
    validate E source destination asset (PInt q) divisible listed
      reassignable vendable fungible callable_ call_date call_price
      description subasset_parent subasset_longname block_index s
    = Ok (v, s')
    /\ (callable_ = false ->
        ((block_index >=? 312500) || TESTNET E || REGTEST E) = true ->
        v_call_date v = PInt 0 /\ v_call_price v = PFloat fzero)
    /\ (callable_ = true ->
        v_call_date v = PInt (Z.min cd MAX_INT)
        /\ v_call_price v = PFloat cp).
Proof.
  destruct (validate_typed_run E source destination asset q divisible listed
              reassignable vendable fungible callable_ call_date call_price
              description subasset_parent subasset_longname block_index cd
              cp s Hdate Hprice Hfilled Hname) as [v [s' [Hrun Hchecked]]].
  exists v, s'. split; [exact Hrun|].
  destruct (validate_checked_inv E _ _ _ _ _ _ _ _ _ _ _ _ _ _ _ _ _ _ _ _
              Hchecked)
    as (signs & reissuance & ps & parent & fresh & funds & overflow & s1
        & s2 & s3 & s4 & _ & _ & _ & _ & _ & _ & _ & _ & _ & Hmin & Hcp
        & _).
  unfold callable_block in Hmin, Hcp.
  split.
  - intros Hc Hlate. rewrite Hc, Hlate in Hmin, Hcp. simpl in Hmin, Hcp.
    injection Hmin as Hmin. auto.
  - intros Hc. rewrite Hc in Hmin, Hcp. simpl in Hmin, Hcp.
    split; [|exact Hcp].
    unfold py_min_int in Hmin. simpl in Hmin. injection Hmin as Hmin.
    rewrite <- Hmin. unfold num_ltb, num_compare.
    destruct (Z.compare_spec MAX_INT cd) as [He|Hl|Hg].
    + rewrite Z.min_l by lia. reflexivity.
    + rewrite Z.min_r by lia. reflexivity.
    + rewrite Z.min_l by lia. reflexivity.
Qed.

Lemma call_fields_resolved_witness :
  exists v s',
    validate (Fixture.env [] 320000) Fixture.alice None "ASSET" (PInt 1)
      None None None None None false (PInt 1700000000)
      (PFloat (S754_finite false 6755399441055744 (-51))) None None None
      320000 (Fixture.fresh Fixture.funded) = Ok (v, s')
    /\ v_call_date v = PInt 0 /\ v_call_price v = PFloat fzero.
Proof.
  destruct (call_fields_resolved (Fixture.env [] 320000) Fixture.alice None
              "ASSET" 1 None None None None None false (PInt 1700000000)
              (PFloat (S754_finite false 6755399441055744 (-51))) None None
              None 320000 (Fixture.fresh Fixture.funded) 1700000000
              (S754_finite false 6755399441055744 (-51)) eq_refl eq_refl)
    as [v [s' [Hrun [Hoff _]]]].
  - intros r Hr. destruct Hr.
  - left. reflexivity.
  - exists v, s'. split; [exact Hrun|]. apply Hoff; reflexivity.
Defined.

(** ** The row a run of [parse] writes *)

Section Rows.
Context (E : Env).

(** The bindings of the issuance row, column by column. *)
Lemma parse_row tx message message_type_id s row s' :
  parse E tx message message_type_id s = Ok (row, s') ->
  exists u l fee reissuance longname s1 lock description s2,
    unpack E (tx_block_index tx) message message_type_id = Ok u
    /\ run_validate E tx
         (check_subasset E (after_unpack E (tx_block_index tx) u)) s
       = Ok ((l, fee, reissuance, longname), s1)
    /\ register_and_lock tx l reissuance
         (when_db (l_status l =? "valid")%string
            (fun d => util_debit E d (tx_source tx) (XCP E) fee
                        "issuance fee" (tx_hash tx)) s1)
       = Ok ((lock, description), s2)
    /\ row = mk_issuance (tx_index tx) (tx_hash tx) 0 (tx_block_index tx)
               (l_asset l)
               (if nonempty (tx_destination tx) then Some 0
                else l_quantity l)
               (l_divisible l) (tx_source tx)
               (if nonempty (tx_destination tx)
                then default (tx_destination tx) "" else tx_source tx)
               (nonempty (tx_destination tx)) (l_callable l)
               (l_call_date l) (l_call_price l) description fee lock
               (l_status l)
               (if (l_status l =? "valid")%string && cell_bool reissuance
                then longname else l_subasset_longname l)
               (l_listed l) (l_reassignable l) (l_vendable l)
               (l_fungible l)
    /\ s' = when_db ((i_status row =? "valid")%string
                     && negb (default (i_quantity row) 0 =? 0))
              (fun d => util_credit E d (tx_source tx)
                          (default (l_asset l) "")
                          (default (i_quantity row) 0) "issuance"
                          (tx_hash tx))
              (when_db (negb (cell_bool (l_fungible l)))
                 (fun d => assetgroup_create E d (tx_index tx) (tx_hash tx)
                             (tx_block_index tx) (i_asset_longname row)
                             (i_issuer row) (i_status row))
                 (if negb (contains "integer overflow" (i_status row))
                  then with_issuance row s2 else s2)).
Proof.
  unfold parse. intros Hrun.
  unfold bind at 1 in Hrun. unfold lift at 1 in Hrun.
  destruct (unpack E (tx_block_index tx) message message_type_id)
    as [u|] eqn:Hu; [|discriminate].
  unfold bind at 1 in Hrun.
  destruct (run_validate E tx
              (check_subasset E (after_unpack E (tx_block_index tx) u)) s)
    as [[[[[l fee] reissuance] longname] s1]|] eqn:Hv; [|discriminate].
  destruct (nonempty (tx_destination tx)) eqn:Hdest;
    rewrite bind_when in Hrun; unfold bind at 1 in Hrun;
    destruct (register_and_lock tx l reissuance _)
      as [[[lock description] s2]|] eqn:Hlock; try discriminate;
    exists u, l, fee, reissuance, longname, s1, lock, description, s2;
    (split; [reflexivity|]); (split; [exact Hv|]);
    (split; [exact Hlock|]);
    match type of Hrun with
    | context [contains "integer overflow" ?st] =>
        destruct (contains "integer overflow" st) eqn:Hover
    end;
    simpl negb in Hrun; cbv iota in Hrun;
    unfold bind at 1 in Hrun;
    try unfold insert_issuance at 1 in Hrun;
    try unfold ret at 1 in Hrun;
    rewrite bind_when in Hrun; rewrite bind_when in Hrun;
    unfold ret in Hrun; inversion Hrun; subst row s'; clear Hrun;
    simpl; rewrite ?Hover; simpl; split; reflexivity.
Qed.

(** What the lock block did to the tables, and what it returned. *)
Lemma register_and_lock_inv tx l reissuance s0 lock description s2 :
  register_and_lock tx l reissuance s0 = Ok ((lock, description), s2) ->
  issuances (db s2) = issuances (db s0)
  /\ balances (db s2) = balances (db s0)
  /\ assets (db s2)
     = assets (db s0)
       ++ (if (l_status l =? "valid")%string && negb (cell_bool reissuance)
           then [registration tx (l_asset_id l) (default (l_asset l) "")
                   (cell_bool (l_fungible l)) (l_subasset_longname l)]
           else [])
  /\ (l_status l = "valid" -> cell_bool reissuance = false ->
      says_lock (l_description l) = false
      /\ lock = negb (cell_bool (l_fungible l))
      /\ description = l_description l)
  /\ (l_status l = "valid" -> cell_bool reissuance = true ->
      lock = says_lock (l_description l)
      /\ (says_lock (l_description l) = false ->
          description = l_description l)
      /\ (says_lock (l_description l) = true ->
          exists last_issuance,
            last_row (issuances_where "valid" (l_asset l) (db s0))
            = Some last_issuance
            /\ description = i_description last_issuance))
  /\ (l_status l <> "valid" ->
      lock = false /\ description = l_description l).
Proof.
  unfold register_and_lock. intros H.
  destruct (l_status l =? "valid")%string eqn:Hst.
  - apply String.eqb_eq in Hst.
    destruct (cell_bool reissuance) eqn:Hre; cbn [negb] in H.
    + destruct (says_lock (l_description l)) eqn:Hsays.
      * unfold bind, select_issuances in H.
        destruct (last_row (issuances_where "valid" (l_asset l) (db s0)))
          as [last_issuance|] eqn:Hlast;
          [|unfold lift in H; discriminate].
        unfold ret in H. inversion H; subst lock description s2.
        simpl. rewrite app_nil_r.
        split; [reflexivity|]. split; [reflexivity|].
        split; [reflexivity|]. split; [intros _ Hf; discriminate|].
        split; [|intros Hn; congruence].
        intros _ _. split; [reflexivity|]. split; [discriminate|].
        intros _. exists last_issuance. auto.
      * unfold ret in H. inversion H; subst lock description s2.
        simpl. rewrite app_nil_r.
        split; [reflexivity|]. split; [reflexivity|].
        split; [reflexivity|]. split; [intros _ Hf; discriminate|].
        split; [|intros Hn; congruence].
        intros _ _. split; [reflexivity|]. split; [reflexivity|].
        discriminate.
    + unfold bind, insert_asset in H.
      destruct (says_lock (l_description l)) eqn:Hsays.
      * unfold lift in H. discriminate.
      * unfold ret in H. inversion H; subst lock description s2.
        simpl. unfold registration.
        split; [reflexivity|]. split; [reflexivity|].
        split; [reflexivity|]. split; [intros _ _; auto|].
        split; [intros _ Hf; discriminate|].
        intros Hn; congruence.
  - apply String.eqb_neq in Hst.
    unfold ret in H. inversion H; subst lock description s2.
    simpl. rewrite app_nil_r.
    split; [reflexivity|]. split; [reflexivity|].
    split; [reflexivity|]. split; [intros Hv; congruence|].
    split; [intros Hv; congruence|].
    intros _. auto.
Qed.

(** The candidate of a message that was unpacked, as [validate] gets it. *)
Lemma checked_locals block_index u0 l :
  l = check_subasset E (after_unpack E block_index (Some u0)) ->
  l_status l = "valid" ->
  l_asset l = generate_asset_name E (u_asset_id u0) block_index
  /\ l_asset l <> None
  /\ l_asset_id l = u_asset_id u0
  /\ l_quantity l = Some (u_quantity u0)
  /\ l_divisible l = Some (u_divisible u0)
  /\ l_listed l = Some (u_listed u0)
  /\ l_reassignable l = Some (u_reassignable u0)
  /\ l_vendable l = Some (u_vendable u0)
  /\ l_fungible l = Some (u_fungible u0)
  /\ l_callable l = Some (u_callable u0)
  /\ l_call_date l = PInt (u_call_date u0)
  /\ l_call_price l = PFloat (u_call_price u0)
  /\ l_description l = Some (u_description u0).
Proof.
  intros Hl Hst. subst l. revert Hst.
  unfold check_subasset, after_unpack.
  destruct (generate_asset_name E (u_asset_id u0) block_index)
    as [name|] eqn:Hname; simpl.
  - destruct (u_subasset_longname u0) as [longname|]; simpl.
    + destruct (u_fungible u0); simpl.
      * destruct (validate_subasset_longname E longname None);
          [|simpl; discriminate].
        destruct (parse_subasset_from_asset_name E longname)
          as [[parent child]|]; simpl; [|discriminate].
        intros _. repeat split; try reflexivity; discriminate.
      * destruct (validate_subasset_longname E longname (Some longname));
          simpl; [|discriminate].
        intros _. repeat split; try reflexivity; discriminate.
    + intros _. repeat split; try reflexivity; discriminate.
  - destruct (u_subasset_longname u0); simpl; discriminate.
Qed.

(** The status of a message before [validate] is run. *)
Lemma early_status block_index u :
  let l := check_subasset E (after_unpack E block_index u) in
  (l_status l = "valid" /\ exists u0, u = Some u0)
  \/ In (l_status l) early_statuses.
Proof.
  unfold check_subasset, after_unpack, early_statuses.
  destruct u as [u0|]; [|right; simpl; tauto].
  destruct (generate_asset_name E (u_asset_id u0) block_index)
    as [name|]; simpl.
  - destruct (u_subasset_longname u0) as [longname|]; simpl.
    + destruct (u_fungible u0); simpl.
      * destruct (validate_subasset_longname E longname None);
          [|right; simpl; tauto].
        destruct (parse_subasset_from_asset_name E longname)
          as [[parent child]|]; simpl; [left; eauto | right; tauto].
      * destruct (validate_subasset_longname E longname (Some longname));
          simpl; [left; eauto | right; tauto].
    + left; eauto.
  - destruct (u_subasset_longname u0); simpl; right; tauto.
Qed.

End Rows.

Section ValidRows.
Context (E : Env).

Lemma db_when_db (c : bool) (f : DB -> DB) (s : Store) :
  db (when_db c f s) = if c then f (db s) else db s.
Proof. unfold when_db. destruct c; reflexivity. Qed.

Lemma issuances_when_db (c : bool) (f : DB -> DB) (s : Store) :
  (forall d, issuances (f d) = issuances d) ->
  issuances (db (when_db c f s)) = issuances (db s).
Proof. intros Hf. rewrite db_when_db. destruct c; auto. Qed.

Lemma assets_when_db (c : bool) (f : DB -> DB) (s : Store) :
  (forall d, assets (f d) = assets d) ->
  assets (db (when_db c f s)) = assets (db s).
Proof. intros Hf. rewrite db_when_db. destruct c; auto. Qed.

(** The locals after a run of [validate]. *)
Lemma run_validate_valid tx l0 s l fee reissuance longname s1 :
  run_validate E tx l0 s = Ok ((l, fee, reissuance, longname), s1) ->
  l_status l0 = "valid" ->
  exists v,
    validate E (tx_source tx) (tx_destination tx) (default (l_asset l0) "")
      (match l_quantity l0 with Some q => PInt q | None => PNone end)
      (l_divisible l0) (l_listed l0) (l_reassignable l0) (l_vendable l0)
      (l_fungible l0) (cell_bool (l_callable l0)) (l_call_date l0)
      (l_call_price l0) (l_description l0) (l_subasset_parent l0)
      (l_subasset_longname l0) (tx_block_index tx) s = Ok (v, s1)
    /\ l = mk_locals
             (match v_problems v with
              | [] => "valid"
              | _ => ("invalid: " ++ join "; " (v_problems v))%string
              end)
             (l_asset_id l0) (l_asset l0)
             (if negb (enabled E "integer_overflow_fix"
                         (Some (tx_block_index tx)))
                 && mem "total quantity overflow" (v_problems v)
              then Some 0 else l_quantity l0)
             (Some (v_divisible v)) (Some (v_listed v))
             (Some (v_reassignable v)) (Some (v_vendable v))
             (Some (v_fungible v)) (l_callable l0) (v_call_date v)
             (v_call_price v) (Some (v_description v))
             (l_subasset_parent l0) (l_subasset_longname l0)
    /\ fee = v_fee v
    /\ reissuance = v_reissuance v
    /\ longname = v_reissued_asset_longname v.
Proof.
  unfold run_validate. intros Hrun Hstatus.
  rewrite Hstatus in Hrun. rewrite String.eqb_refl in Hrun.
  unfold bind in Hrun.
  destruct (validate E _ _ _ _ _ _ _ _ _ _ _ _ _ _ _ _ s)
    as [[v s1']|] eqn:Hv; [|discriminate].
  unfold ret in Hrun. inversion Hrun; subst; clear Hrun.
  exists v. auto.
Qed.

(** The pieces of a run of [parse] that ended with status [valid]: the
    message was unpacked, its asset has a name, and [validate] found
    nothing wrong with the candidate it carries. *)
Lemma parse_valid tx message message_type_id s row s' :
  parse E tx message message_type_id s = Ok (row, s') ->
  i_status row = "valid" ->
  exists u0 asset l0 v reissuance s1 lock description s2,
    unpack E (tx_block_index tx) message message_type_id = Ok (Some u0)
    /\ generate_asset_name E (u_asset_id u0) (tx_block_index tx)
       = Some asset
    /\ l0 = check_subasset E
              (after_unpack E (tx_block_index tx) (Some u0))
    /\ validate_checked E (reserved_problem E asset) (tx_source tx)
         (tx_destination tx) asset (u_quantity u0) (u_divisible u0)
         (u_listed u0) (u_reassignable u0) (u_vendable u0) (u_fungible u0)
         (u_callable u0) (PInt (u_call_date u0)) (PFloat (u_call_price u0))
         (u_description u0) (l_subasset_parent l0) (l_subasset_longname l0)
         (tx_block_index tx) s = Ok (v, s1)
    /\ v_problems v = []
    /\ v_reissuance v = Some reissuance
    /\ db s1 = db s
    /\ register_and_lock tx
         (mk_locals "valid" (u_asset_id u0) (Some asset)
            (Some (u_quantity u0)) (Some (u_divisible u0))
            (Some (u_listed u0)) (Some (u_reassignable u0))
            (Some (u_vendable u0)) (Some (u_fungible u0))
            (Some (u_callable u0)) (v_call_date v) (v_call_price v)
            (Some (u_description u0)) (l_subasset_parent l0)
            (l_subasset_longname l0))
         (Some reissuance)
         (mk_store (util_debit E (db s1) (tx_source tx) (XCP E) (v_fee v)
                      "issuance fee" (tx_hash tx)) (journal s1))
       = Ok ((lock, description), s2)
    /\ row = mk_issuance (tx_index tx) (tx_hash tx) 0 (tx_block_index tx)
               (Some asset)
               (if nonempty (tx_destination tx) then Some 0
                else Some (u_quantity u0))
               (Some (u_divisible u0)) (tx_source tx)
               (if nonempty (tx_destination tx)
                then default (tx_destination tx) "" else tx_source tx)
               (nonempty (tx_destination tx)) (Some (u_callable u0))
               (v_call_date v) (v_call_price v) description (v_fee v) lock
               "valid"
               (if reissuance then v_reissued_asset_longname v
                else l_subasset_longname l0)
               (Some (u_listed u0)) (Some (u_reassignable u0))
               (Some (u_vendable u0)) (Some (u_fungible u0))
    /\ s' = when_db (negb (default (i_quantity row) 0 =? 0))
              (fun d => util_credit E d (tx_source tx) asset
                          (default (i_quantity row) 0) "issuance"
                          (tx_hash tx))
              (when_db (negb (u_fungible u0))
                 (fun d => assetgroup_create E d (tx_index tx) (tx_hash tx)
                             (tx_block_index tx) (i_asset_longname row)
                             (i_issuer row) "valid")
                 (with_issuance row s2)).
Proof.
  intros Hrun Hstatus.
  destruct (parse_row E _ _ _ _ _ _ Hrun)
    as (u & l & fee & re & longname & s1 & lock & description & s2
        & Hu & Hv & Hlock & Hrow & Hs').
  assert (Hst : l_status l = "valid").
  { rewrite Hrow in Hstatus. exact Hstatus. }
  destruct (early_status E (tx_block_index tx) u) as [[Hl0 [u0 Hu0]]|Hearly].
  - subst u.
    destruct (run_validate_valid _ _ _ _ _ _ _ _ Hv Hl0)
      as (v & Hval & Hl & Hfee & Hre & Hlong).
    remember (check_subasset E
                (after_unpack E (tx_block_index tx) (Some u0))) as l0
      eqn:Heql0.
    destruct (checked_locals E _ _ _ Heql0 Hl0)
      as (Hasset & Hsome & Hid & Hq & Hdiv & Hlis & Hrea & Hven & Hfun
          & Hcal & Hcd & Hcp & Hdesc).
    destruct (l_asset l0) as [asset|] eqn:Hname; [|elim Hsome; reflexivity].
    rewrite Hq, Hdiv, Hlis, Hrea, Hven, Hfun, Hcal, Hcd, Hcp, Hdesc in Hval.
    simpl default in Hval. simpl cell_bool in Hval.
    rewrite (validate_typed E _ _ _ _ _ _ _ _ _ _ (PInt (u_call_date u0))
               (PFloat (u_call_price u0)) _ _ _ _
               (u_call_date u0) (u_call_price u0) s eq_refl eq_refl)
      in Hval.
    simpl default in Hval.
    assert (Hclean : v_problems v = []).
    { rewrite Hl in Hst. simpl in Hst.
      destruct (v_problems v); [reflexivity | discriminate]. }
    destruct (validate_checked_inv E _ _ _ _ _ _ _ _ _ _ _ _ _ _ _ _ _ _ _
                _ Hval)
      as (signs & reissuance & ps & parent & fresh & funds & overflow & s1'
          & s2' & s3' & s4' & _ & _ & _ & _ & _ & _ & _ & _ & Hre' & _ & _
          & Hdescr & Hd & Hli & Hr & Hve & Hfu).
    pose proof (proj1 (run_validate_reads E tx _ _ _ _ Hv)) as Hdb.
    exists u0, asset, l0, v, reissuance, s1, lock, description, s2.
    split; [exact Hu|]. split; [symmetry; exact Hasset|].
    split; [exact Heql0|]. split; [exact Hval|]. split; [exact Hclean|].
    split; [exact Hre'|]. split; [exact Hdb|].
    rewrite Hl in Hlock, Hrow, Hs'. rewrite Hclean in Hlock, Hrow, Hs'.
    simpl in Hlock, Hrow, Hs'.
    rewrite andb_false_r in Hlock, Hrow.
    rewrite Hq, Hid, Hcal, Hdescr, Hd, Hli, Hr, Hve, Hfu, Hfee, Hre, Hre',
      Hlong in *.
    simpl cell_bool in Hrow.
    split; [exact Hlock|]. split; [exact Hrow|].
    rewrite Hs'. rewrite Hrow. reflexivity.
  - exfalso.
    destruct (run_validate_inv E _ _ _ _ _ _ _ _ Hv)
      as [[Hne [Heq _]]|[Hvalid _]].
    + subst l. rewrite Hst in Hearly. simpl in Hearly.
      repeat (destruct Hearly as [Hearly|Hearly]; [discriminate|]).
      destruct Hearly.
    + rewrite Hvalid in Hearly. simpl in Hearly.
      repeat (destruct Hearly as [Hearly|Hearly]; [discriminate|]).
      destruct Hearly.
Qed.

End ValidRows.

Section Clean.
Context (E : Env).

(** A candidate on which [validate] reports no problem. *)
Lemma validate_clean problems source destination asset q divisible listed
  reassignable vendable fungible callable_ cd cp description
  subasset_parent subasset_longname block_index s v s' :
  validate_checked E problems source destination asset q divisible listed
    reassignable vendable fungible callable_ cd cp description
    subasset_parent subasset_longname block_index s = Ok (v, s') ->
  v_problems v = [] ->
  let issuances := issuances_where "valid" (Some asset) (db s) in
  let cb := callable_block E callable_ block_index cd cp in
  exists reissuance total,
    v_reissuance v = Some reissuance
    /\ sum_quantities issuances = Ok total
    /\ total + q <= MAX_INT
    /\ (nonempty destination = true -> q = 0)
    /\ fungibility_problems E fungible divisible q = []
    /\ match last_row issuances with
       | Some last_issuance =>
           reissuance = true
           /\ reissuance_problems E (db s) issuances last_issuance source
                asset q divisible listed reassignable vendable callable_
                (fst (fst cb)) (snd (fst cb)) block_index = Ok []
       | None =>
           reissuance = false
           /\ lower_is_lock description && fungible = false
           /\ nonempty destination = false
       end.
Proof.
  intros Hrun Hclean issuances cb.
  destruct (validate_checked_inv E _ _ _ _ _ _ _ _ _ _ _ _ _ _ _ _ _ _ _ _
              Hrun)
    as (signs & reissuance & ps & parent & fresh & funds & overflow & s1
        & s2 & s3 & s4 & _ & Hlast & _ & _ & _ & _ & Hover & Hproblems
        & Hre & _).
  fold issuances in Hlast, Hover. fold cb in Hlast, Hproblems.
  rewrite Hclean in Hproblems. symmetry in Hproblems.
  remember (late_problems E description listed reassignable block_index)
    as late eqn:Hlate.
  apply app_eq_nil in Hproblems. destruct Hproblems as [_ Hproblems].
  apply app_eq_nil in Hproblems. destruct Hproblems as [Hfung Hproblems].
  apply app_eq_nil in Hproblems. destruct Hproblems as [_ Hproblems].
  apply app_eq_nil in Hproblems. destruct Hproblems as [_ Hproblems].
  apply app_eq_nil in Hproblems. destruct Hproblems as [Hps Hproblems].
  apply app_eq_nil in Hproblems. destruct Hproblems as [_ Hproblems].
  apply app_eq_nil in Hproblems. destruct Hproblems as [_ Hproblems].
  apply app_eq_nil in Hproblems. destruct Hproblems as [_ Hproblems].
  apply app_eq_nil in Hproblems. destruct Hproblems as [_ Hnone].
  subst ps overflow.
  unfold overflow_problems, rbind in Hover.
  destruct (sum_quantities issuances) as [total|] eqn:Htotal;
    [|discriminate].
  injection Hover as Hover.
  apply app_eq_nil in Hover. destruct Hover as [Htot Hover].
  apply app_eq_nil in Hover. destruct Hover as [Hboth _].
  apply single_or_none in Htot, Hboth.
  exists reissuance, total.
  split; [exact Hre|]. split; [reflexivity|].
  split; [rewrite Z.gtb_ltb in Htot; apply Z.ltb_ge in Htot; exact Htot|].
  split.
  { intros Hdest. rewrite Hdest in Hboth. simpl in Hboth.
    apply negb_false_iff in Hboth. apply Z.eqb_eq. exact Hboth. }
  split; [exact Hfung|].
  destruct (last_row issuances) as [last_issuance|].
  - destruct Hlast as [Ht [_ Hps']]. auto.
  - destruct Hlast as [Hf [_ Hps']]. split; [exact Hf|].
    unfold first_issuance_problems in Hps'. symmetry in Hps'.
    apply app_eq_nil in Hps'. destruct Hps' as [Hlock Hdest].
    apply single_or_none in Hlock, Hdest. auto.
Qed.

End Clean.

(** ** Statuses *)

Lemma prefix_append (p s : string) : String.prefix p (p ++ s) = true.
Proof.
  induction p as [|a p IH]; simpl.
  - destruct s; reflexivity.
  - destruct (ascii_dec a a) as [_|Hne]; [exact IH | elim Hne; reflexivity].
Qed.

(** X8: the status [parse] gives a message is [valid] or begins with
    [invalid: ]. It is [valid] only for a message that was unpacked and
    whose asset identifier has a name, which is then the asset of the row;
    and a row of any other status is never locked and keeps the long name
    of the message. *)
Theorem parse_status_shape (E : Env) (tx : transaction)
  (message : list byte) (message_type_id : Z) (s s' : Store)
  (row : issuance_row)
  (Hrun : parse E tx message message_type_id s = Ok (row, s')) :
  (i_status row = "valid"
   \/ String.prefix "invalid: " (i_status row) = true)
  /\ (i_status row = "valid" ->
      exists u0 asset,
        unpack E (tx_block_index tx) message message_type_id
        = Ok (Some u0)
        /\ generate_asset_name E (u_asset_id u0) (tx_block_index tx)
           = Some asset
        /\ i_asset row = Some asset)
  /\ (i_status row <> "valid" -> i_locked row = false).
Proof.
  split; [|split].
  - destruct (parse_row E _ _ _ _ _ _ Hrun)
      as (u & l & fee & re & longname & s1 & lock & description & s2
          & Hu & Hv & Hlock & Hrow & Hs').
    assert (Hst : i_status row = l_status l) by (rewrite Hrow; reflexivity).
    rewrite Hst.
    destruct (run_validate_inv E _ _ _ _ _ _ _ _ Hv)
      as [[Hne [Heq _]]|[Hvalid [v [_ [Hst' _]]]]].
    + subst l. right.
      destruct (early_status E (tx_block_index tx) u) as [[Hl0 _]|Hearly].
      * elim Hne. exact Hl0.
      * simpl in Hearly.
        destruct Hearly as [H|[H|[H|[H|[]]]]]; rewrite <- H; reflexivity.
    + rewrite Hst'.
      destruct (v_problems v); [left; reflexivity | right].
      apply prefix_append.
  - intros Hvalid.
    destruct (parse_valid E _ _ _ _ _ _ Hrun Hvalid)
      as (u0 & asset & l0 & v & reissuance & s1 & lock & description & s2
          & Hu & Hname & _ & _ & _ & _ & _ & _ & Hrow & _).
    exists u0, asset. split; [exact Hu|]. split; [exact Hname|].
    rewrite Hrow. reflexivity.
  - intros Hinvalid.
    destruct (parse_row E _ _ _ _ _ _ Hrun)
      as (u & l & fee & re & longname & s1 & lock & description & s2
          & Hu & Hv & Hlock & Hrow & Hs').
    assert (Hst : l_status l <> "valid").
    { intros H. apply Hinvalid. rewrite Hrow. exact H. }
    destruct (register_and_lock_inv _ _ _ _ _ _ _ Hlock)
      as (_ & _ & _ & _ & _ & Hno).
    rewrite Hrow. simpl. exact (proj1 (Hno Hst)).
Qed.

Lemma parse_status_shape_witness :
  exists row s',
    parse (Fixture.env [] 320000) (Fixture.tx_at 320000 None)
      (Fixture.message_for (Fixture.env [] 320000) 95428956661682177 100)
      20 (Fixture.fresh Fixture.funded) = Ok (row, s')
    /\ i_status row = "valid"
    /\ exists asset, i_asset row = Some asset.
Proof.
  destruct (parse (Fixture.env [] 320000) (Fixture.tx_at 320000 None)
              (Fixture.message_for (Fixture.env [] 320000)
                 95428956661682177 100)
              20 (Fixture.fresh Fixture.funded))
    as [[row s']|e] eqn:Hrun; [|vm_compute in Hrun; discriminate].
  assert (Hvalid : i_status row = "valid")
    by (vm_compute in Hrun; inversion Hrun; reflexivity).
  destruct (proj1 (proj2 (parse_status_shape _ _ _ _ _ _ _ Hrun)) Hvalid)
    as (u0 & asset & _ & _ & Hasset).
  exists row, s'. split; [reflexivity|]. split; [exact Hvalid|].
  exists asset. exact Hasset.
Defined.

(** ** Transfers *)

(** X9: a message that arrives with a destination and is found valid is a
    transfer of an asset that exists: the message carries quantity 0, the
    asset has a valid issuance, the last of which names the sender as
    issuer, and the row written names the destination as issuer, with
    [transfer] set and quantity 0. *)
Theorem valid_transfer (E : Env) (tx : transaction) (message : list byte)
  (message_type_id : Z) (s s' : Store) (row : issuance_row)
  (Hrun : parse E tx message message_type_id s = Ok (row, s'))
  (Hvalid : i_status row = "valid")
  (Hdest : nonempty (tx_destination tx) = true) :
  exists u0 asset last_issuance,
    unpack E (tx_block_index tx) message message_type_id = Ok (Some u0)
    /\ u_quantity u0 = 0
    /\ i_asset row = Some asset
    /\ last_row (issuances_where "valid" (Some asset) (db s))
       = Some last_issuance
    /\ i_issuer last_issuance = tx_source tx
    /\ tx_destination tx = Some (i_issuer row)
    /\ i_source row = tx_source tx
    /\ i_transfer row = true
    /\ i_quantity row = Some 0.
Proof.
  destruct (parse_valid E _ _ _ _ _ _ Hrun Hvalid)
    as (u0 & asset & l0 & v & reissuance & s1 & lock & description & s2
        & Hu & Hname & _ & Hval & Hclean & _ & _ & _ & Hrow & _).
  destruct (validate_clean E _ _ _ _ _ _ _ _ _ _ _ _ _ _ _ _ _ _ _ _ Hval
              Hclean)
    as (re & total & _ & _ & _ & Hzero & _ & Hlast).
  destruct (last_row (issuances_where "valid" (Some asset) (db s)))
    as [last_issuance|] eqn:Hl.
  - destruct Hlast as [_ Hps].
    destruct (reissuance_clean E _ _ _ _ _ _ _ _ _ _ _ _ _ _ Hps)
      as (Hissuer & _).
    exists u0, asset, last_issuance.
    split; [exact Hu|]. split; [exact (Hzero Hdest)|].
    rewrite Hrow. simpl. rewrite Hdest.
    split; [reflexivity|]. split; [exact Hl|]. split; [exact Hissuer|].
    split; [|auto].
    destruct (tx_destination tx) as [d|]; [reflexivity | discriminate].
  - destruct Hlast as [_ [_ Hnone]]. congruence.
Qed.

(** The owner of the numeric asset hands it to [bob]. *)
Lemma valid_transfer_witness :
  exists row s',
    parse (Fixture.env [] 320000) (Fixture.tx_at 320000 (Some "bob"))
      (Fixture.message_for (Fixture.env [] 320000) 95428956661682177 0)
      20 (Fixture.fresh Fixture.nearly_full) = Ok (row, s')
    /\ i_status row = "valid"
    /\ i_issuer row = "bob"
    /\ i_quantity row = Some 0.
Proof.
  destruct (parse (Fixture.env [] 320000)
              (Fixture.tx_at 320000 (Some "bob"))
              (Fixture.message_for (Fixture.env [] 320000)
                 95428956661682177 0)
              20 (Fixture.fresh Fixture.nearly_full))
    as [[row s']|e] eqn:Hrun; [|vm_compute in Hrun; discriminate].
  assert (Hvalid : i_status row = "valid")
    by (vm_compute in Hrun; inversion Hrun; reflexivity).
  destruct (valid_transfer _ _ _ _ _ _ _ Hrun Hvalid eq_refl)
    as (u0 & asset & last_issuance & _ & _ & _ & _ & _ & Hd & _ & _ & Hq).
  exists row, s'. split; [reflexivity|]. split; [exact Hvalid|].
  split; [|exact Hq].
  simpl in Hd. injection Hd as Hd. symmetry. exact Hd.
Defined.

(** ** The tables after a run of [parse] *)

Section Tables.
Context (E : Env).

(** The issuances before the row is written are those of the start. *)
Lemma issuances_before_row tx l fee reissuance longname l0 s s1 lock
  description s2 :
  keeps_issuances E ->
  run_validate E tx l0 s = Ok ((l, fee, reissuance, longname), s1) ->
  register_and_lock tx l reissuance
    (when_db (l_status l =? "valid")%string
       (fun d => util_debit E d (tx_source tx) (XCP E) fee "issuance fee"
                   (tx_hash tx)) s1)
  = Ok ((lock, description), s2) ->
  issuances (db s2) = issuances (db s).
Proof.
  intros [Hdebit _] Hv Hlock.
  destruct (register_and_lock_inv _ _ _ _ _ _ _ Hlock) as [Hi _].
  rewrite Hi. rewrite issuances_when_db by (intros d; apply Hdebit).
  f_equal. exact (proj1 (run_validate_reads E tx _ _ _ _ Hv)).
Qed.

(** The issuances at the end of a run. *)
Lemma parse_issuances tx message message_type_id s row s' :
  keeps_issuances E ->
  parse E tx message message_type_id s = Ok (row, s') ->
  issuances (db s')
  = issuances (db s)
    ++ (if contains "integer overflow" (i_status row) then [] else [row]).
Proof.
  intros Hkeeps Hrun.
  destruct (parse_row E _ _ _ _ _ _ Hrun)
    as (u & l & fee & re & longname & s1 & lock & description & s2
        & Hu & Hv & Hlock & Hrow & Hs').
  pose proof (issuances_before_row _ _ _ _ _ _ _ _ _ _ _ Hkeeps Hv Hlock)
    as Hbefore.
  destruct Hkeeps as (_ & Hcredit & Hgroup).
  rewrite Hs'.
  rewrite issuances_when_db by (intros d; apply Hcredit).
  rewrite issuances_when_db by (intros d; apply Hgroup).
  destruct (contains "integer overflow" (i_status row)); simpl.
  - rewrite app_nil_r. exact Hbefore.
  - rewrite Hbefore. reflexivity.
Qed.

End Tables.



(** X11: [parse] registers an asset exactly once, with its first valid
    issuance. A message whose status is not [valid] leaves [assets] as it
    was; so does a valid message for an asset that already has a valid
    issuance; a valid message for an asset without one adds one row, with
    the identifier and the name of the asset, the block of the
    transaction, and the long name of the message as [asset_longname] for
    a fungible asset and as [asset_group] otherwise. (The collaborators
    are supposed to leave [assets] alone.) *)
Theorem parse_registers_first_issuance (E : Env) (tx : transaction)
  (message : list byte) (message_type_id : Z) (s s' : Store)
  (row : issuance_row)
  (Hkeeps : keeps_assets E)
  (Hrun : parse E tx message message_type_id s = Ok (row, s')) :
  (i_status row <> "valid" -> assets (db s') = assets (db s))
  /\ (i_status row = "valid" ->
      exists u0 asset,
        unpack E (tx_block_index tx) message message_type_id
        = Ok (Some u0)
        /\ i_asset row = Some asset
        /\ assets (db s')
           = assets (db s)
             ++ match last_row (issuances_where "valid" (Some asset)
                                  (db s)) with
                | Some _ => []
                | None => [registration tx (u_asset_id u0) asset
                             (u_fungible u0) (i_asset_longname row)]
                end).
Proof.
  destruct Hkeeps as (Hdebit & Hcredit & Hgroup).
  split.
  - intros Hinvalid.
    destruct (parse_row E _ _ _ _ _ _ Hrun)
      as (u & l & fee & re & longname & s1 & lock & description & s2
          & Hu & Hv & Hlock & Hrow & Hs').
    assert (Hst : (l_status l =? "valid")%string = false).
    { apply String.eqb_neq. intros H. apply Hinvalid. rewrite Hrow.
      exact H. }
    destruct (register_and_lock_inv _ _ _ _ _ _ _ Hlock)
      as (_ & _ & Ha & _).
    rewrite Hst in Ha. simpl in Ha. rewrite app_nil_r in Ha.
    rewrite Hs'.
    rewrite assets_when_db by (intros d; apply Hcredit).
    rewrite assets_when_db by (intros d; apply Hgroup).
    assert (Hw : assets (db (if negb (contains "integer overflow"
                                        (i_status row))
                             then with_issuance row s2 else s2))
                 = assets (db s2)).
    { destruct (negb (contains "integer overflow" (i_status row)));
        reflexivity. }
    rewrite Hw, Ha.
    f_equal. exact (proj1 (run_validate_reads E tx _ _ _ _ Hv)).
  - intros Hvalid.
    destruct (parse_valid E _ _ _ _ _ _ Hrun Hvalid)
      as (u0 & asset & l0 & v & reissuance & s1 & lock & description & s2
          & Hu & Hname & Hl0 & Hval & Hclean & Hre & Hdb & Hlock & Hrow
          & Hs').
    exists u0, asset. split; [exact Hu|].
    split; [rewrite Hrow; reflexivity|].
    destruct (register_and_lock_inv _ _ _ _ _ _ _ Hlock)
      as (_ & _ & Ha & _).
    simpl in Ha.
    rewrite Hs'.
    rewrite assets_when_db by (intros d; apply Hcredit).
    rewrite assets_when_db by (intros d; apply Hgroup).
    unfold with_issuance. simpl. rewrite Ha, Hdebit, Hdb. f_equal.
    destruct (validate_checked_inv E _ _ _ _ _ _ _ _ _ _ _ _ _ _ _ _ _ _ _
                _ Hval)
      as (signs & reissuance' & ps & parent & fresh & funds & overflow
          & s1' & s2' & s3' & s4' & _ & Hlast & _ & _ & _ & _ & _ & _
          & Hre' & _).
    rewrite Hre in Hre'. injection Hre' as Hre'. subst reissuance'.
    destruct (last_row (issuances_where "valid" (Some asset) (db s))).
    + destruct Hlast as [Ht _]. subst reissuance. reflexivity.
    + destruct Hlast as [Hf _]. subst reissuance. simpl.
      rewrite Hrow. reflexivity.
Qed.

Lemma parse_registers_first_issuance_witness :
  exists row s',
    parse (Fixture.env [] 320000) (Fixture.tx_at 320000 None)
      (Fixture.message_for (Fixture.env [] 320000) 95428956661682177 100)
      20 (Fixture.fresh Fixture.funded) = Ok (row, s')
    /\ assets (db s')
       = [mk_asset "95428956661682177" Fixture.numeric_asset 320000 None
            None].
Proof.
  destruct (parse (Fixture.env [] 320000) (Fixture.tx_at 320000 None)
              (Fixture.message_for (Fixture.env [] 320000)
                 95428956661682177 100)
              20 (Fixture.fresh Fixture.funded))
    as [[row s']|e] eqn:Hrun; [|vm_compute in Hrun; discriminate].
  assert (Hkeeps : keeps_assets (Fixture.env [] 320000))
    by (repeat split; intros; reflexivity).
  assert (Hvalid : i_status row = "valid")
    by (vm_compute in Hrun; inversion Hrun; reflexivity).
  destruct (proj2 (parse_registers_first_issuance _ _ _ _ _ _ _ Hkeeps
                     Hrun) Hvalid)
    as (u0 & asset & Hu & Hasset & Ha).
  exists row, s'. split; [reflexivity|].
  rewrite Ha.
  vm_compute in Hu. injection Hu as Hu. subst u0.
  vm_compute in Hrun. injection Hrun as Hrow Hs. subst row.
  simpl in Hasset. injection Hasset as Hasset. subst asset.
  vm_compute. reflexivity.
Defined.

(** ** What a run of [parse] keeps true of the ledger *)

Section Invariants.
Context (E : Env).



End Invariants.



(** ** Locks *)

Section Locks.
Context (E : Env).

Lemma issuances_where_same status asset d d' :
  issuances d' = issuances d ->
  issuances_where status asset d' = issuances_where status asset d.
Proof. unfold issuances_where. intros H. rewrite H. reflexivity. Qed.

Lemma says_lock_lower (description : string) :
  says_lock (Some description) = true -> lower_is_lock description = true.
Proof.
  unfold says_lock. intros H. apply andb_true_iff in H. tauto.
Qed.

End Locks.

(** X13: the lock of a valid row. On the first valid issuance of an asset
    the description of the message is not [lock] (in any letter case), the
    row keeps the description, and it is locked exactly when the asset is
    not fungible. On a later one the row is locked exactly when the
    description of the message is [lock], and then it carries the
    description of the last valid issuance instead. ([util.debit] is
    supposed to leave [issuances] alone.) *)
Theorem valid_row_lock (E : Env) (tx : transaction) (message : list byte)
  (message_type_id : Z) (s s' : Store) (row : issuance_row)
  (Hdebit : forall d address asset amount action event,
      issuances (util_debit E d address asset amount action event)
      = issuances d)
  (Hrun : parse E tx message message_type_id s = Ok (row, s'))
  (Hvalid : i_status row = "valid") :
  exists u0 asset,
    unpack E (tx_block_index tx) message message_type_id = Ok (Some u0)
    /\ i_asset row = Some asset
    /\ match last_row (issuances_where "valid" (Some asset) (db s)) with
       | None =>
           says_lock (Some (u_description u0)) = false
           /\ i_locked row = negb (u_fungible u0)
           /\ i_description row = Some (u_description u0)
       | Some last_issuance =>
           i_locked row = says_lock (Some (u_description u0))
           /\ i_description row
              = (if says_lock (Some (u_description u0))
                 then i_description last_issuance
                 else Some (u_description u0))
       end.
Proof.
  destruct (parse_valid E _ _ _ _ _ _ Hrun Hvalid)
    as (u0 & asset & l0 & v & reissuance & s1 & lock & description & s2
        & Hu & Hname & Hl0 & Hval & Hclean & Hre & Hdb & Hlock & Hrow
        & Hs').
  exists u0, asset. split; [exact Hu|].
  split; [rewrite Hrow; reflexivity|].
  destruct (validate_checked_inv E _ _ _ _ _ _ _ _ _ _ _ _ _ _ _ _ _ _ _ _
              Hval)
    as (signs & reissuance' & ps & parent & fresh & funds & overflow
        & s1' & s2' & s3' & s4' & _ & Hlast & _ & _ & _ & _ & _ & _
        & Hre' & _).
  rewrite Hre in Hre'. injection Hre' as Hre'. subst reissuance'.
  destruct (register_and_lock_inv _ _ _ _ _ _ _ Hlock)
    as (_ & _ & _ & Hfirst & Hlater & _).
  simpl in Hfirst, Hlater.
  assert (Hsame :
    issuances_where "valid" (Some asset)
      (util_debit E (db s1) (tx_source tx) (XCP E) (v_fee v)
         "issuance fee" (tx_hash tx))
    = issuances_where "valid" (Some asset) (db s)).
  { apply issuances_where_same. rewrite Hdebit, Hdb. reflexivity. }
  rewrite Hsame in Hlater.
  destruct (last_row (issuances_where "valid" (Some asset) (db s)))
    as [last_issuance|].
  - destruct Hlast as [Ht _]. subst reissuance.
    destruct (Hlater eq_refl eq_refl) as (Hl & Hno & Hyes).
    rewrite Hrow. simpl. split; [exact Hl|].
    destruct (negb (u_description u0 =? "")%string
              && lower_is_lock (u_description u0)).
    + destruct (Hyes eq_refl) as [last' [Heq Hd]].
      injection Heq as Heq. subst last'. exact Hd.
    + exact (Hno eq_refl).
  - destruct Hlast as [Hf _]. subst reissuance.
    destruct (Hfirst eq_refl eq_refl) as (Hno & Hl & Hd).
    rewrite Hrow. simpl. auto.
Qed.

(** The owner locks the numeric asset: the row takes the description of
    the issuance before it. *)
Lemma valid_row_lock_witness :
  exists row s',
    parse (Fixture.env [] 320000) (Fixture.tx_at 320000 None)
      (match encode_type20 (Fixture.env [] 320000) 95428956661682177 0
               true true true true true false 0 fzero
               (list_byte_of_string "LOCK") with
       | Ok m => m
       | Raise _ => []
       end)
      20 (Fixture.fresh Fixture.nearly_full) = Ok (row, s')
    /\ i_status row = "valid"
    /\ i_locked row = true
    /\ i_description row = Some "".
Proof.
  destruct (parse (Fixture.env [] 320000) (Fixture.tx_at 320000 None)
              (match encode_type20 (Fixture.env [] 320000)
                       95428956661682177 0 true true true true true false
                       0 fzero (list_byte_of_string "LOCK") with
               | Ok m => m
               | Raise _ => []
               end)
              20 (Fixture.fresh Fixture.nearly_full))
    as [[row s']|e] eqn:Hrun; [|vm_compute in Hrun; discriminate].
  assert (Hvalid : i_status row = "valid")
    by (vm_compute in Hrun; inversion Hrun; reflexivity).
  destruct (valid_row_lock (Fixture.env [] 320000) _ _ _ _ _ _
              (fun _ _ _ _ _ _ => eq_refl) Hrun Hvalid)
    as (u0 & asset & Hu & Hasset & Hlast).
  exists row, s'. split; [reflexivity|]. split; [exact Hvalid|].
  vm_compute in Hu. injection Hu as Hu. subst u0.
  assert (Ha : asset = Fixture.numeric_asset).
  { vm_compute in Hrun. injection Hrun as Hrow Hs. subst row.
    simpl in Hasset. injection Hasset as Hasset. symmetry. exact Hasset. }
  subst asset. simpl in Hlast. exact Hlast.
Defined.

(** X14: [validate] rejects the description [lock] on a first issuance
    only for a fungible asset, so a first issuance of a non-fungible asset
    with that description, on which [validate] reports no problem, reaches
    the assertion of [parse]: the run ends in an [AssertionError] and
    writes no issuance row. *)
Theorem lock_on_first_issuance_asserts (E : Env) (tx : transaction)
  (message : list byte) (message_type_id : Z) (s : Store) (u0 : unpacked)
  (asset : string) (v : validated) (s1 : Store)
  (Hu : unpack E (tx_block_index tx) message message_type_id
        = Ok (Some u0))
  (Hname : generate_asset_name E (u_asset_id u0) (tx_block_index tx)
           = Some asset)
  (Hplain : u_subasset_longname u0 = None)
  (Hval : validate E (tx_source tx) (tx_destination tx) asset
            (PInt (u_quantity u0)) (Some (u_divisible u0))
            (Some (u_listed u0)) (Some (u_reassignable u0))
            (Some (u_vendable u0)) (Some (u_fungible u0)) (u_callable u0)
            (PInt (u_call_date u0)) (PFloat (u_call_price u0))
            (Some (u_description u0)) None None (tx_block_index tx) s
          = Ok (v, s1))
  (Hclean : v_problems v = [])
  (Hfirst : last_row (issuances_where "valid" (Some asset) (db s)) = None)
  (Hlock : says_lock (Some (u_description u0)) = true) :
  u_fungible u0 = false
  /\ parse E tx message message_type_id s = Raise AssertionError.
Proof.
  pose proof Hval as Hchecked.
  rewrite (validate_typed E _ _ _ _ _ _ _ _ _ _ (PInt (u_call_date u0))
             (PFloat (u_call_price u0)) _ _ _ _
             (u_call_date u0) (u_call_price u0) s eq_refl eq_refl)
    in Hchecked.
  simpl default in Hchecked.
  destruct (validate_clean E _ _ _ _ _ _ _ _ _ _ _ _ _ _ _ _ _ _ _ _
              Hchecked Hclean)
    as (re & total & Hre & _ & _ & _ & _ & Hlast).
  rewrite Hfirst in Hlast. destruct Hlast as (Hfalse & Hfung & Hdest).
  subst re.
  destruct (validate_checked_inv E _ _ _ _ _ _ _ _ _ _ _ _ _ _ _ _ _ _ _ _
              Hchecked)
    as (signs & reissuance' & ps & parent & fresh & funds & overflow
        & s1' & s2' & s3' & s4' & _ & _ & _ & _ & _ & _ & _ & _ & _ & _ & _
        & Hdescr & _ & _ & _ & _ & Hfu).
  rewrite (says_lock_lower _ Hlock) in Hfung. simpl in Hfung.
  split; [exact Hfung|].
  unfold parse. unfold bind at 1. unfold lift at 1. rewrite Hu.
  unfold bind at 1.
  unfold check_subasset, after_unpack. rewrite Hname, Hplain.
  unfold run_validate. simpl l_status. rewrite String.eqb_refl.
  unfold bind at 1. simpl.
  rewrite Hval. unfold ret at 1. rewrite Hclean, Hre, Hdest.
  unfold bind at 1. unfold modify_db at 1. unfold bind at 1.
  unfold register_and_lock. cbn [l_status l_description cell_bool default].
  rewrite String.eqb_refl. cbn [negb].
  unfold bind at 1. unfold insert_asset at 1.
  rewrite Hdescr. rewrite Hlock.
  reflexivity.
Qed.

(** One indivisible, non-fungible unit of a new asset with the
    description [lock], sent by a funded address. *)
Lemma lock_on_first_issuance_asserts_witness :
  parse (Fixture.env ["non_fungible_assets"] 320000)
    (Fixture.tx_at 320000 None)
    (Fixture.lock_message (Fixture.env ["non_fungible_assets"] 320000)
       95428956661682177 false)
    20 (Fixture.fresh Fixture.funded) = Raise AssertionError.
Proof.
  destruct (unpack (Fixture.env ["non_fungible_assets"] 320000) 320000
              (Fixture.lock_message
                 (Fixture.env ["non_fungible_assets"] 320000)
                 95428956661682177 false) 20)
    as [[u0|]|e] eqn:Hu; try (vm_compute in Hu; discriminate).
  assert (Hu0 : u0 = mk_unpacked 95428956661682177 1 false true true true
                       false false 0 fzero "lock" None)
    by (vm_compute in Hu; inversion Hu; reflexivity).
  destruct (validate (Fixture.env ["non_fungible_assets"] 320000)
              Fixture.alice None Fixture.numeric_asset
              (PInt (u_quantity u0)) (Some (u_divisible u0))
              (Some (u_listed u0)) (Some (u_reassignable u0))
              (Some (u_vendable u0)) (Some (u_fungible u0))
              (u_callable u0) (PInt (u_call_date u0))
              (PFloat (u_call_price u0)) (Some (u_description u0)) None
              None 320000 (Fixture.fresh Fixture.funded))
    as [[v s1]|e] eqn:Hval;
    [|subst u0; vm_compute in Hval; discriminate].
  apply (lock_on_first_issuance_asserts
           (Fixture.env ["non_fungible_assets"] 320000)
           (Fixture.tx_at 320000 None) _ 20
           (Fixture.fresh Fixture.funded) u0 Fixture.numeric_asset v s1).
  - exact Hu.
  - subst u0. reflexivity.
  - subst u0. reflexivity.
  - exact Hval.
  - subst u0. vm_compute in Hval. inversion Hval. reflexivity.
  - reflexivity.
  - subst u0. reflexivity.
Defined.

(** ** The Type 21 codec *)

Lemma pack_s_exact (data : list byte) :
  pack_s (List.length data) data = data.
Proof.
  unfold pack_s. rewrite firstn_all, Nat.sub_diag. apply app_nil_r.
Qed.

Lemma pack_uint_inv (n : nat) (z : Z) (bs : list byte) :
  pack_uint n z = Ok bs -> 0 <= z < 256 ^ Z.of_nat n /\ bs = be_encode n z.
Proof.
  unfold pack_uint.
  destruct (0 <=? z) eqn:H0; [|discriminate].
  destruct (z <? 256 ^ Z.of_nat n) eqn:H1; [|discriminate].
  simpl. intros H. injection H as H.
  apply Z.leb_le in H0. apply Z.ltb_lt in H1. auto.
Qed.

Section Decoding.
Context (E : Env).

(** Whatever the encoder of Type 21 wrote is read back, at a height where
    subassets are enabled. *)
Lemma type21_decodes (block_index asset_id quantity : Z)
  (divisible listed reassignable vendable fungible : bool)
  (subasset_longname : string) (data message : list byte) :
  enabled E "subassets" (Some block_index) = true ->
  encode_type21 E asset_id quantity divisible listed reassignable vendable
    fungible subasset_longname data = Ok message ->
  0 <= asset_id < 2 ^ 64 /\ 0 <= quantity < 2 ^ 64
  /\ unpack E block_index message SUBASSET_ID
     = Ok (Some (mk_unpacked asset_id quantity divisible listed
                   reassignable vendable fungible false 0 fzero
                   (decode_description E data)
                   (Some (expand_subasset_longname E
                            (compact_subasset_longname E
                               subasset_longname))))).
Proof.
  intros Hsub Hencode.
  destruct (flags_round_trip divisible listed reassignable vendable fungible)
    as (Hflags & Hd & Hl & Hr & Hv & Hf).
  set (flags := flags_byte divisible listed reassignable vendable fungible)
    in *.
  set (name := compact_subasset_longname E subasset_longname) in *.
  set (k := List.length name) in *.
  unfold encode_type21 in Hencode. fold name in Hencode. fold k in Hencode.
  fold flags in Hencode.
  destruct (pack_uint 8 asset_id) as [a|] eqn:Ha; [|discriminate].
  destruct (pack_uint 8 quantity) as [q|] eqn:Hq; [|discriminate].
  destruct (pack_uint 1 flags) as [f|] eqn:Hfl; [|discriminate].
  destruct (pack_uint 1 (Z.of_nat k)) as [c|] eqn:Hc; [|discriminate].
  simpl rbind in Hencode. injection Hencode as Hmessage.
  apply pack_uint_inv in Ha, Hq, Hfl, Hc.
  destruct Ha as [Hasset Ha], Hq as [Hquantity Hq], Hfl as [_ Hfl],
    Hc as [Hk Hc].
  split; [exact Hasset|]. split; [exact Hquantity|].
  unfold k in Hmessage. rewrite !pack_s_exact in Hmessage.
  assert (La : List.length a = 8%nat) by (subst a; apply be_encode_length).
  assert (Lq : List.length q = 8%nat) by (subst q; apply be_encode_length).
  assert (Lf : List.length f = 1%nat) by (subst f; apply be_encode_length).
  assert (Lc : List.length c = 1%nat) by (subst c; apply be_encode_length).
  assert (Sa : slice 0 8 message = a).
  { subst message. apply (slice_middle [] a). reflexivity. exact La. }
  assert (Sq : slice 8 16 message = q).
  { subst message. apply (slice_middle a q); [exact La | exact Lq]. }
  assert (Sf : slice 16 17 message = f).
  { subst message. rewrite (app_assoc a q).
    apply slice_middle; [rewrite length_app, La, Lq; reflexivity|].
    exact Lf. }
  assert (Sc : slice 17 18 message = c).
  { subst message. rewrite (app_assoc a q), (app_assoc (a ++ q) f).
    apply slice_middle; [rewrite !length_app, La, Lq, Lf; reflexivity|].
    exact Lc. }
  assert (Sn : slice 18 (18 + k) message = name).
  { subst message.
    rewrite (app_assoc a q), (app_assoc (a ++ q) f),
      (app_assoc ((a ++ q) ++ f) c).
    apply slice_middle;
      [rewrite !length_app, La, Lq, Lf, Lc; reflexivity|].
    unfold k. lia. }
  assert (Sd : skipn (18 + k) message = data).
  { subst message.
    rewrite (app_assoc a q), (app_assoc (a ++ q) f),
      (app_assoc ((a ++ q) ++ f) c),
      (app_assoc (((a ++ q) ++ f) ++ c) name).
    apply skipn_prefix.
    rewrite !length_app, La, Lq, Lf, Lc. reflexivity. }
  assert (Hlen : len message
                 = 18 + Z.of_nat k + Z.of_nat (List.length data)).
  { unfold len. subst message.
    rewrite !length_app, La, Lq, Lf, Lc. fold k. lia. }
  unfold unpack. rewrite Z.eqb_refl, Hsub. simpl negb. cbv iota.
  unfold unpack_type21.
  replace (len message <? SUBASSET_FORMAT_LENGTH) with false
    by (symmetry; apply Z.ltb_ge; rewrite Hlen;
        unfold SUBASSET_FORMAT_LENGTH; lia).
  rewrite Sa, Sq, Sf, Sc. subst a q f c.
  rewrite (be_decode_encode 8 asset_id) by exact Hasset.
  rewrite (be_decode_encode 8 quantity) by exact Hquantity.
  rewrite (be_decode_encode 1 flags) by exact Hflags.
  rewrite (be_decode_encode 1 (Z.of_nat k)) by exact Hk.
  rewrite Nat2Z.id.
  replace (len message - SUBASSET_FORMAT_LENGTH - Z.of_nat k <? 0)
    with false
    by (symmetry; apply Z.ltb_ge; rewrite Hlen;
        unfold SUBASSET_FORMAT_LENGTH; lia).
  rewrite Sn, Sd, Hd, Hl, Hr, Hv, Hf.
  reflexivity.
Qed.

(** Well-formed text comes back from its bytes. *)
Lemma decode_encoded (description : string) :
  utf8_valid (encode_utf8 description) = true ->
  decode_description E (encode_utf8 description) = description.
Proof.
  intros Htext. unfold decode_description. rewrite Htext.
  unfold encode_utf8. apply string_of_list_byte_of_string.
Qed.

End Decoding.

(** X15: decoding the Type 21 (subasset) message of the encoder, at a
    height where subassets are enabled, gives back the identifier, the
    quantity, the five flags and the description exactly (also a
    description of 42 bytes, unlike Type 20), no call fields, and the long
    name as the expansion of its compact form; this for identifiers and
    quantities of 64 bits, a compact long name of at most 255 bytes and a
    description that is well-formed text. *)
Theorem type21_round_trip (E : Env) (block_index asset_id quantity : Z)
  (divisible listed reassignable vendable fungible : bool)
  (subasset_longname description : string)
  (Hsub : enabled E "subassets" (Some block_index) = true)
  (Hasset : 0 <= asset_id < 2 ^ 64)
  (Hquantity : 0 <= quantity < 2 ^ 64)
  (Hcompact : (List.length (compact_subasset_longname E subasset_longname)
               < 256)%nat)
  (Htext : utf8_valid (encode_utf8 description) = true) :
  exists message,
    encode_type21 E asset_id quantity divisible listed reassignable vendable
      fungible subasset_longname (encode_utf8 description)
    = Ok message
    /\ unpack E block_index message SUBASSET_ID
       = Ok (Some (mk_unpacked asset_id quantity divisible listed
                     reassignable vendable fungible false 0 fzero
                     description
                     (Some (expand_subasset_longname E
                              (compact_subasset_longname E
                                 subasset_longname))))).
Proof.
  destruct (flags_round_trip divisible listed reassignable vendable fungible)
    as (Hflags & _).
  assert (Hk : 0 <= Z.of_nat (List.length (compact_subasset_longname E
                                             subasset_longname))
               < 256 ^ Z.of_nat 1)
    by (change (256 ^ Z.of_nat 1) with 256; lia).
  assert (Hencode : exists message,
    encode_type21 E asset_id quantity divisible listed reassignable vendable
      fungible subasset_longname (encode_utf8 description) = Ok message).
  { unfold encode_type21.
    rewrite (pack_uint_ok 8 asset_id) by exact Hasset.
    rewrite (pack_uint_ok 8 quantity) by exact Hquantity.
    rewrite (pack_uint_ok 1 _ Hflags).
    rewrite (pack_uint_ok 1 _ Hk).
    eexists. reflexivity. }
  destruct Hencode as [message Hencode].
  exists message. split; [exact Hencode|].
  destruct (type21_decodes E block_index _ _ _ _ _ _ _ _ _ _ Hsub Hencode)
    as (_ & _ & Hdecoded).
  rewrite Hdecoded, (decode_encoded E description Htext). reflexivity.
Qed.

Lemma type21_round_trip_witness :
  exists message,
    encode_type21 (Fixture.env ["subassets"] 320000) 95428956661682177 1000
      true true false true true "PARENT.child"
      (encode_utf8 Fixture.forty_two)
    = Ok message
    /\ unpack (Fixture.env ["subassets"] 320000) 320000 message SUBASSET_ID
       = Ok (Some (mk_unpacked 95428956661682177 1000 true true false true
                     true false 0 fzero Fixture.forty_two
                     (Some "PARENT.child"))).
Proof.
  assert (Hasset : 0 <= 95428956661682177 < 2 ^ 64)
    by (split; [discriminate | reflexivity]).
  assert (Hquantity : 0 <= 1000 < 2 ^ 64)
    by (split; [discriminate | reflexivity]).
  assert (Hcompact :
    (List.length (compact_subasset_longname
                    (Fixture.env ["subassets"] 320000) "PARENT.child")
     < 256)%nat) by (simpl; lia).
  exact (type21_round_trip (Fixture.env ["subassets"] 320000) 320000
           95428956661682177 1000 true true false true true "PARENT.child"
           Fixture.forty_two eq_refl Hasset Hquantity Hcompact eq_refl).
Defined.

(** ** Messages the parser does not survive *)

Section Layouts.
Context (E : Env).

(** The long layout reads every message of more than 26 bytes. *)
Lemma unpack_type20_returns (message : list byte) :
  len message > LENGTH_2 -> exists u, unpack_type20 E message = Ok u.
Proof.
  unfold unpack_type20, curr_format, unpack_tail, LENGTH_2, len.
  intros Hlen.
  destruct (Z.of_nat (List.length message) - (8 + 8 + 1 + 1 + 4 + 4)
            <=? 42).
  - destruct (Z.to_nat (Z.of_nat (List.length message)
                        - (8 + 8 + 1 + 1 + 4 + 4))) as [|room] eqn:Hn;
      [lia|].
    destruct (skipn 26 message) as [|b rest] eqn:Hskip.
    + assert (Hl : List.length (skipn 26 message) = 0%nat)
        by (rewrite Hskip; reflexivity).
      rewrite length_skipn in Hl. lia.
    + simpl. eexists. reflexivity.
  - simpl. eexists. reflexivity.
Qed.

Lemma unpack_type20_raises (message : list byte) :
  len message = LENGTH_2 -> unpack_type20 E message = Raise SystemError.
Proof.
  unfold unpack_type20, curr_format. intros Hlen. rewrite Hlen.
  rewrite Z.sub_diag. reflexivity.
Qed.

End Layouts.

(** X16: the two messages that end a run of [parse] in an exception of
    the decoder, which [parse] does not catch: a Type 21 message of fewer
    than 18 bytes at a height where subassets are enabled
    ([struct.error]), and a message of another type of exactly 26 bytes
    at a height where the long layout is read (a Pascal string of count 0,
    on which CPython raises [SystemError]). Every other message is
    unpacked or set aside as [could not unpack]. *)
Theorem parse_decoder_exceptions (E : Env) (tx : transaction)
  (message : list byte) (message_type_id : Z) (s : Store) :
  let short21 :=
    (message_type_id =? SUBASSET_ID)
    && enabled E "subassets" (Some (tx_block_index tx))
    && (len message <? SUBASSET_FORMAT_LENGTH) in
  let empty_tail :=
    negb (message_type_id =? SUBASSET_ID)
    && ((tx_block_index tx >? 283271) || TESTNET E || REGTEST E)
    && (len message =? LENGTH_2) in
  (short21 = true ->
   parse E tx message message_type_id s = Raise StructError)
  /\ (empty_tail = true ->
      parse E tx message message_type_id s = Raise SystemError)
  /\ (short21 = false -> empty_tail = false ->
      exists u,
        unpack E (tx_block_index tx) message message_type_id = Ok u).
Proof.
  intros short21 empty_tail. subst short21 empty_tail.
  unfold parse, unpack.
  destruct (message_type_id =? SUBASSET_ID) eqn:Htype.
  - destruct (enabled E "subassets" (Some (tx_block_index tx))) eqn:Hsub;
      simpl.
    + unfold unpack_type21.
      destruct (len message <? SUBASSET_FORMAT_LENGTH) eqn:Hshort.
      * split; [reflexivity|]. split; discriminate.
      * split; [discriminate|]. split; [discriminate|]. intros _ _.
        destruct (len message - SUBASSET_FORMAT_LENGTH
                  - be_decode (slice 17 18 message) <? 0);
          eexists; reflexivity.
    + split; [discriminate|]. split; [discriminate|]. intros _ _.
      eexists. reflexivity.
  - simpl.
    destruct ((tx_block_index tx >? 283271) || TESTNET E || REGTEST E)
      eqn:Hlong; simpl.
    + destruct (len message =? LENGTH_2) eqn:Heq.
      * apply Z.eqb_eq in Heq.
        split; [discriminate|]. split; [|discriminate]. intros _.
        replace (len message >=? LENGTH_2) with true
          by (symmetry; rewrite Z.geb_leb; apply Z.leb_le; lia).
        unfold bind at 1, lift at 1.
        rewrite (unpack_type20_raises E message Heq). reflexivity.
      * apply Z.eqb_neq in Heq.
        split; [discriminate|]. split; [discriminate|]. intros _ _.
        destruct (len message >=? LENGTH_2) eqn:Hge.
        -- rewrite Z.geb_leb in Hge. apply Z.leb_le in Hge.
           destruct (unpack_type20_returns E message) as [u Hu]; [lia|].
           rewrite Hu. eexists. reflexivity.
        -- destruct (negb (len message =? LENGTH_1)); eexists; reflexivity.
    + split; [discriminate|]. split; [discriminate|]. intros _ _.
      destruct (negb (len message =? LENGTH_1)); eexists; reflexivity.
Qed.

Lemma parse_decoder_exceptions_witness :
  parse (Fixture.env [] 320000) (Fixture.tx_at 320000 None)
    (repeat x00 26) 20 (Fixture.fresh Fixture.funded) = Raise SystemError.
Proof.
  apply (proj1 (proj2 (parse_decoder_exceptions (Fixture.env [] 320000)
                         (Fixture.tx_at 320000 None) (repeat x00 26) 20
                         (Fixture.fresh Fixture.funded)))).
  reflexivity.
Defined.

(** ** [compose] *)

Section Composing.
Context (E : Env).

Lemma reads_compose_names asset fungible :
  reads (compose_names E asset fungible).
Proof.
  unfold compose_names.
  destruct (enabled E "subassets" None
            && negb match fungible with Some false => true | _ => false end).
  - destruct (parse_subasset_from_asset_name E asset)
      as [[parent [longname|]]|].
    + apply reads_bind; [apply reads_select_assets|].
      intros found. apply reads_ret.
    + apply reads_ret.
    + apply reads_lift.
  - destruct (enabled E "non_fungible_assets" None
              && match fungible with Some false => true | _ => false end);
      apply reads_ret.
Qed.

Lemma reads_compose source transfer_destination asset quantity divisible
  listed reassignable vendable fungible description :
  reads (compose E source transfer_destination asset quantity divisible
           listed reassignable vendable fungible description).
Proof.
  unfold compose.
  apply reads_bind; [apply reads_select_issuances | intros issuances].
  destruct (last_row issuances) as [last_issuance|];
    (apply reads_bind; [apply reads_compose_names|];
     intros [[name parent] longname];
     apply reads_bind; [apply reads_validate | intros v];
     destruct (v_problems v); [|apply reads_ret];
     apply reads_bind; [apply reads_lift | intros data; apply reads_ret]).
Qed.

End Composing.

(** X17: [compose] only reads. Whether it hands back a message or the
    problems of a [ComposeError], a run that returns leaves the tables of
    the ledger as they were, and the statements it executed are
    [SELECT]s. *)
Theorem compose_only_reads (E : Env) (source : string)
  (transfer_destination : option string) (asset : string)
  (quantity : pyval)
  (divisible listed reassignable vendable fungible : option bool)
  (description : option string) (s s' : Store) (outcome : composed)
  (Hrun : compose E source transfer_destination asset quantity divisible
            listed reassignable vendable fungible description s
          = Ok (outcome, s')) :
  db s' = db s
  /\ exists executed,
       journal s' = journal s ++ executed /\ Forall is_select executed.
Proof.
  exact (reads_compose E _ _ _ _ _ _ _ _ _ _ _ _ _ Hrun).
Qed.

Lemma compose_only_reads_witness :
  exists data s',
    compose (Fixture.env [] 320000) Fixture.alice None "ASSET" (PInt 1000)
      None None None None None (Some "first")
      (Fixture.fresh Fixture.funded)
    = Ok (Composed Fixture.alice [] data, s')
    /\ db s' = Fixture.funded
    /\ journal s' = [SELECT T_issuances; SELECT T_issuances;
                     SELECT T_balances].
Proof.
  eexists. eexists.
  assert (Hrun :
    compose (Fixture.env [] 320000) Fixture.alice None "ASSET" (PInt 1000)
      None None None None None (Some "first")
      (Fixture.fresh Fixture.funded) = Ok _) by (vm_compute; reflexivity).
  split; [exact Hrun|].
  split.
  - exact (proj1 (compose_only_reads _ _ _ _ _ _ _ _ _ _ _ _ _ _ Hrun)).
  - reflexivity.
Defined.

(** ** Looking an issuance up *)

(** X18: looking up by hash after a run of [parse]. For a transaction
    whose hash is not yet in [issuances], [find_issuance_by_tx_hash] on
    the ledger after the run answers the asset of the row [parse]
    returned (which is empty on a message that could not be unpacked), or
    nothing when the row was not stored; and the rows found under any
    other hash are those found before. (The collaborators are supposed to
    leave [issuances] alone.) *)
Theorem find_issuance_after_parse (E : Env) (tx : transaction)
  (message : list byte) (message_type_id : Z) (s s' : Store)
  (row : issuance_row)
  (Hkeeps : keeps_issuances E)
  (Hfresh : issuances_with_hash (tx_hash tx) (db s) = [])
  (Hrun : parse E tx message message_type_id s = Ok (row, s')) :
  find_issuance_by_tx_hash (tx_hash tx) s'
  = Ok (if contains "integer overflow" (i_status row) then None
        else i_asset row,
        record (SELECT T_issuances) s')
  /\ forall other,
       other <> tx_hash tx ->
       issuances_with_hash other (db s')
       = issuances_with_hash other (db s).
Proof.
  pose proof (parse_issuances E _ _ _ _ _ _ Hkeeps Hrun) as Hi.
  destruct (parse_row E _ _ _ _ _ _ Hrun)
    as (u & l & fee & re & longname & s1 & lock & description & s2
        & _ & _ & _ & Hrow & _).
  assert (Hhash : i_tx_hash row = tx_hash tx) by (rewrite Hrow; reflexivity).
  split.
  - unfold find_issuance_by_tx_hash, issuances_with_hash.
    rewrite Hi, filter_app.
    unfold issuances_with_hash in Hfresh. rewrite Hfresh.
    destruct (contains "integer overflow" (i_status row)); simpl.
    + reflexivity.
    + rewrite Hhash, String.eqb_refl. reflexivity.
  - intros other Hother. unfold issuances_with_hash.
    rewrite Hi, filter_app.
    destruct (contains "integer overflow" (i_status row)); simpl.
    + apply app_nil_r.
    + rewrite Hhash.
      replace (tx_hash tx =? other)%string with false
        by (symmetry; apply String.eqb_neq; congruence).
      apply app_nil_r.
Qed.

Lemma find_issuance_after_parse_witness :
  exists row s',
    parse (Fixture.env [] 320000) (Fixture.tx_at 320000 None)
      (Fixture.message_for (Fixture.env [] 320000) 95428956661682177 5)
      20 (Fixture.fresh Fixture.nearly_full) = Ok (row, s')
    /\ find_issuance_by_tx_hash "txhash" s'
       = Ok (Some Fixture.numeric_asset, record (SELECT T_issuances) s').
Proof.
  destruct (parse (Fixture.env [] 320000) (Fixture.tx_at 320000 None)
              (Fixture.message_for (Fixture.env [] 320000)
                 95428956661682177 5)
              20 (Fixture.fresh Fixture.nearly_full))
    as [[row s']|e] eqn:Hrun; [|vm_compute in Hrun; discriminate].
  assert (Hkeeps : keeps_issuances (Fixture.env [] 320000))
    by (repeat split; intros; reflexivity).
  destruct (find_issuance_after_parse (Fixture.env [] 320000)
              (Fixture.tx_at 320000 None) _ 20
              (Fixture.fresh Fixture.nearly_full) s' row Hkeeps eq_refl
              Hrun)
    as [Hfound _].
  exists row, s'. split; [reflexivity|].
  simpl tx_hash in Hfound. rewrite Hfound.
  vm_compute in Hrun. injection Hrun as Hrow Hs. subst row. reflexivity.
Defined.

(** ** Sends *)




(** ** The history of an asset *)

Section History.
Context (E : Env).

Lemma insert_keeps_last (x r : issuance_row) (m : list issuance_row) :
  i_tx_index x <= i_tx_index r ->
  exists m', insert_by_tx_index x (m ++ [r]) = m' ++ [r].
Proof.
  intros Hle. induction m as [|y m IH]; simpl.
  - replace (i_tx_index x <=? i_tx_index r) with true
      by (symmetry; apply Z.leb_le; exact Hle).
    exists [x]. reflexivity.
  - destruct (i_tx_index x <=? i_tx_index y).
    + exists (x :: y :: m). reflexivity.
    + destruct IH as [m' IH]. rewrite IH. exists (y :: m'). reflexivity.
Qed.

Lemma order_keeps_last (r : issuance_row) (l : list issuance_row) :
  (forall x, In x l -> i_tx_index x <= i_tx_index r) ->
  exists m, order_by_tx_index (l ++ [r]) = m ++ [r].
Proof.
  unfold order_by_tx_index. intros Hle.
  induction l as [|x l IH]; simpl.
  - exists []. reflexivity.
  - destruct IH as [m IH]; [intros y Hy; apply Hle; right; exact Hy|].
    rewrite IH. apply insert_keeps_last. apply Hle. left. reflexivity.
Qed.

Lemma last_row_last (m : list issuance_row) (r : issuance_row) :
  last_row (m ++ [r]) = Some r.
Proof. unfold last_row. rewrite rev_app_distr. reflexivity. Qed.

(** A row of the highest index so far, once appended, is the last of the
    issuances of its status and asset, and changes no other selection. *)
Lemma appended_row_is_last (d d' : DB) (r : issuance_row) (asset : string) :
  issuances d' = issuances d ++ [r] ->
  i_asset r = Some asset ->
  (forall x, In x (issuances d) -> i_tx_index x <= i_tx_index r) ->
  last_row (issuances_where (i_status r) (Some asset) d') = Some r.
Proof.
  intros Hd Hasset Horder. unfold issuances_where.
  rewrite Hd, filter_app. simpl.
  rewrite String.eqb_refl, Hasset. simpl. rewrite String.eqb_refl. simpl.
  match goal with
  | |- last_row (order_by_tx_index (?l ++ [r])) = _ =>
      destruct (order_keeps_last r l) as [m Hm]
  end.
  - intros x Hx. apply filter_In in Hx. apply Horder. tauto.
  - rewrite Hm. apply last_row_last.
Qed.

Lemma appended_row_elsewhere (d d' : DB) (r : issuance_row)
  (status : string) (asset : option string) :
  issuances d' = issuances d ++ [r] ->
  (i_status r =? status)%string && cell_is (i_asset r) asset = false ->
  issuances_where status asset d' = issuances_where status asset d.
Proof.
  intros Hd Hno. unfold issuances_where.
  rewrite Hd, filter_app. simpl. rewrite Hno. rewrite app_nil_r.
  reflexivity.
Qed.


End History.

Section Ownership.
Context (E : Env).



(** A valid row of the highest index so far is the last valid issuance of
    its asset on the ledger after the run. *)
Lemma valid_row_is_last tx message message_type_id s row s' asset :
  keeps_issuances E ->
  (forall r, In r (issuances (db s)) -> i_tx_index r <= tx_index tx) ->
  parse E tx message message_type_id s = Ok (row, s') ->
  i_status row = "valid" ->
  i_asset row = Some asset ->
  last_row (issuances_where "valid" (Some asset) (db s')) = Some row.
Proof.
  intros Hkeeps Horder Hrun Hvalid Hasset.
  pose proof (parse_issuances E _ _ _ _ _ _ Hkeeps Hrun) as Hi.
  rewrite Hvalid in Hi. simpl in Hi.
  rewrite <- Hvalid.
  apply (appended_row_is_last (db s)); [exact Hi | exact Hasset|].
  destruct (parse_row E _ _ _ _ _ _ Hrun)
    as (u & l & fee & re & longname & s1 & lock & description & s2
        & _ & _ & _ & Hrow & _).
  assert (Hindex : i_tx_index row = tx_index tx)
    by (rewrite Hrow; reflexivity).
  rewrite Hindex. exact Horder.
Qed.

End Ownership.

(** X20: the valid history of an asset after a run of [parse], for a
    transaction whose index is above every index in [issuances]. A valid
    row becomes the last valid issuance of its asset, the one [validate],
    [compose] and [is_vendable] consult, and leaves the valid issuances of
    every other asset as they were; a row of any other status changes the
    valid issuances of no asset. (The collaborators are supposed to leave
    [issuances] alone.) *)
Theorem valid_row_becomes_last (E : Env) (tx : transaction)
  (message : list byte) (message_type_id : Z) (s s' : Store)
  (row : issuance_row)
  (Hkeeps : keeps_issuances E)
  (Hlater : forall r, In r (issuances (db s)) ->
                      i_tx_index r < tx_index tx)
  (Hrun : parse E tx message message_type_id s = Ok (row, s')) :
  (i_status row = "valid" ->
   exists asset,
     i_asset row = Some asset
     /\ last_row (issuances_where "valid" (Some asset) (db s')) = Some row
     /\ forall other,
          other <> asset ->
          issuances_where "valid" (Some other) (db s')
          = issuances_where "valid" (Some other) (db s))
  /\ (i_status row <> "valid" ->
      forall asset,
        issuances_where "valid" asset (db s')
        = issuances_where "valid" asset (db s)).
Proof.
  assert (Horder : forall r, In r (issuances (db s)) ->
                             i_tx_index r <= tx_index tx)
    by (intros r Hr; apply Z.lt_le_incl; apply Hlater; exact Hr).
  pose proof (parse_issuances E _ _ _ _ _ _ Hkeeps Hrun) as Hi.
  split.
  - intros Hvalid.
    destruct (parse_valid E _ _ _ _ _ _ Hrun Hvalid)
      as (u0 & asset & l0 & v & reissuance & s1 & lock & description & s2
          & _ & _ & _ & _ & _ & _ & _ & _ & Hrow & _).
    assert (Hasset : i_asset row = Some asset)
      by (rewrite Hrow; reflexivity).
    exists asset. split; [exact Hasset|].
    split;
      [exact (valid_row_is_last E _ _ _ _ _ _ _ Hkeeps Horder Hrun Hvalid
                Hasset)|].
    intros other Hother.
    rewrite Hvalid in Hi. simpl in Hi.
    apply (appended_row_elsewhere _ _ row); [exact Hi|].
    rewrite Hasset. simpl.
    replace (asset =? other)%string with false
      by (symmetry; apply String.eqb_neq; congruence).
    apply andb_false_r.
  - intros Hinvalid asset.
    destruct (contains "integer overflow" (i_status row)).
    + apply issuances_where_same. rewrite Hi. apply app_nil_r.
    + apply (appended_row_elsewhere _ _ row); [exact Hi|].
      replace (i_status row =? "valid")%string with false
        by (symmetry; apply String.eqb_neq; exact Hinvalid).
      reflexivity.
Qed.

Lemma valid_row_becomes_last_witness :
  exists row s',
    parse (Fixture.env [] 320000) (Fixture.tx_at 320000 None)
      (Fixture.message_for (Fixture.env [] 320000) 95428956661682177 5)
      20 (Fixture.fresh Fixture.nearly_full) = Ok (row, s')
    /\ last_row (issuances_where "valid" (Some Fixture.numeric_asset)
                   (db s')) = Some row.
Proof.
  destruct (parse (Fixture.env [] 320000) (Fixture.tx_at 320000 None)
              (Fixture.message_for (Fixture.env [] 320000)
                 95428956661682177 5)
              20 (Fixture.fresh Fixture.nearly_full))
    as [[row s']|e] eqn:Hrun; [|vm_compute in Hrun; discriminate].
  assert (Hkeeps : keeps_issuances (Fixture.env [] 320000))
    by (repeat split; intros; reflexivity).
  assert (Horder : forall r,
             In r (issuances (db (Fixture.fresh Fixture.nearly_full))) ->
             i_tx_index r < tx_index (Fixture.tx_at 320000 None)).
  { intros r Hr. simpl in Hr. destruct Hr as [Hr|[]]. subst r.
    simpl. lia. }
  assert (Hvalid : i_status row = "valid")
    by (vm_compute in Hrun; inversion Hrun; reflexivity).
  destruct (proj1 (valid_row_becomes_last _ _ _ _ _ _ _ Hkeeps Horder
                     Hrun) Hvalid)
    as (asset & Hasset & Hlast & _).
  exists row, s'. split; [reflexivity|].
  assert (Ha : asset = Fixture.numeric_asset).
  { vm_compute in Hrun. injection Hrun as Hrow Hs. subst row.
    simpl in Hasset. injection Hasset as Hasset. symmetry. exact Hasset. }
  subst asset. exact Hlast.
Defined.



(** ** The supply of an asset *)

Section Supply.
Context (E : Env).

Lemma sum_insert (x : issuance_row) (l : list issuance_row) :
  sum_quantities (insert_by_tx_index x l) = sum_quantities (x :: l).
Proof.
  induction l as [|y l IH]; [reflexivity|].
  cbn [insert_by_tx_index].
  destruct (i_tx_index x <=? i_tx_index y); [reflexivity|].
  cbn [sum_quantities] in *. rewrite IH. unfold rbind.
  destruct (i_quantity y) as [qy|], (i_quantity x) as [qx|],
    (sum_quantities l) as [t|e]; try reflexivity.
  f_equal. lia.
Qed.

(** The sum does not depend on the order of the rows. *)
Lemma sum_order (l : list issuance_row) :
  sum_quantities (order_by_tx_index l) = sum_quantities l.
Proof.
  unfold order_by_tx_index. induction l as [|x l IH]; [reflexivity|].
  cbn [fold_right]. rewrite sum_insert. cbn [sum_quantities].
  rewrite IH. reflexivity.
Qed.

Lemma sum_append (r : issuance_row) (l : list issuance_row) (q t : Z) :
  i_quantity r = Some q ->
  sum_quantities l = Ok t ->
  sum_quantities (l ++ [r]) = Ok (t + q).
Proof.
  intros Hq. revert t. induction l as [|x l IH]; intros t Ht.
  - simpl in *. rewrite Hq. injection Ht as Ht. subst t. simpl.
    f_equal. lia.
  - simpl in *. destruct (i_quantity x) as [qx|]; [|discriminate].
    unfold rbind in *.
    destruct (sum_quantities l) as [t'|]; [|discriminate].
    injection Ht as Ht. subst t. rewrite (IH t' eq_refl).
    f_equal. lia.
Qed.

(** The supply after a row of that asset and status [valid] was
    appended. *)
Lemma supply_append (d d' : DB) (r : issuance_row) (asset : string)
  (q t : Z) :
  issuances d' = issuances d ++ [r] ->
  i_status r = "valid" -> i_asset r = Some asset ->
  i_quantity r = Some q ->
  supply d asset = Ok t ->
  supply d' asset = Ok (t + q).
Proof.
  unfold supply, issuances_where. intros Hd Hst Hasset Hq.
  rewrite !sum_order. rewrite Hd, filter_app. simpl.
  rewrite Hst, Hasset. simpl. rewrite String.eqb_refl. simpl.
  apply sum_append. exact Hq.
Qed.

End Supply.

(** X22: the supply of an asset, that is the sum of the quantities of its
    valid issuances, over a run of [parse]. A valid
    row adds its quantity to the supply of its asset, the new supply is at
    most [MAX_INT], and the supply of every other asset stays; a row of
    any other status changes no supply. (The collaborators are supposed to
    leave [issuances] alone.) *)
Theorem supply_after_parse (E : Env) (tx : transaction)
  (message : list byte) (message_type_id : Z) (s s' : Store)
  (row : issuance_row)
  (Hkeeps : keeps_issuances E)
  (Hrun : parse E tx message message_type_id s = Ok (row, s')) :
  (i_status row = "valid" ->
   exists asset quantity total,
     i_asset row = Some asset
     /\ i_quantity row = Some quantity
     /\ supply (db s) asset = Ok total
     /\ supply (db s') asset = Ok (total + quantity)
     /\ total + quantity <= MAX_INT
     /\ forall other,
          other <> asset ->
          supply (db s') other = supply (db s) other)
  /\ (i_status row <> "valid" ->
      forall asset, supply (db s') asset = supply (db s) asset).
Proof.
  pose proof (parse_issuances E _ _ _ _ _ _ Hkeeps Hrun) as Hi.
  split.
  - intros Hvalid.
    destruct (parse_valid E _ _ _ _ _ _ Hrun Hvalid)
      as (u0 & asset & l0 & v & reissuance & s1 & lock & description & s2
          & _ & _ & _ & Hval & Hclean & _ & _ & _ & Hrow & _).
    destruct (validate_clean E _ _ _ _ _ _ _ _ _ _ _ _ _ _ _ _ _ _ _ _
                Hval Hclean)
      as (re & total & _ & Htotal & Hbound & Hzero & _).
    assert (Hasset : i_asset row = Some asset)
      by (rewrite Hrow; reflexivity).
    assert (Hq : i_quantity row = Some (u_quantity u0)).
    { rewrite Hrow. simpl.
      destruct (nonempty (tx_destination tx)); [|reflexivity].
      rewrite (Hzero eq_refl). reflexivity. }
    rewrite Hvalid in Hi. simpl in Hi.
    exists asset, (u_quantity u0), total.
    split; [exact Hasset|]. split; [exact Hq|]. split; [exact Htotal|].
    split; [exact (supply_append _ _ row asset _ _ Hi Hvalid Hasset Hq
                     Htotal)|].
    split; [exact Hbound|].
    intros other Hother. unfold supply. f_equal.
    apply (appended_row_elsewhere _ _ row); [exact Hi|].
    rewrite Hasset. simpl.
    replace (asset =? other)%string with false
      by (symmetry; apply String.eqb_neq; congruence).
    apply andb_false_r.
  - intros Hinvalid asset. unfold supply. f_equal.
    destruct (contains "integer overflow" (i_status row)).
    + apply issuances_where_same. rewrite Hi. apply app_nil_r.
    + apply (appended_row_elsewhere _ _ row); [exact Hi|].
      replace (i_status row =? "valid")%string with false
        by (symmetry; apply String.eqb_neq; exact Hinvalid).
      reflexivity.
Qed.

(** Five more units of the asset that stands at [MAX_INT - 10]. *)
Lemma supply_after_parse_witness :
  exists row s',
    parse (Fixture.env [] 320000) (Fixture.tx_at 320000 None)
      (Fixture.message_for (Fixture.env [] 320000) 95428956661682177 5)
      20 (Fixture.fresh Fixture.nearly_full) = Ok (row, s')
    /\ supply (db s') Fixture.numeric_asset = Ok (MAX_INT - 5).
Proof.
  destruct (parse (Fixture.env [] 320000) (Fixture.tx_at 320000 None)
              (Fixture.message_for (Fixture.env [] 320000)
                 95428956661682177 5)
              20 (Fixture.fresh Fixture.nearly_full))
    as [[row s']|e] eqn:Hrun; [|vm_compute in Hrun; discriminate].
  assert (Hkeeps : keeps_issuances (Fixture.env [] 320000))
    by (repeat split; intros; reflexivity).
  assert (Hvalid : i_status row = "valid")
    by (vm_compute in Hrun; inversion Hrun; reflexivity).
  destruct (proj1 (supply_after_parse _ _ _ _ _ _ _ Hkeeps Hrun) Hvalid)
    as (asset & quantity & total & Hasset & Hq & Htotal & Hnew & _).
  exists row, s'. split; [reflexivity|].
  vm_compute in Hrun. injection Hrun as Hrow Hs. subst row.
  simpl in Hasset, Hq. injection Hasset as Hasset. injection Hq as Hq.
  subst asset quantity.
  vm_compute in Htotal. injection Htotal as Htotal. subst total.
  exact Hnew.
Defined.

(** ** The ledger after a valid message *)

Section ValidLedger.
Context (E : Env).

Lemma register_and_lock_db tx l reissuance s0 lock description s2 :
  register_and_lock tx l reissuance s0 = Ok ((lock, description), s2) ->
  db s2
  = mk_db (issuances (db s0))
      (assets (db s0)
       ++ (if (l_status l =? "valid")%string && negb (cell_bool reissuance)
           then [registration tx (l_asset_id l) (default (l_asset l) "")
                   (cell_bool (l_fungible l)) (l_subasset_longname l)]
           else []))
      (balances (db s0)) (others (db s0)).
Proof.
  unfold register_and_lock. intros H.
  assert (Heta : forall d, d = mk_db (issuances d) (assets d ++ [])
                                 (balances d) (others d)).
  { intros [i a b o]. simpl. rewrite app_nil_r. reflexivity. }
  destruct (l_status l =? "valid")%string.
  - destruct (cell_bool reissuance); cbn [negb andb] in *.
    + destruct (says_lock (l_description l)).
      * unfold bind, select_issuances in H.
        destruct (last_row (issuances_where "valid" (l_asset l) (db s0)));
          [|unfold lift in H; discriminate].
        unfold ret in H. inversion H. simpl. apply Heta.
      * unfold ret in H. inversion H. subst. apply Heta.
    + unfold bind, insert_asset in H.
      destruct (says_lock (l_description l));
        [unfold lift in H; discriminate|].
      unfold ret in H. inversion H. reflexivity.
  - unfold ret in H. inversion H. subst. apply Heta.
Qed.

End ValidLedger.

(** X23: the ledger after a valid message, step by step: the fee of the
    row is debited from the sender; on the first valid issuance of the
    asset its row of [assets] is added; the issuance row is added; for a
    non-fungible asset [assetgroup.create] is run; and the quantity of the
    row, when it is not zero, is credited to the sender (never to the
    destination, whose transfers carry quantity 0). *)
Theorem valid_message_ledger (E : Env) (tx : transaction)
  (message : list byte) (message_type_id : Z) (s s' : Store)
  (row : issuance_row)
  (Hrun : parse E tx message message_type_id s = Ok (row, s'))
  (Hvalid : i_status row = "valid") :
  exists u0 asset quantity,
    unpack E (tx_block_index tx) message message_type_id = Ok (Some u0)
    /\ i_asset row = Some asset
    /\ i_quantity row = Some quantity
    /\ let debited :=
         util_debit E (db s) (tx_source tx) (XCP E) (i_fee_paid row)
           "issuance fee" (tx_hash tx) in
       let written :=
         mk_db (issuances debited ++ [row])
           (assets debited
            ++ match last_row (issuances_where "valid" (Some asset)
                                 (db s)) with
               | Some _ => []
               | None => [registration tx (u_asset_id u0) asset
                            (u_fungible u0) (i_asset_longname row)]
               end)
           (balances debited) (others debited) in
       let grouped :=
         if u_fungible u0 then written
         else assetgroup_create E written (tx_index tx) (tx_hash tx)
                (tx_block_index tx) (i_asset_longname row) (i_issuer row)
                "valid" in
       db s' = (if quantity =? 0 then grouped
                else util_credit E grouped (tx_source tx) asset quantity
                       "issuance" (tx_hash tx)).
Proof.
  destruct (parse_valid E _ _ _ _ _ _ Hrun Hvalid)
    as (u0 & asset & l0 & v & reissuance & s1 & lock & description & s2
        & Hu & Hname & Hl0 & Hval & Hclean & Hre & Hdb & Hlock & Hrow
        & Hs').
  destruct (validate_clean E _ _ _ _ _ _ _ _ _ _ _ _ _ _ _ _ _ _ _ _ Hval
              Hclean)
    as (re & total & Hre' & _ & _ & Hzero & _ & Hlast).
  rewrite Hre in Hre'. injection Hre' as Hre'. subst re.
  assert (Hq : i_quantity row = Some (u_quantity u0)).
  { rewrite Hrow. simpl.
    destruct (nonempty (tx_destination tx)); [|reflexivity].
    rewrite (Hzero eq_refl). reflexivity. }
  exists u0, asset, (u_quantity u0).
  split; [exact Hu|]. split; [rewrite Hrow; reflexivity|].
  split; [exact Hq|].
  cbv zeta.
  pose proof (register_and_lock_db _ _ _ _ _ _ _ Hlock) as Hdb2.
  simpl in Hdb2. rewrite Hdb in Hdb2.
  assert (Hfee : i_fee_paid row = v_fee v) by (rewrite Hrow; reflexivity).
  assert (Hlong : i_asset_longname row
                  = if reissuance then v_reissued_asset_longname v
                    else l_subasset_longname l0)
    by (rewrite Hrow; reflexivity).
  assert (Hreg :
    (if negb reissuance
     then [registration tx (u_asset_id u0) asset (u_fungible u0)
             (l_subasset_longname l0)]
     else [])
    = match last_row (issuances_where "valid" (Some asset) (db s)) with
      | Some _ => []
      | None => [registration tx (u_asset_id u0) asset (u_fungible u0)
                   (i_asset_longname row)]
      end).
  { destruct (last_row (issuances_where "valid" (Some asset) (db s))).
    - destruct Hlast as [Ht _]. subst reissuance. reflexivity.
    - destruct Hlast as [Hf _]. subst reissuance. rewrite Hlong.
      reflexivity. }
  rewrite Hreg in Hdb2. rewrite Hfee.
  rewrite Hs'. rewrite Hq. simpl default.
  rewrite !db_when_db.
  unfold with_issuance. simpl db. rewrite Hdb2. simpl.
  destruct (u_quantity u0 =? 0); destruct (u_fungible u0); reflexivity.
Qed.

(** A first issuance of 100 units by a funded address: half a unit of the
    native asset is taken and 100 units of the new asset are given. *)
Lemma valid_message_ledger_witness :
  exists row s',
    parse (Fixture.env [] 320000) (Fixture.tx_at 320000 None)
      (Fixture.message_for (Fixture.env [] 320000) 95428956661682177 100)
      20 (Fixture.fresh Fixture.funded) = Ok (row, s')
    /\ balances (db s')
       = [mk_balance Fixture.alice "XCP" (1000 * UNIT - UNIT / 2);
          mk_balance Fixture.alice Fixture.numeric_asset 100].
Proof.
  destruct (parse (Fixture.env [] 320000) (Fixture.tx_at 320000 None)
              (Fixture.message_for (Fixture.env [] 320000)
                 95428956661682177 100)
              20 (Fixture.fresh Fixture.funded))
    as [[row s']|e] eqn:Hrun; [|vm_compute in Hrun; discriminate].
  assert (Hvalid : i_status row = "valid")
    by (vm_compute in Hrun; inversion Hrun; reflexivity).
  destruct (valid_message_ledger _ _ _ _ _ _ _ Hrun Hvalid)
    as (u0 & asset & quantity & Hu & Hasset & Hq & Hdb).
  exists row, s'. split; [reflexivity|].
  cbv zeta in Hdb. rewrite Hdb.
  vm_compute in Hu. injection Hu as Hu. subst u0.
  vm_compute in Hrun. injection Hrun as Hrow Hs. subst row.
  simpl in Hasset, Hq. injection Hasset as Hasset. injection Hq as Hq.
  subst asset quantity. vm_compute. reflexivity.
Defined.

(** ** What [compose] composes *)

Section Composed.
Context (E : Env).

(** Whatever the encoder of Type 20 wrote is read back, at a height where
    the long layout is read. *)
Lemma type20_decodes (block_index asset_id quantity : Z)
  (divisible listed reassignable vendable fungible callable_ : bool)
  (call_date : Z) (call_price : float) (data message : list byte) :
  ((block_index >? 283271) || TESTNET E || REGTEST E) = true ->
  encode_type20 E asset_id quantity divisible listed reassignable vendable
    fungible callable_ call_date call_price data = Ok message ->
  exists bits,
    f32_bits E (price_or_zero call_price) = Ok bits
    /\ 0 <= asset_id < 2 ^ 64 /\ 0 <= quantity < 2 ^ 64
    /\ 0 <= call_date < 2 ^ 32
    /\ unpack E block_index message ID
       = Ok (Some (mk_unpacked asset_id quantity divisible listed
                     reassignable vendable fungible callable_ call_date
                     (round6 E (f32_of_bits E (bits mod 2 ^ 32)))
                     (decode_description E
                        (if (List.length data =? 42)%nat
                         then x2a :: data else data))
                     None)).
Proof.
  intros Hlong Hencode.
  destruct (flags_round_trip divisible listed reassignable vendable fungible)
    as (Hflags & Hd & Hl & Hr & Hv & Hf).
  set (flags := flags_byte divisible listed reassignable vendable fungible)
    in *.
  set (n := List.length data) in *.
  set (tail := if (n <=? 42)%nat then pack_p (n + 1) data
               else pack_s n data).
  unfold encode_type20 in Hencode. fold flags in Hencode.
  fold n in Hencode. fold tail in Hencode.
  destruct (pack_uint 8 asset_id) as [a|] eqn:Ha; [|discriminate].
  destruct (pack_uint 8 quantity) as [q|] eqn:Hq; [|discriminate].
  destruct (pack_uint 1 flags) as [f|] eqn:Hfl; [|discriminate].
  destruct (pack_uint 4 call_date) as [d|] eqn:Hdt; [|discriminate].
  destruct (f32_bits E (price_or_zero call_price)) as [bits|] eqn:Hbits;
    [|discriminate].
  cbn [rbind] in Hencode.
  assert (Hmessage : a ++ q ++ f ++ pack_bool callable_ ++ d
                     ++ be_encode 4 bits ++ tail = message)
    by congruence.
  clear Hencode.
  apply pack_uint_inv in Ha, Hq, Hfl, Hdt.
  destruct Ha as [Hasset Ha], Hq as [Hquantity Hq], Hfl as [_ Hfl],
    Hdt as [Hdate Hdt].
  exists bits. split; [reflexivity|].
  split; [exact Hasset|]. split; [exact Hquantity|]. split; [exact Hdate|].
  set (c := pack_bool callable_) in *. set (b := be_encode 4 bits) in *.
  assert (La : List.length a = 8%nat) by (subst a; apply be_encode_length).
  assert (Lq : List.length q = 8%nat) by (subst q; apply be_encode_length).
  assert (Lf : List.length f = 1%nat) by (subst f; apply be_encode_length).
  assert (Lc : List.length c = 1%nat) by (destruct callable_; reflexivity).
  assert (Ld : List.length d = 4%nat) by (subst d; apply be_encode_length).
  assert (Lb : List.length b = 4%nat) by apply be_encode_length.
  assert (Sa : slice 0 8 message = a).
  { subst message. apply (slice_middle [] a). reflexivity. exact La. }
  assert (Sq : slice 8 16 message = q).
  { subst message. apply (slice_middle a q); [exact La | exact Lq]. }
  assert (Sf : slice 16 17 message = f).
  { subst message. rewrite (app_assoc a q).
    apply slice_middle; [rewrite length_app, La, Lq; reflexivity|].
    exact Lf. }
  assert (Sc : slice 17 18 message = c).
  { subst message. rewrite (app_assoc a q), (app_assoc (a ++ q) f).
    apply slice_middle; [rewrite !length_app, La, Lq, Lf; reflexivity|].
    exact Lc. }
  assert (Sd : slice 18 22 message = d).
  { subst message.
    rewrite (app_assoc a q), (app_assoc (a ++ q) f),
      (app_assoc ((a ++ q) ++ f) c).
    apply slice_middle;
      [rewrite !length_app, La, Lq, Lf, Lc; reflexivity|].
    exact Ld. }
  assert (Sb : slice 22 26 message = b).
  { subst message.
    rewrite (app_assoc a q), (app_assoc (a ++ q) f),
      (app_assoc ((a ++ q) ++ f) c), (app_assoc (((a ++ q) ++ f) ++ c) d).
    apply slice_middle;
      [rewrite !length_app, La, Lq, Lf, Lc, Ld; reflexivity|].
    exact Lb. }
  assert (Hfixed : message = (a ++ q ++ f ++ c ++ d ++ b) ++ tail).
  { subst message. repeat rewrite <- app_assoc. reflexivity. }
  assert (Lfixed : List.length (a ++ q ++ f ++ c ++ d ++ b) = 26%nat).
  { rewrite !length_app, La, Lq, Lf, Lc, Ld, Lb. reflexivity. }
  pose proof (tail_round_trip (a ++ q ++ f ++ c ++ d ++ b) data Lfixed)
    as Htail.
  cbv zeta in Htail. fold n in Htail. fold tail in Htail.
  rewrite <- Hfixed in Htail.
  assert (Hlen : (len message >=? LENGTH_2) = true).
  { rewrite Z.geb_leb. apply Z.leb_le. unfold len.
    rewrite Hfixed, length_app, Lfixed. unfold LENGTH_2. lia. }
  unfold unpack.
  replace (ID =? SUBASSET_ID) with false by reflexivity.
  rewrite Hlong, Hlen. simpl andb. cbv iota.
  unfold unpack_type20. rewrite Htail. simpl rbind.
  rewrite Sa, Sq, Sf, Sc, Sd, Sb.
  subst a q f d. unfold c, b.
  rewrite (be_decode_encode 8 asset_id) by exact Hasset.
  rewrite (be_decode_encode 8 quantity) by exact Hquantity.
  rewrite (be_decode_encode 1 flags) by exact Hflags.
  rewrite (be_decode_encode 4 call_date) by exact Hdate.
  rewrite unpack_pack_bool, Hd, Hl, Hr, Hv, Hf.
  unfold be_decode. rewrite be_decode_from_encode.
  replace (0 * 256 ^ Z.of_nat 4 + bits mod 256 ^ Z.of_nat 4)
    with (bits mod 2 ^ 32) by reflexivity.
  reflexivity.
Qed.

(** What [validate] hands back for the flags and the description, in every
    outcome. *)
Lemma validate_defaults source destination asset quantity divisible listed
  reassignable vendable fungible callable_ call_date call_price description
  subasset_parent subasset_longname block_index s v s' :
  validate E source destination asset quantity divisible listed reassignable
    vendable fungible callable_ call_date call_price description
    subasset_parent subasset_longname block_index s = Ok (v, s') ->
  v_divisible v = default divisible true
  /\ v_listed v = default listed true
  /\ v_reassignable v = default reassignable true
  /\ v_vendable v = default vendable true
  /\ v_fungible v = default fungible true
  /\ v_description v = default description "".
Proof.
  unfold validate. intros H.
  unfold bind at 1 in H. unfold lift at 1 in H.
  destruct (widen _) as [cp|]; [|discriminate].
  destruct (negb (isinstance_int quantity));
    [unfold ret in H; inversion H; simpl; auto 10|].
  match type of H with
  | (if ?c then _ else _) _ = _ => destruct c
  end; [unfold ret in H; inversion H; simpl; auto 10|].
  match type of H with
  | (if ?c then _ else _) _ = _ => destruct c
  end; [unfold ret in H; inversion H; simpl; auto 10|].
  unfold bind at 1 in H. unfold lift at 1 in H.
  destruct (int_of quantity) as [q|]; [|discriminate].
  destruct (validate_checked_inv E _ _ _ _ _ _ _ _ _ _ _ _ _ _ _ _ _ _ _ _
              H)
    as (signs & reissuance & ps & parent & fresh & funds & overflow & s1
        & s2 & s3 & s4 & _ & _ & _ & _ & _ & _ & _ & _ & _ & _ & _
        & Hdescr & Hd & Hli & Hr & Hve & Hfu).
  auto 10.
Qed.

End Composed.

Section ComposedMessage.
Context (E : Env).

(** A description of 42 bytes, written with its length and read as a raw
    tail, comes back behind a star. *)
Lemma decode_starred (description : string) :
  utf8_valid (encode_utf8 description) = true ->
  decode_description E
    (if (List.length (encode_utf8 description) =? 42)%nat
     then x2a :: encode_utf8 description else encode_utf8 description)
  = if (String.length description =? 42)%nat
    then String "*" description else description.
Proof.
  intros Htext. unfold encode_utf8 in *. rewrite length_list_byte.
  unfold decode_description.
  destruct (String.length description =? 42)%nat.
  - rewrite utf8_valid_star. rewrite Htext.
    unfold string_of_list_byte. simpl.
    fold (string_of_list_byte (list_byte_of_string description)).
    rewrite string_of_list_byte_of_string. reflexivity.
  - rewrite Htext. apply string_of_list_byte_of_string.
Qed.

(** The pieces of a run of [compose] that handed back a message. *)
Lemma compose_inv source transfer_destination asset quantity divisible
  listed reassignable vendable fungible description s src outs data s' :
  compose E source transfer_destination asset quantity divisible listed
    reassignable vendable fungible description s
  = Ok (Composed src outs data, s') ->
  exists callable_ call_date call_price name parent longname s0 s1 v q,
    compose_names E asset fungible s0 = Ok ((name, parent, longname), s1)
    /\ validate E source transfer_destination name quantity divisible
         listed reassignable vendable fungible callable_ call_date
         call_price description parent longname (CURRENT_BLOCK_INDEX E) s1
       = Ok (v, s')
    /\ v_problems v = []
    /\ int_of quantity = Ok q
    /\ src = source
    /\ outs = match transfer_destination with
              | Some destination =>
                  if nonempty transfer_destination
                  then [(destination, PNone)] else []
              | None => []
              end
    /\ let asset_id :=
         generate_asset_id E name (CURRENT_BLOCK_INDEX E) in
       match longname, cell_bool (v_reissuance v) with
       | Some long, false =>
           exists packed,
             encode_type21 E asset_id q (v_divisible v) (v_listed v)
               (v_reassignable v) (v_vendable v) (v_fungible v) long
               (encode_utf8 (v_description v)) = Ok packed
             /\ data = message_type_pack E SUBASSET_ID ++ packed
       | _, _ =>
           exists d p packed,
             int_or_zero (v_call_date v) = Ok d
             /\ float_or_zero (v_call_price v) = Ok p
             /\ encode_type20 E asset_id q (v_divisible v) (v_listed v)
                  (v_reassignable v) (v_vendable v) (v_fungible v)
                  callable_ d p (encode_utf8 (v_description v)) = Ok packed
             /\ data = message_type_pack E ID ++ packed
       end.
Proof.
  unfold compose. intros Hrun.
  unfold bind at 1 in Hrun. unfold select_issuances at 1 in Hrun.
  cbv beta iota in Hrun.
  remember (match last_row (issuances_where "valid" (Some asset) (db s))
            with
            | Some last_issuance =>
                (cell_bool (i_callable last_issuance),
                 i_call_date last_issuance, i_call_price last_issuance)
            | None => (false, PInt 0, PFloat fzero)
            end) as call eqn:Hcall.
  destruct call as [[callable_ call_date] call_price].
  unfold bind at 1 in Hrun.
  destruct (compose_names E asset fungible
              (record (SELECT T_issuances) s))
    as [[[[name parent] longname] s1]|] eqn:Hnames; [|discriminate].
  unfold bind at 1 in Hrun.
  destruct (validate E source transfer_destination name quantity divisible
              listed reassignable vendable fungible callable_ call_date
              call_price description parent longname
              (CURRENT_BLOCK_INDEX E) s1)
    as [[v s2]|] eqn:Hval; [|discriminate].
  destruct (v_problems v) eqn:Hproblems;
    [|unfold ret in Hrun; discriminate].
  unfold bind at 1 in Hrun. unfold lift at 1 in Hrun.
  destruct (int_of quantity) as [q|] eqn:Hq; [|discriminate].
  cbn [rbind] in Hrun.
  exists callable_, call_date, call_price, name, parent, longname,
    (record (SELECT T_issuances) s), s1, v, q.
  destruct longname as [long|].
  - destruct (cell_bool (v_reissuance v)) eqn:Hre.
    + destruct (int_or_zero (v_call_date v)) as [d|] eqn:Hd;
        [|discriminate].
      destruct (float_or_zero (v_call_price v)) as [p|] eqn:Hp;
        [|discriminate].
      cbn [rbind] in Hrun.
      destruct (encode_type20 E _ q _ _ _ _ _ callable_ d p _)
        as [packed|] eqn:Hpacked; [|discriminate].
      cbn [rbind] in Hrun. unfold ret in Hrun. inversion Hrun; subst.
      split; [first [exact Hnames | reflexivity]|].
      split; [first [exact Hval | reflexivity]|].
      split; [first [exact Hproblems | reflexivity]|].
      split; [first [exact Hq | reflexivity]|].
      split; [reflexivity|]. split; [reflexivity|].
      cbv zeta. rewrite ?Hre. exists d, p, packed.
      repeat split; first [assumption | reflexivity].
    + destruct (encode_type21 E _ q _ _ _ _ _ long _)
        as [packed|] eqn:Hpacked; [|discriminate].
      cbn [rbind] in Hrun. unfold ret in Hrun. inversion Hrun; subst.
      split; [first [exact Hnames | reflexivity]|].
      split; [first [exact Hval | reflexivity]|].
      split; [first [exact Hproblems | reflexivity]|].
      split; [first [exact Hq | reflexivity]|].
      split; [reflexivity|]. split; [reflexivity|].
      cbv zeta. rewrite ?Hre. exists packed.
      repeat split; first [assumption | reflexivity].
  - destruct (int_or_zero (v_call_date v)) as [d|] eqn:Hd;
      [|destruct (cell_bool (v_reissuance v)); discriminate].
    destruct (float_or_zero (v_call_price v)) as [p|] eqn:Hp;
      [|destruct (cell_bool (v_reissuance v)); discriminate].
    cbn [rbind] in Hrun.
    destruct (encode_type20 E _ q _ _ _ _ _ callable_ d p _)
      as [packed|] eqn:Hpacked;
      [|destruct (cell_bool (v_reissuance v)); discriminate].
    assert (Hdata : data = message_type_pack E ID ++ packed
                    /\ src = source /\ s2 = s'
                    /\ outs = match transfer_destination with
                              | Some destination =>
                                  if nonempty transfer_destination
                                  then [(destination, PNone)] else []
                              | None => []
                              end).
    { destruct (cell_bool (v_reissuance v)); cbn [rbind] in Hrun;
        unfold ret in Hrun; inversion Hrun; auto. }
    destruct Hdata as (Hdata & Hsrc & Hs & Houts). subst s2.
    split; [first [exact Hnames | reflexivity]|].
      split; [first [exact Hval | reflexivity]|].
    split; [first [exact Hproblems | reflexivity]|].
      split; [first [exact Hq | reflexivity]|].
    split; [exact Hsrc|]. split; [exact Houts|].
    cbv zeta. exists d, p, packed.
      repeat split; first [assumption | reflexivity].
Qed.

End ComposedMessage.

(** X24: what [compose] composes, the decoder of [parse] reads back. When
    [compose] hands back a message, [validate] had no problem with the
    candidate, the source is handed back with the destination as the only
    output (none without a destination), and the data are the message type
    (20 or 21) followed by a message that, at the current block, is
    unpacked to the quantity, the five flags with [None] read as [True],
    and the description with [None] read as empty, behind a star when it
    has 42 bytes and the type is 20. This at a height where the long
    layout is read and subassets are enabled, for a description that is
    well-formed text. *)
Theorem compose_message_decodes (E : Env) (source : string)
  (transfer_destination : option string) (asset : string)
  (quantity : pyval)
  (divisible listed reassignable vendable fungible : option bool)
  (description : option string) (s s' : Store) (src : string)
  (outs : list (string * pyval)) (data : list byte)
  (Hrun : compose E source transfer_destination asset quantity divisible
            listed reassignable vendable fungible description s
          = Ok (Composed src outs data, s'))
  (Hlong : ((CURRENT_BLOCK_INDEX E >? 283271) || TESTNET E || REGTEST E)
           = true)
  (Hsub : enabled E "subassets" (Some (CURRENT_BLOCK_INDEX E)) = true)
  (Htext : utf8_valid (encode_utf8 (default description "")) = true) :
  src = source
  /\ outs = (if nonempty transfer_destination
            then [(default transfer_destination "", PNone)] else [])
  /\ exists message_type_id message u0 q,
       data = message_type_pack E message_type_id ++ message
       /\ (message_type_id = ID \/ message_type_id = SUBASSET_ID)
       /\ int_of quantity = Ok q
       /\ unpack E (CURRENT_BLOCK_INDEX E) message message_type_id
          = Ok (Some u0)
       /\ u_quantity u0 = q
       /\ u_divisible u0 = default divisible true
       /\ u_listed u0 = default listed true
       /\ u_reassignable u0 = default reassignable true
       /\ u_vendable u0 = default vendable true
       /\ u_fungible u0 = default fungible true
       /\ u_description u0
          = (if (message_type_id =? ID)
                && (String.length (default description "") =? 42)%nat
             then String "*" (default description "")
             else default description "").
Proof.
  destruct (compose_inv E _ _ _ _ _ _ _ _ _ _ _ _ _ _ _ Hrun)
    as (callable_ & call_date & call_price & name & parent & longname & s0
        & s1 & v & q & Hnames & Hval & Hclean & Hq & Hsrc & Houts & Hdata).
  destruct (validate_defaults E _ _ _ _ _ _ _ _ _ _ _ _ _ _ _ _ _ _ _ Hval)
    as (Hd & Hl & Hr & Hv & Hf & Hdescr).
  split; [exact Hsrc|].
  split.
  { rewrite Houts. destruct transfer_destination; reflexivity. }
  cbv zeta in Hdata. rewrite Hd, Hl, Hr, Hv, Hf, Hdescr in Hdata.
  assert (H20 :
    (exists d p packed,
        int_or_zero (v_call_date v) = Ok d
        /\ float_or_zero (v_call_price v) = Ok p
        /\ encode_type20 E
             (generate_asset_id E name (CURRENT_BLOCK_INDEX E)) q
             (default divisible true) (default listed true)
             (default reassignable true) (default vendable true)
             (default fungible true) callable_ d p
             (encode_utf8 (default description "")) = Ok packed
        /\ data = message_type_pack E ID ++ packed) ->
    exists message_type_id message u0 q0,
      data = message_type_pack E message_type_id ++ message
      /\ (message_type_id = ID \/ message_type_id = SUBASSET_ID)
      /\ Ok q = Ok q0
      /\ unpack E (CURRENT_BLOCK_INDEX E) message message_type_id
         = Ok (Some u0)
      /\ u_quantity u0 = q0
      /\ u_divisible u0 = default divisible true
      /\ u_listed u0 = default listed true
      /\ u_reassignable u0 = default reassignable true
      /\ u_vendable u0 = default vendable true
      /\ u_fungible u0 = default fungible true
      /\ u_description u0
         = (if (message_type_id =? ID)
               && (String.length (default description "") =? 42)%nat
            then String "*" (default description "")
            else default description "")).
  { intros (d & p & packed & _ & _ & Hpacked & Hbytes).
    destruct (type20_decodes E _ _ _ _ _ _ _ _ _ _ _ _ _ Hlong Hpacked)
      as (bits & _ & _ & _ & _ & Hdecoded).
    rewrite (decode_starred E _ Htext) in Hdecoded.
    eexists ID, packed, _, q.
    split; [exact Hbytes|]. split; [left; reflexivity|].
    split; [reflexivity|]. split; [exact Hdecoded|].
    simpl. repeat split; reflexivity. }
  rewrite Hq.
  destruct longname as [long|]; [|exact (H20 Hdata)].
  destruct (cell_bool (v_reissuance v)); [exact (H20 Hdata)|].
  destruct Hdata as (packed & Hpacked & Hbytes).
  destruct (type21_decodes E _ _ _ _ _ _ _ _ _ _ _ Hsub Hpacked)
    as (_ & _ & Hdecoded).
  rewrite (decode_encoded E _ Htext) in Hdecoded.
  eexists SUBASSET_ID, packed, _, q.
  split; [exact Hbytes|]. split; [right; reflexivity|].
  split; [reflexivity|]. split; [exact Hdecoded|].
  simpl. repeat split; reflexivity.
Qed.

(** A first issuance of a thousand units with a description of forty-two
    letters. *)
Lemma compose_message_decodes_witness :
  exists data s' message u0,
    compose (Fixture.env ["subassets"] 320000) Fixture.alice None
      Fixture.numeric_asset (PInt 1000) None None None None None
      (Some Fixture.forty_two) (Fixture.fresh Fixture.funded)
    = Ok (Composed Fixture.alice [] data, s')
    /\ data = [x14] ++ message
    /\ unpack (Fixture.env ["subassets"] 320000) 320000 message ID
       = Ok (Some u0)
    /\ u_quantity u0 = 1000
    /\ u_description u0 = String "*" Fixture.forty_two.
Proof.
  destruct (compose (Fixture.env ["subassets"] 320000) Fixture.alice
              None Fixture.numeric_asset (PInt 1000) None None None None None
              (Some Fixture.forty_two) (Fixture.fresh Fixture.funded))
    as [[[src outs data|problems] s']|e] eqn:Hrun;
    try (vm_compute in Hrun; discriminate).
  destruct (compose_message_decodes (Fixture.env ["subassets"] 320000)
              _ _ _ _ _ _ _ _ _ _ _ _ _ _ _ Hrun eq_refl eq_refl eq_refl)
    as (Hsrc & Houts & mt & message & u0 & q & Hdata & Hmt & Hq & Hu
        & Hquantity & _ & _ & _ & _ & _ & Hdescr).
  assert (Hid : mt = ID).
  { destruct Hmt as [Hmt|Hmt]; [exact Hmt|]. exfalso. subst mt.
    vm_compute in Hrun. injection Hrun as _ _ Hbytes.
    rewrite <- Hbytes in Hdata. simpl in Hdata. discriminate. }
  subst mt. simpl in Hsrc, Houts, Hq. injection Hq as Hq. subst src outs q.
  exists data, s', message, u0.
  split; [reflexivity|]. split; [exact Hdata|]. split; [exact Hu|].
  split; [exact Hquantity|]. exact Hdescr.
Defined.

(** ** Vendability *)

(** X25: [is_vendable] after a valid run of [parse], for a transaction
    whose index is above every index in [issuances]. Asked about a name
    that resolves to the asset of the row (and is not the native asset),
    it answers from the flags of the message just parsed: [True] exactly
    when dispensers are enabled, the message says vendable, and either
    [enable_vendable_fix] is enabled or the message says both reassignable
    and listed. (The collaborators are supposed to leave [issuances]
    alone.) *)
Theorem is_vendable_after_parse (E : Env)
  (resolve_subasset_longname : DB -> string -> string)
  (tx : transaction) (message : list byte) (message_type_id : Z)
  (s s' : Store) (row : issuance_row) (name : string)
  (Hkeeps : keeps_issuances E)
  (Hlater : forall r, In r (issuances (db s)) ->
                      i_tx_index r < tx_index tx)
  (Hrun : parse E tx message message_type_id s = Ok (row, s'))
  (Hvalid : i_status row = "valid")
  (Hnative : name <> XCP E)
  (Hname : i_asset row = Some (resolve_subasset_longname (db s') name)) :
  exists u0,
    unpack E (tx_block_index tx) message message_type_id = Ok (Some u0)
    /\ is_vendable E resolve_subasset_longname name s'
       = Ok (Some (enabled E "dispensers" None
                   && (enabled E "enable_vendable_fix" None
                       || (u_reassignable u0 && u_listed u0))
                   && u_vendable u0),
             record (SELECT T_issuances) s').
Proof.
  assert (Horder : forall r, In r (issuances (db s)) ->
                             i_tx_index r <= tx_index tx)
    by (intros r Hr; apply Z.lt_le_incl; apply Hlater; exact Hr).
  pose proof (valid_row_is_last E _ _ _ _ _ _ _ Hkeeps Horder Hrun Hvalid
                Hname) as Hlast.
  destruct (parse_valid E _ _ _ _ _ _ Hrun Hvalid)
    as (u0 & asset & l0 & v & reissuance & s1 & lock & description & s2
        & Hu & _ & _ & _ & _ & _ & _ & _ & Hrow & _).
  exists u0. split; [exact Hu|].
  unfold is_vendable.
  replace (name =? XCP E)%string with false
    by (symmetry; apply String.eqb_neq; exact Hnative).
  unfold bind at 1. unfold get_db at 1.
  unfold bind at 1. unfold select_issuances at 1.
  rewrite Hlast. rewrite Hrow. simpl.
  destruct (enabled E "dispensers" None),
    (enabled E "enable_vendable_fix" None), (u_reassignable u0),
    (u_listed u0), (u_vendable u0); reflexivity.
Qed.

Lemma is_vendable_after_parse_witness :
  exists row s',
    parse (Fixture.env ["dispensers"] 320000) (Fixture.tx_at 320000 None)
      (Fixture.message_for (Fixture.env ["dispensers"] 320000)
         95428956661682177 5)
      20 (Fixture.fresh Fixture.nearly_full) = Ok (row, s')
    /\ is_vendable (Fixture.env ["dispensers"] 320000) (fun _ name => name)
         Fixture.numeric_asset s'
       = Ok (Some true, record (SELECT T_issuances) s').
Proof.
  destruct (parse (Fixture.env ["dispensers"] 320000)
              (Fixture.tx_at 320000 None)
              (Fixture.message_for (Fixture.env ["dispensers"] 320000)
                 95428956661682177 5)
              20 (Fixture.fresh Fixture.nearly_full))
    as [[row s']|e] eqn:Hrun; [|vm_compute in Hrun; discriminate].
  assert (Hkeeps : keeps_issuances (Fixture.env ["dispensers"] 320000))
    by (repeat split; intros; reflexivity).
  assert (Horder : forall r,
             In r (issuances (db (Fixture.fresh Fixture.nearly_full))) ->
             i_tx_index r < tx_index (Fixture.tx_at 320000 None)).
  { intros r Hr. simpl in Hr. destruct Hr as [Hr|[]]. subst r.
    simpl. lia. }
  assert (Hrow : i_status row = "valid"
                 /\ i_asset row = Some Fixture.numeric_asset).
  { vm_compute in Hrun. inversion Hrun. split; reflexivity. }
  destruct Hrow as [Hvalid Hasset].
  destruct (is_vendable_after_parse (Fixture.env ["dispensers"] 320000)
              (fun _ name => name) _ _ _ _ _ _ Fixture.numeric_asset
              Hkeeps Horder Hrun Hvalid)
    as (u0 & Hu & Hanswer).
  - discriminate.
  - exact Hasset.
  - exists row, s'. split; [reflexivity|].
    rewrite Hanswer.
    vm_compute in Hu. injection Hu as Hu. subst u0. reflexivity.
Defined.

(** ** Non-fungible assets and subassets *)

(** X26: a valid row whose message says non-fungible. Such a message is
    accepted only when [non_fungible_assets] is enabled; it is
    indivisible and carries quantity 1, which the row keeps; and it is
    never a transfer: the transaction has no destination, the issuer of
    the row is the sender. *)
Theorem valid_nonfungible_row (E : Env) (tx : transaction)
  (message : list byte) (message_type_id : Z) (s s' : Store)
  (row : issuance_row)
  (Hrun : parse E tx message message_type_id s = Ok (row, s'))
  (Hvalid : i_status row = "valid")
  (Hnonfungible : i_fungible row = Some false) :
  enabled E "non_fungible_assets" None = true
  /\ i_divisible row = Some false
  /\ i_quantity row = Some 1
  /\ nonempty (tx_destination tx) = false
  /\ i_transfer row = false
  /\ i_issuer row = tx_source tx.
Proof.
  destruct (parse_valid E _ _ _ _ _ _ Hrun Hvalid)
    as (u0 & asset & l0 & v & reissuance & s1 & lock & description & s2
        & _ & _ & _ & Hval & Hclean & _ & _ & _ & Hrow & _).
  destruct (validate_clean E _ _ _ _ _ _ _ _ _ _ _ _ _ _ _ _ _ _ _ _ Hval
              Hclean)
    as (re & total & _ & _ & _ & Hzero & Hfung & _).
  assert (Hf : u_fungible u0 = false).
  { rewrite Hrow in Hnonfungible. simpl in Hnonfungible. congruence. }
  unfold fungibility_problems in Hfung. rewrite Hf in Hfung.
  simpl in Hfung.
  destruct (enabled E "non_fungible_assets" None); [|discriminate].
  destruct (u_divisible u0) eqn:Hd; [discriminate|].
  destruct (u_quantity u0 =? 1) eqn:Hq; [|discriminate].
  apply Z.eqb_eq in Hq.
  assert (Hdest : nonempty (tx_destination tx) = false).
  { destruct (nonempty (tx_destination tx)); [|reflexivity].
    pose proof (Hzero eq_refl). lia. }
  rewrite Hrow. simpl. rewrite ?Hdest, ?Hd, ?Hq. auto 10.
Qed.

Lemma valid_nonfungible_row_witness :
  exists row s',
    parse (Fixture.env ["non_fungible_assets"] 320000)
      (Fixture.tx_at 320000 None)
      (match encode_type20 (Fixture.env ["non_fungible_assets"] 320000)
               95428956661682177 1 false true true true false false 0
               fzero [] with
       | Ok m => m
       | Raise _ => []
       end)
      20 (Fixture.fresh Fixture.funded) = Ok (row, s')
    /\ i_quantity row = Some 1
    /\ i_issuer row = Fixture.alice.
Proof.
  destruct (parse (Fixture.env ["non_fungible_assets"] 320000)
              (Fixture.tx_at 320000 None)
              (match encode_type20
                       (Fixture.env ["non_fungible_assets"] 320000)
                       95428956661682177 1 false true true true false
                       false 0 fzero [] with
               | Ok m => m
               | Raise _ => []
               end)
              20 (Fixture.fresh Fixture.funded))
    as [[row s']|e] eqn:Hrun; [|vm_compute in Hrun; discriminate].
  assert (Hrow : i_status row = "valid" /\ i_fungible row = Some false).
  { vm_compute in Hrun. inversion Hrun. split; reflexivity. }
  destruct Hrow as [Hvalid Hnonfungible].
  destruct (valid_nonfungible_row _ _ _ _ _ _ _ Hrun Hvalid Hnonfungible)
    as (_ & _ & Hq & _ & _ & Hissuer).
  exists row, s'. split; [reflexivity|]. split; [exact Hq | exact Hissuer].
Defined.

Section Subassets.
Context (E : Env).

Lemma parent_clean source parent longname s s' :
  parent_problems E source true parent (Some longname) s = Ok ([], s') ->
  exists last_parent_issuance,
    last_row (issuances_where "valid" parent (db s))
    = Some last_parent_issuance
    /\ i_issuer last_parent_issuance = source.
Proof.
  unfold parent_problems, bind, select_issuances, ret. intros H.
  destruct (last_row (issuances_where "valid" parent (db s)))
    as [last_parent_issuance|]; [|discriminate].
  exists last_parent_issuance. split; [reflexivity|].
  destruct (i_issuer last_parent_issuance =? source)%string eqn:Heq;
    [apply String.eqb_eq; exact Heq | discriminate].
Qed.

Lemma new_subasset_clean asset longname s s' :
  new_subasset_problems asset true false (Some longname) s = Ok ([], s') ->
  assets_where longname (db s) = []
  /\ exists rest, asset = String "A" rest.
Proof.
  unfold new_subasset_problems, bind, select_assets, ret, lift.
  simpl. intros H.
  destruct asset as [|c rest]; [discriminate|]. simpl in H.
  destruct (assets_where longname (db s)) as [|a found].
  - split; [reflexivity|].
    destruct (Ascii.eqb c "A") eqn:Hc; [|discriminate].
    apply Ascii.eqb_eq in Hc. subst c. exists rest. reflexivity.
  - exfalso. simpl in H.
    destruct (0 <? Z.pos (Pos.of_succ_nat (List.length found))) eqn:Hlt;
      [discriminate|].
    apply Z.ltb_ge in Hlt. lia.
Qed.

End Subassets.

(** X27: a fungible subasset on which [validate] reports no problem. The
    parent has a valid issuance and the last one names the candidate's
    source as issuer; and when the asset has no valid issuance yet, no row
    of [assets] carries the long name, and the name of the asset begins
    with the letter A of the numeric names. *)
Theorem clean_subasset_issuance (E : Env) (source : string)
  (destination : option string) (asset : string) (q : Z)
  (divisible listed reassignable vendable fungible : option bool)
  (callable_ : bool) (call_date call_price : pyval)
  (description : option string)
  (subasset_parent : option string) (longname : string) (block_index : Z)
  (s : Store) (cd : Z) (cp : float)
  (Hdate : resolved_date call_date = PInt cd)
  (Hprice : resolved_price call_price = PFloat cp)
  (Hfilled : well_filled (db s))
  (Hname : asset <> "")
  (Hfungible : default fungible true = true) :
  exists v s',
    validate E source destination asset (PInt q) divisible listed
      reassignable vendable fungible callable_ call_date call_price
      description subasset_parent (Some longname) block_index s
    = Ok (v, s')
    /\ (v_problems v = [] ->
        (exists last_parent_issuance,
            last_row (issuances_where "valid" subasset_parent (db s))
            = Some last_parent_issuance
            /\ i_issuer last_parent_issuance = source)
        /\ (last_row (issuances_where "valid" (Some asset) (db s)) = None ->
            assets_where longname (db s) = []
            /\ exists rest, asset = String "A" rest)).
Proof.
  destruct (validate_typed_run E source destination asset q divisible listed
              reassignable vendable fungible callable_ call_date call_price
              description subasset_parent (Some longname) block_index cd
              cp s Hdate Hprice Hfilled (or_intror Hname))
    as [v [s' [Hrun Hchecked]]].
  exists v, s'. split; [exact Hrun|]. intros Hclean.
  rewrite Hfungible in Hchecked.
  destruct (validate_checked_inv E _ _ _ _ _ _ _ _ _ _ _ _ _ _ _ _ _ _ _ _
              Hchecked)
    as (signs & reissuance & ps & parent & fresh & funds & overflow & s1
        & s2 & s3 & s4 & _ & Hlast & Hdb1 & Hparent & Hfresh & _ & _
        & Hproblems & _).
  rewrite Hclean in Hproblems. symmetry in Hproblems.
  remember (late_problems E (default description "") (default listed true)
              (default reassignable true) block_index) as late.
  do 5 (apply app_eq_nil in Hproblems; destruct Hproblems as [_ Hproblems]).
  apply app_eq_nil in Hproblems. destruct Hproblems as [Hp Hproblems].
  apply app_eq_nil in Hproblems. destruct Hproblems as [Hf _].
  subst parent fresh.
  split.
  - destruct (parent_clean E _ _ _ _ _ Hparent) as [last [Hl Hi]].
    rewrite Hdb1 in Hl. exists last. auto.
  - intros Hnone. rewrite Hnone in Hlast. destruct Hlast as [Hre _].
    subst reissuance.
    assert (Hdb2 : db s2 = db s).
    { destruct (reads_parent_problems E _ _ _ _ _ _ _ Hparent) as [H2 _].
      congruence. }
    rewrite <- Hdb2. exact (new_subasset_clean _ _ _ _ Hfresh).
Qed.

Lemma clean_subasset_issuance_witness :
  exists v s',
    validate (Fixture.env ["numeric_asset_names"; "subassets"] 320000)
      Fixture.alice None "A10000000000000000001" (PInt 5) None None None
      None None false PNone PNone None (Some Fixture.numeric_asset)
      (Some "PARENT.child") 320000 (Fixture.fresh Fixture.nearly_full)
    = Ok (v, s')
    /\ v_problems v = [].
Proof.
  destruct (clean_subasset_issuance
              (Fixture.env ["numeric_asset_names"; "subassets"] 320000)
              Fixture.alice None "A10000000000000000001" 5 None None None
              None None false PNone PNone None
              (Some Fixture.numeric_asset) "PARENT.child" 320000
              (Fixture.fresh Fixture.nearly_full) 0 fzero eq_refl eq_refl)
    as [v [s' [Hrun _]]].
  - intros r Hr _. simpl in Hr. destruct Hr as [Hr|[]]. subst r.
    repeat split; discriminate.
  - discriminate.
  - reflexivity.
  - exists v, s'. split; [exact Hrun|].
    vm_compute in Hrun. inversion Hrun. reflexivity.
Defined.
